(** * Verification of the CSV data anonymizer ([src/main.py])

    The program is a linear pipeline over a pandas table:
    [read_csv] -> [mask_data] -> noise every numeric column -> [to_csv].

    The development embeds the Python functions of [src/main.py] shallowly:
    - Python strings are sequences of Unicode code points, [str.encode()]
      is UTF-8 and fails on surrogates;
    - [hashlib.sha256(..).hexdigest()] is SHA-256 (FIPS 180-4) on 32-bit
      words written as [Z] with the wrap-around spelled out;
    - floats are IEEE binary64 ([PrimFloat]);
    - Python exceptions, [print] (which raises when standard output cannot
      encode a line), the random generator and the written files are
      threaded through a small state-and-exception monad in which the state
      survives a raised exception, as in Python. *)

From Stdlib Require Import ZArith List String Ascii Bool Lia DecimalString.
From Stdlib Require Import Floats.PrimFloat Floats.SpecFloat Floats.FloatOps
  Floats.FloatAxioms.
Import ListNotations.
Local Open Scope Z_scope.

(* ===================================================================== *)
(** ** Python exceptions and results *)

(** The exception classes the program can meet.  All of them derive from
    Python's [Exception]. *)
Inductive exn : Type :=
| FileNotFoundError
| ParserError
| KeyError (key : list Z)
| UnicodeEncodeError
| ZeroDivisionError
| ValueError (msg : string)
| TypeError
| OverflowError
| OtherError (name : string).

Inductive result (A : Type) : Type :=
| Ok (a : A)
| Raise (e : exn).
Arguments Ok {A} a.
Arguments Raise {A} e.

(* ===================================================================== *)
(** ** Python strings and [str.encode()] *)

Module PyStr.

(** A Python [str]: its code points, each in [0, 0x10FFFF]. *)
Definition pystr := list Z.

(** A string literal of the source: one code point per character. *)
Definition lit (s : string) : pystr :=
  map (fun a => Z.of_N (N_of_ascii a)) (list_ascii_of_string s).

Definition is_surrogate (c : Z) : bool := (0xD800 <=? c) && (c <=? 0xDFFF).

(** UTF-8 of one code point; lone surrogates cannot be encoded. *)
Definition encode_cp (c : Z) : result (list Z) :=
  if c <? 0x80 then Ok [c]
  else if c <? 0x800 then Ok [0xC0 + c / 64; 0x80 + c mod 64]
  else if is_surrogate c then Raise UnicodeEncodeError
  else if c <? 0x10000 then
    Ok [0xE0 + c / 4096; 0x80 + (c / 64) mod 64; 0x80 + c mod 64]
  else
    Ok [0xF0 + c / 262144; 0x80 + (c / 4096) mod 64;
        0x80 + (c / 64) mod 64; 0x80 + c mod 64].

(** [s.encode()]: the default encoding is UTF-8 with strict errors. *)
Fixpoint encode (s : pystr) : result (list Z) :=
  match s with
  | [] => Ok []
  | c :: s' =>
      match encode_cp c with
      | Raise e => Raise e
      | Ok bs =>
          match encode s' with
          | Raise e => Raise e
          | Ok rest => Ok (bs ++ rest)
          end
      end
  end.

(** Strings [encode] accepts: no lone surrogate. *)
Definition encodable (s : pystr) : bool :=
  forallb (fun c => negb (is_surrogate c)) s.

Definition eqb (s t : pystr) : bool :=
  if list_eq_dec Z.eq_dec s t then true else false.

End PyStr.
Export PyStr(pystr).

(* ===================================================================== *)
(** ** SHA-256, as [hashlib.sha256] computes it *)

Module SHA256.

Definition w32 (x : Z) : Z := x mod 2 ^ 32.
Definition add32 (x y : Z) : Z := w32 (x + y).
Definition rotr (n x : Z) : Z :=
  Z.lor (Z.shiftr x n) (w32 (Z.shiftl x (32 - n))).
Definition not32 (x : Z) : Z := Z.lxor x 0xFFFFFFFF.

Definition Ch (x y z : Z) : Z := Z.lxor (Z.land x y) (Z.land (not32 x) z).
Definition Maj (x y z : Z) : Z :=
  Z.lxor (Z.lxor (Z.land x y) (Z.land x z)) (Z.land y z).
Definition bsig0 (x : Z) : Z :=
  Z.lxor (Z.lxor (rotr 2 x) (rotr 13 x)) (rotr 22 x).
Definition bsig1 (x : Z) : Z :=
  Z.lxor (Z.lxor (rotr 6 x) (rotr 11 x)) (rotr 25 x).
Definition ssig0 (x : Z) : Z :=
  Z.lxor (Z.lxor (rotr 7 x) (rotr 18 x)) (Z.shiftr x 3).
Definition ssig1 (x : Z) : Z :=
  Z.lxor (Z.lxor (rotr 17 x) (rotr 19 x)) (Z.shiftr x 10).

(** The constants of FIPS 180-4 are fractional parts of roots of the
    first primes; they are computed here rather than tabulated. *)
Definition is_prime (n : nat) : bool :=
  forallb (fun d => negb (Nat.eqb (Nat.modulo n d) 0)) (seq 2 (n - 2)).

Definition primes : list Z :=
  map Z.of_nat (filter is_prime (seq 2 310)).

(** Integer cube root, one bit at a time from the top. *)
Definition icbrt (n : Z) : Z :=
  fold_left (fun r b =>
               let r' := r + 2 ^ Z.of_nat b in
               if r' * r' * r' <=? n then r' else r)
            (rev (seq 0 40)) 0.

(** The first 32 bits of the fractional part of a cube root, and of a
    square root. *)
Definition frac_cbrt32 (p : Z) : Z := w32 (icbrt (p * 2 ^ 96)).
Definition frac_sqrt32 (p : Z) : Z := w32 (Z.sqrt (p * 2 ^ 64)).

(** The sixty-four round constants. *)
Definition K : list Z := Eval vm_compute in map frac_cbrt32 primes.

(** The eight working variables / chaining values. *)
Record regs : Type := Regs
  { ra : Z; rb : Z; rc : Z; rd : Z; re : Z; rf : Z; rg : Z; rh : Z }.

(** The initial hash value. *)
Definition H0 : regs :=
  Eval vm_compute in
    let h i := frac_sqrt32 (nth i primes 0) in
    Regs (h 0%nat) (h 1%nat) (h 2%nat) (h 3%nat)
         (h 4%nat) (h 5%nat) (h 6%nat) (h 7%nat).

(** Padding: a 1 bit, zeros, and the bit length on 64 bits, up to a
    multiple of 64 bytes. *)
Definition be_bytes (n : nat) (x : Z) : list Z :=
  map (fun i => (x / 2 ^ (8 * Z.of_nat i)) mod 256) (rev (seq 0 n)).

Definition pad (msg : list Z) : list Z :=
  let len := Z.of_nat (List.length msg) in
  msg ++ [0x80] ++ repeat 0 (Z.to_nat ((55 - len) mod 64))
      ++ be_bytes 8 (8 * len).

Fixpoint blocks (n : nat) (bs : list Z) : list (list Z) :=
  match n with
  | O => []
  | S n' => firstn 64 bs :: blocks n' (skipn 64 bs)
  end.

Fixpoint words (n : nat) (bs : list Z) : list Z :=
  match n with
  | O => []
  | S n' =>
      match bs with
      | b0 :: b1 :: b2 :: b3 :: rest =>
          (b0 * 16777216 + b1 * 65536 + b2 * 256 + b3) :: words n' rest
      | _ => []
      end
  end.

(** The message schedule as a sliding window of the last sixteen words:
    the head is [W t], the next word is
    [ssig1 (W (t+14)) + W (t+9) + ssig0 (W (t+1)) + W t]. *)
Definition advance (win : list Z) : list Z :=
  let nxt := add32 (add32 (ssig1 (nth 14 win 0)) (nth 9 win 0))
                   (add32 (ssig0 (nth 1 win 0)) (nth 0 win 0)) in
  tl win ++ [nxt].

Definition round (k wt : Z) (r : regs) : regs :=
  let t1 := add32 (add32 (add32 (rh r) (bsig1 (re r)))
                         (add32 (Ch (re r) (rf r) (rg r)) k)) wt in
  let t2 := add32 (bsig0 (ra r)) (Maj (ra r) (rb r) (rc r)) in
  Regs (add32 t1 t2) (ra r) (rb r) (rc r) (add32 (rd r) t1)
       (re r) (rf r) (rg r).

Fixpoint rounds (ks win : list Z) (r : regs) : regs :=
  match ks with
  | [] => r
  | k :: ks' => rounds ks' (advance win) (round k (hd 0 win) r)
  end.

Definition compress (h : regs) (block : list Z) : regs :=
  let r := rounds K (words 16 block) h in
  Regs (add32 (ra h) (ra r)) (add32 (rb h) (rb r))
       (add32 (rc h) (rc r)) (add32 (rd h) (rd r))
       (add32 (re h) (re r)) (add32 (rf h) (rf r))
       (add32 (rg h) (rg r)) (add32 (rh h) (rh r)).

Definition regs_words (r : regs) : list Z :=
  [ra r; rb r; rc r; rd r; re r; rf r; rg r; rh r].

(** [hashlib.sha256(msg).digest()]: 32 bytes. *)
Definition digest (msg : list Z) : list Z :=
  let p := pad msg in
  let h := fold_left compress (blocks (List.length p / 64) p) H0 in
  flat_map (be_bytes 4) (regs_words h).

Definition hex_digit (d : Z) : Z := if d <? 10 then 48 + d else 87 + d.

Definition hex_byte (b : Z) : list Z := [hex_digit (b / 16); hex_digit (b mod 16)].

(** [hashlib.sha256(msg).hexdigest()]: a Python [str] of lower-case
    hexadecimal digits. *)
Definition hexdigest (msg : list Z) : pystr := flat_map hex_byte (digest msg).

(** The characters [0-9a-f]. *)
Definition is_hex_char (c : Z) : bool :=
  ((48 <=? c) && (c <=? 57)) || ((97 <=? c) && (c <=? 102)).

End SHA256.

(* ===================================================================== *)
(** ** Cells, columns and tables (the pandas objects the program uses) *)

(** A cell as the lambdas of [Series.apply] receive it: a Python [int],
    [float], [bool] or [str].  A missing value is the float [nan]. *)
Inductive value : Type :=
| VInt (z : Z)
| VFloat (x : float)
| VBool (b : bool)
| VStr (s : pystr).

Inductive dtype : Type := Int64 | Float64 | BoolDtype | ObjectDtype.

Record Series : Type := mkSeries { dtype_of : dtype; values : list value }.

(** A DataFrame: its named columns, in column order.  Rows are aligned by
    position. *)
Definition DataFrame : Type := list (pystr * Series).

Definition columns (df : DataFrame) : list pystr := map fst df.

(** [df[column]]: a missing label raises [KeyError]. *)
Fixpoint getitem (df : DataFrame) (column : pystr) : result Series :=
  match df with
  | [] => Raise (KeyError column)
  | (name, s) :: rest =>
      if PyStr.eqb name column then Ok s else getitem rest column
  end.

(** [df[column] = s]: replaces the column in place, or appends a new one. *)
Fixpoint setitem (df : DataFrame) (column : pystr) (s : Series) : DataFrame :=
  match df with
  | [] => [(column, s)]
  | (name, old) :: rest =>
      if PyStr.eqb name column then (name, s) :: rest
      else (name, old) :: setitem rest column s
  end.

(** [pd.api.types.is_numeric_dtype]: integer, floating and boolean dtypes
    are numeric, [object] is not. *)
Definition is_numeric_dtype (d : dtype) : bool :=
  match d with
  | Int64 | Float64 | BoolDtype => true
  | ObjectDtype => false
  end.

Definition is_int (v : value) : bool := match v with VInt _ => true | _ => false end.
Definition is_float (v : value) : bool := match v with VFloat _ => true | _ => false end.
Definition is_bool (v : value) : bool := match v with VBool _ => true | _ => false end.
Definition is_str (v : value) : bool := match v with VStr _ => true | _ => false end.

(** The dtype pandas infers for the results of [Series.apply]: homogeneous
    floats, integers or booleans get their numeric dtype, anything else
    (strings in particular) is [object].  The two lambdas of the program
    return only strings, respectively only floats. *)
Definition infer_dtype (vs : list value) : dtype :=
  if forallb is_float vs then Float64
  else if forallb is_int vs then Int64
  else if forallb is_bool vs then BoolDtype
  else ObjectDtype.

(** Conversion of a Python [int] to a float, correctly rounded. *)
Definition float_of_Z (z : Z) : float :=
  SF2Prim (binary_normalize prec emax z 0 false).

(** The least magnitude that rounds beyond the largest float,
    [2^1024 - 2^970]. *)
Definition float_overflow : Z := Eval vm_compute in 2 ^ 1024 - 2 ^ 970.

(** An [int] operand of a float operation: Python converts it, and raises
    [OverflowError] when it is too large for a float. *)
Definition py_float_of_int (z : Z) : result float :=
  if Z.abs z <? float_overflow then Ok (float_of_Z z) else Raise OverflowError.

(* ===================================================================== *)
(** ** What lies outside [src/main.py] *)

(** What the program prints, one constructor per [print] of the source. *)
Inductive message : Type :=
| MsgNoiseError (column : pystr) (e : exn)
| MsgHashError (column : pystr) (e : exn)
| MsgFileNotFound (input_file : pystr)
| MsgParseError
| MsgReadError (e : exn)
| MsgWritten (output_file : pystr)
| MsgWriteError (output_file : pystr) (e : exn).

(** The environment of a run: Python's [str] on floats, pandas' reader and
    writer against the file system, numpy's global random generator, given
    as the variate its [n]-th call returns for a location and a scale, and
    standard output, given as the lines its encoding can take (under UTF-8
    a line with a lone surrogate in a column name or a path cannot be
    encoded). *)
Record Env : Type := mkEnv
  { float_repr : float -> string;
    read_csv : pystr -> result DataFrame;
    to_csv_error : pystr -> DataFrame -> option exn;
    laplace_variate : nat -> float -> float -> float;
    stdout_prints : message -> bool }.

(** The mutable world of a run. *)
Record State : Type := mkState
  { stdout : list message;
    rng_calls : nat;
    to_csv_calls : list (pystr * DataFrame);
    files : list (pystr * DataFrame) }.

(* ===================================================================== *)
(** ** State and exceptions *)

Definition M (A : Type) : Type := State -> result A * State.

Definition ret {A} (a : A) : M A := fun st => (Ok a, st).

Definition bind {A B} (m : M A) (k : A -> M B) : M B :=
  fun st =>
    match m st with
    | (Ok a, st') => k a st'
    | (Raise e, st') => (Raise e, st')
    end.

Definition lift {A} (r : result A) : M A := fun st => (r, st).

(** [try: body / except Exception as e: handler e]. *)
Definition try_except {A} (body : M A) (handler : exn -> M A) : M A :=
  fun st =>
    match body st with
    | (Ok a, st') => (Ok a, st')
    | (Raise e, st') => handler e st'
    end.

Declare Scope py_scope.
Delimit Scope py_scope with py.
Notation "x <- m ;; k" := (bind m (fun x => k))
  (at level 61, m at next level, right associativity) : py_scope.
Notation "m ;;; k" := (bind m (fun _ => k))
  (at level 61, right associativity) : py_scope.
Local Open Scope py_scope.

Fixpoint mapM {A B} (f : A -> M B) (l : list A) : M (list B) :=
  match l with
  | [] => ret []
  | x :: l' => y <- f x ;; ys <- mapM f l' ;; ret (y :: ys)
  end.

(** [print(line)]: standard output encodes the line; when it cannot,
    [print] raises [UnicodeEncodeError] and nothing is written. *)
Definition print (E : Env) (m : message) : M unit :=
  fun st =>
    if stdout_prints E m then
      (Ok tt, mkState (stdout st ++ [m]) (rng_calls st)
                      (to_csv_calls st) (files st))
    else (Raise UnicodeEncodeError, st).

(** [Series.apply(f)]: an empty Series comes back empty with its dtype;
    otherwise [f] runs on the cells in row order and the dtype of the
    result is inferred. *)
Definition Series_apply (f : value -> M value) (s : Series) : M Series :=
  match values s with
  | [] => ret (mkSeries (dtype_of s) [])
  | _ => vs <- mapM f (values s) ;; ret (mkSeries (infer_dtype vs) vs)
  end.

(* ===================================================================== *)
(** ** The functions of [src/main.py] *)

(** [str(x)] *)
Definition py_str (E : Env) (x : value) : pystr :=
  match x with
  | VInt z => PyStr.lit (NilZero.string_of_int (Z.to_int z))
  | VFloat f => PyStr.lit (float_repr E f)
  | VBool true => PyStr.lit "True"
  | VBool false => PyStr.lit "False"
  | VStr s => s
  end.

(** [hash_data]: [hashlib.sha256(input_string.encode()).hexdigest()] *)
Definition hash_data (input_string : pystr) : result pystr :=
  match PyStr.encode input_string with
  | Ok bs => Ok (SHA256.hexdigest bs)
  | Raise e => Raise e
  end.

(** [sensitivity / epsilon] with an [int] numerator and a [float]
    denominator: the numerator is converted, and Python raises on a zero
    denominator of either sign. *)
Definition py_truediv (sensitivity : Z) (epsilon : float) : result float :=
  match py_float_of_int sensitivity with
  | Raise e => Raise e
  | Ok s =>
      if PrimFloat.eqb epsilon 0%float then Raise ZeroDivisionError
      else Ok (s / epsilon)%float
  end.

(** numpy's check of a scale: a value with the sign bit set that is not a
    nan is refused. *)
Definition scale_refused (scale : float) : bool :=
  match classify scale with
  | FloatClass.NInf | FloatClass.NNormal | FloatClass.NSubn
  | FloatClass.NZero => true
  | _ => false
  end.

(** [np.random.laplace(loc, scale, 1)[0]]: one call to the generator. *)
Definition np_random_laplace (E : Env) (loc scale : float) : M float :=
  fun st =>
    if scale_refused scale then (Raise (ValueError "scale < 0"), st)
    else (Ok (laplace_variate E (rng_calls st) loc scale),
          mkState (stdout st) (S (rng_calls st)) (to_csv_calls st) (files st)).

(** [value + noise] with a numpy float on the right: an [int] is
    converted first (and may be too large), a [str] cannot be added. *)
Definition py_add (v : value) (noise : float) : result value :=
  match v with
  | VInt z =>
      match py_float_of_int z with
      | Ok x => Ok (VFloat (x + noise)%float)
      | Raise e => Raise e
      end
  | VFloat x => Ok (VFloat (x + noise)%float)
  | VBool b => Ok (VFloat ((if b then 1 else 0) + noise)%float)
  | VStr _ => Raise TypeError
  end.

(** [add_noise(value, epsilon, sensitivity=1)] *)
Definition add_noise (E : Env) (v : value) (epsilon : float) (sensitivity : Z)
  : M value :=
  scale <- lift (py_truediv sensitivity epsilon) ;;
  noise <- np_random_laplace E 0%float scale ;;
  lift (py_add v noise).

(** [create_noisy_data(df, column, epsilon)]; the table is returned as
    the function leaves it. *)
Definition create_noisy_data (E : Env) (df : DataFrame) (column : pystr)
    (epsilon : float) : M DataFrame :=
  try_except
    (s <- lift (getitem df column) ;;
     s' <- Series_apply (fun x => add_noise E x epsilon 1) s ;;
     ret (setitem df column s'))
    (fun e => print E (MsgNoiseError column e) ;;; ret df).

(** One iteration of the loop of [mask_data]. *)
Definition mask_column (E : Env) (df : DataFrame) (column : pystr)
  : M DataFrame :=
  try_except
    (s <- lift (getitem df column) ;;
     s' <- Series_apply
             (fun x => d <- lift (hash_data (py_str E x)) ;; ret (VStr d)) s ;;
     ret (setitem df column s'))
    (fun e => print E (MsgHashError column e) ;;; ret df).

(** [mask_data(df, columns)] *)
Fixpoint mask_data (E : Env) (df : DataFrame) (cols : list pystr)
  : M DataFrame :=
  match cols with
  | [] => ret df
  | column :: rest => df' <- mask_column E df column ;; mask_data E df' rest
  end.

(** [is_numeric_column(df, column)] *)
Definition is_numeric_column (df : DataFrame) (column : pystr) : M bool :=
  s <- lift (getitem df column) ;; ret (is_numeric_dtype (dtype_of s)).

(** The loop [for column in df.columns: if is_numeric_column(..): ..] of
    [anonymize_csv]. *)
Fixpoint noise_columns (E : Env) (df : DataFrame) (cols : list pystr)
    (epsilon : float) : M DataFrame :=
  match cols with
  | [] => ret df
  | column :: rest =>
      numeric <- is_numeric_column df column ;;
      df' <- (if numeric then create_noisy_data E df column epsilon
              else ret df) ;;
      noise_columns E df' rest epsilon
  end.

(** [df.to_csv(output_file, index=False)] *)
Definition to_csv (E : Env) (df : DataFrame) (output_file : pystr) : M unit :=
  fun st =>
    let calls := to_csv_calls st ++ [(output_file, df)] in
    match to_csv_error E output_file df with
    | Some e => (Raise e, mkState (stdout st) (rng_calls st) calls (files st))
    | None => (Ok tt, mkState (stdout st) (rng_calls st) calls
                              ((output_file, df) :: files st))
    end.

(** The three [except] clauses around [pd.read_csv]: the table, or [None]
    after the diagnostic. *)
Definition load (E : Env) (input_file : pystr) : M (option DataFrame) :=
  try_except
    (df <- lift (read_csv E input_file) ;; ret (Some df))
    (fun e =>
       match e with
       | FileNotFoundError => print E (MsgFileNotFound input_file) ;;; ret None
       | ParserError => print E MsgParseError ;;; ret None
       | _ => print E (MsgReadError e) ;;; ret None
       end).

(** [anonymize_csv(input_file, output_file, mask_columns, epsilon)] *)
Definition anonymize_csv (E : Env) (input_file output_file : pystr)
    (mask_columns : list pystr) (epsilon : float) : M unit :=
  loaded <- load E input_file ;;
  match loaded with
  | None => ret tt
  | Some df =>
      df1 <- mask_data E df mask_columns ;;
      df2 <- noise_columns E df1 (columns df1) epsilon ;;
      try_except
        (to_csv E df2 output_file ;;; print E (MsgWritten output_file))
        (fun e => print E (MsgWriteError output_file e))
  end.

(** The namespace [argparse] hands to [main]: [--epsilon] is any float. *)
Record Namespace : Type := mkArgs
  { input_file : pystr;
    output_file : pystr;
    mask : list pystr;
    epsilon : float }.

(** [main], after [parser.parse_args()]. *)
Definition main (E : Env) (args : Namespace) : M unit :=
  anonymize_csv E (input_file args) (output_file args) (mask args)
                (epsilon args).

Definition initial_state : State := mkState [] 0 [] [].

(* ===================================================================== *)
(** ** Notions used to state the properties *)

Definition add_msg (st : State) (m : message) : State :=
  mkState (stdout st ++ [m]) (rng_calls st) (to_csv_calls st) (files st).

Definition set_rng (st : State) (n : nat) : State :=
  mkState (stdout st) n (to_csv_calls st) (files st).

(** A cell whose text [hash_data] accepts: a string cell holds no lone
    surrogate.  [read_csv] decodes its input strictly, so every cell of a
    loaded table is clean. *)
Definition clean_value (v : value) : bool :=
  match v with
  | VStr s => PyStr.encodable s
  | _ => true
  end.

(** A 64-bit signed integer. *)
Definition is_int64 (v : value) : bool :=
  match v with
  | VInt z => (- 2 ^ 63 <=? z) && (z <? 2 ^ 63)
  | _ => false
  end.

(** The cells of a column agree with its dtype: a numeric dtype holds
    only cells of its own kind, an [int64] column integers of 64 bits. *)
Definition fits (d : dtype) (v : value) : bool :=
  match d with
  | Int64 => is_int64 v
  | Float64 => is_float v
  | BoolDtype => is_bool v
  | ObjectDtype => true
  end.

(** A cell [value + noise] accepts: not a string, and not an integer too
    large for a float. *)
Definition addable (v : value) : bool :=
  match v with
  | VStr _ => false
  | VInt z => Z.abs z <? float_overflow
  | _ => true
  end.

(** The number a numeric cell stands for in a float addition. *)
Definition number_of (v : value) : option float :=
  match v with
  | VInt z => Some (float_of_Z z)
  | VFloat x => Some x
  | VBool true => Some 1%float
  | VBool false => Some 0%float
  | VStr _ => None
  end.

Definition wf_series (s : Series) : bool :=
  forallb (fits (dtype_of s)) (values s) && forallb clean_value (values s)
  && (match values s with [] => negb (is_numeric_dtype (dtype_of s)) | _ => true end).

Fixpoint unique (l : list pystr) : bool :=
  match l with
  | [] => true
  | x :: l' => negb (existsb (PyStr.eqb x) l') && unique l'
  end.

(** A table as [read_csv] builds it: unique column names, cells that fit
    their column's dtype, valid text, and [object] columns when the file
    has no rows. *)
Definition wf_frame (df : DataFrame) : bool :=
  unique (columns df) && forallb (fun col => wf_series (snd col)) df.

(** Hashing [n] times in a row, as a column listed [n] times is. *)
Fixpoint rehash (n : nat) (s : pystr) : result pystr :=
  match n with
  | O => Ok s
  | S n' =>
      match hash_data s with
      | Ok d => rehash n' d
      | Raise e => Raise e
      end
  end.

(** The SHA-256 hexadecimal digest of the UTF-8 bytes of a text, taken
    [n] times in a row; stated with [SHA256.hexdigest] and [PyStr.encode]
    themselves, to compare [hash_data] with. *)
Fixpoint sha256_times (n : nat) (text : pystr) : option pystr :=
  match n with
  | O => Some text
  | S n' =>
      match PyStr.encode text with
      | Ok bytes => sha256_times n' (SHA256.hexdigest bytes)
      | Raise _ => None
      end
  end.

(** A 64-character lower-case hexadecimal string. *)
Definition is_hex64 (s : pystr) : bool :=
  (List.length s =? 64)%nat && forallb SHA256.is_hex_char s.

(** The lambda of [mask_data] on one cell, without the state. *)
Definition hash_cell (E : Env) (x : value) : result value :=
  match hash_data (py_str E x) with
  | Ok d => Ok (VStr d)
  | Raise e => Raise e
  end.

Fixpoint mapR {A B} (f : A -> result B) (l : list A) : result (list B) :=
  match l with
  | [] => Ok []
  | x :: l' =>
      match f x with
      | Raise e => Raise e
      | Ok y =>
          match mapR f l' with
          | Raise e => Raise e
          | Ok ys => Ok (y :: ys)
          end
      end
  end.

(** What the [try] block of [mask_data] computes for a column, or the
    exception it raises. *)
Definition mask_attempt (E : Env) (df : DataFrame) (column : pystr)
  : result DataFrame :=
  match getitem df column with
  | Raise e => Raise e
  | Ok s =>
      match values s with
      | [] => Ok (setitem df column (mkSeries (dtype_of s) []))
      | _ =>
          match mapR (hash_cell E) (values s) with
          | Ok vs => Ok (setitem df column (mkSeries (infer_dtype vs) vs))
          | Raise e => Raise e
          end
      end
  end.

(** The [i]-th cell of a column of a table. *)
Definition cell (df : DataFrame) (column : pystr) (i : nat) : option value :=
  match getitem df column with
  | Ok s => nth_error (values s) i
  | Raise _ => None
  end.

(** Tables with the same columns in the same order and, column by column,
    rows related position by position. *)
Definition frame_rel (R : value -> value -> Prop) (df df' : DataFrame) : Prop :=
  Forall2 (fun col col' =>
             fst col = fst col' /\ Forall2 R (values (snd col)) (values (snd col')))
          df df'.

(** How a cell of the output may derive from the cell at the same
    position of the input: untouched, hashed, or increased by a noise. *)
Inductive evolves (E : Env) : value -> value -> Prop :=
| ev_same x : evolves E x x
| ev_hash x y d :
    evolves E x y -> hash_data (py_str E y) = Ok d -> evolves E x (VStr d)
| ev_noise x y noise z :
    evolves E x y -> py_add y noise = Ok z -> evolves E x z.

(** [mask_data] without the state: the table it leaves and the
    diagnostics it prints. *)
Fixpoint mask_run (E : Env) (df : DataFrame) (cols : list pystr)
  : DataFrame * list message :=
  match cols with
  | [] => (df, [])
  | column :: rest =>
      match mask_attempt E df column with
      | Ok df' => mask_run E df' rest
      | Raise e =>
          (fst (mask_run E df rest),
           MsgHashError column e :: snd (mask_run E df rest))
      end
  end.

(** One pass of the masking lambda over a cell. *)
Definition hashed (E : Env) (x y : value) : Prop :=
  exists d, hash_data (py_str E x) = Ok d /\ y = VStr d.

(** A cell after [n] passes. *)
Definition masked_n (E : Env) (n : nat) (x y : value) : Prop :=
  match n with
  | O => y = x
  | S _ => exists d, rehash n (py_str E x) = Ok d /\ y = VStr d
  end.

(** How many times a name is listed. *)
Definition times_listed (cols : list pystr) (c : pystr) : nat :=
  count_occ (list_eq_dec Z.eq_dec) cols c.

(** Why no noise can be drawn for this epsilon, if so: the division fails,
    or numpy refuses the scale. *)
Definition noise_error (eps : float) : option exn :=
  match py_truediv 1 eps with
  | Raise e => Some e
  | Ok scale =>
      if scale_refused scale then Some (ValueError "scale < 0") else None
  end.

(** [add_noise] on one cell when the generator has been called [n] times:
    the result and the number of calls afterwards. *)
Definition noise_cell (E : Env) (eps : float) (v : value) (n : nat)
  : result value * nat :=
  match py_truediv 1 eps with
  | Raise e => (Raise e, n)
  | Ok scale =>
      if scale_refused scale then (Raise (ValueError "scale < 0"), n)
      else (py_add v (laplace_variate E n 0%float scale), S n)
  end.

Fixpoint noise_cells (E : Env) (eps : float) (vs : list value) (n : nat)
  : result (list value) * nat :=
  match vs with
  | [] => (Ok [], n)
  | v :: vs' =>
      match noise_cell E eps v n with
      | (Raise e, n') => (Raise e, n')
      | (Ok y, n') =>
          match noise_cells E eps vs' n' with
          | (Raise e, n'') => (Raise e, n'')
          | (Ok ys, n'') => (Ok (y :: ys), n'')
          end
      end
  end.

(** What the [try] block of [create_noisy_data] computes. *)
Definition noise_attempt (E : Env) (eps : float) (df : DataFrame)
    (column : pystr) (n : nat) : result DataFrame * nat :=
  match getitem df column with
  | Raise e => (Raise e, n)
  | Ok s =>
      match values s with
      | [] => (Ok (setitem df column (mkSeries (dtype_of s) [])), n)
      | _ =>
          match noise_cells E eps (values s) n with
          | (Ok vs, n') =>
              (Ok (setitem df column (mkSeries (infer_dtype vs) vs)), n')
          | (Raise e, n') => (Raise e, n')
          end
      end
  end.

(** The noising loop without the state: the table (or the exception that
    escapes the loop), the diagnostics, and the generator calls made. *)
Fixpoint noise_run (E : Env) (eps : float) (df : DataFrame)
    (cols : list pystr) (n : nat) : result DataFrame * list message * nat :=
  match cols with
  | [] => (Ok df, [], n)
  | column :: rest =>
      match getitem df column with
      | Raise e => (Raise e, [], n)
      | Ok s =>
          if is_numeric_dtype (dtype_of s) then
            match noise_attempt E eps df column n with
            | (Ok df', n') => noise_run E eps df' rest n'
            | (Raise e, n') =>
                let r := noise_run E eps df rest n' in
                (fst (fst r), MsgNoiseError column e :: snd (fst r), snd r)
            end
          else noise_run E eps df rest n
      end
  end.

(** A cell plus some noise. *)
Definition noised (x y : value) : Prop := exists noise, py_add x noise = Ok y.

(** Cells plus the variates of consecutive generator calls, starting with
    call number [k]: one call per cell. *)
Inductive noised_from (E : Env) (scale : float)
  : nat -> list value -> list value -> Prop :=
| nf_nil k : noised_from E scale k [] []
| nf_cons k x y xs ys :
    py_add x (laplace_variate E k 0%float scale) = Ok y ->
    noised_from E scale (S k) xs ys ->
    noised_from E scale k (x :: xs) (y :: ys).

(** The columns the noising loop works on: numeric dtype, at least one
    row. *)
Definition noise_target (df : DataFrame) (c : pystr) : bool :=
  match getitem df c with
  | Ok s => is_numeric_dtype (dtype_of s)
            && match values s with [] => false | _ => true end
  | Raise _ => false
  end.

(** The state after the [try] around [to_csv], given the diagnostics [ms]
    printed before it and the generator calls [n] made. *)
Definition finish (E : Env) (out : pystr) (df2 : DataFrame) (ms : list message)
    (n : nat) (st : State) : State :=
  match to_csv_error E out df2 with
  | None =>
      mkState (stdout st ++ ms ++ [MsgWritten out]) n
              (to_csv_calls st ++ [(out, df2)]) ((out, df2) :: files st)
  | Some e =>
      mkState (stdout st ++ ms ++ [MsgWriteError out e]) n
              (to_csv_calls st ++ [(out, df2)]) (files st)
  end.



(** The sign of a float that is not a nan. *)
Definition sf_sign (x : spec_float) : option bool :=
  match x with
  | S754_zero s | S754_infinity s | S754_finite s _ _ => Some s
  | S754_nan => None
  end.

(** The line the run ends with: the writer succeeded, or it raised. *)
Definition last_line (E : Env) (out : pystr) (df2 : DataFrame) : message :=
  match to_csv_error E out df2 with
  | None => MsgWritten out
  | Some e => MsgWriteError out e
  end.

(** The [try] around the writer, once the writer has been called: the
    line it prints, if any, and how it ends.  When the success line cannot
    be printed, the [except] clause catches the [UnicodeEncodeError] of that
    [print] and reports it as a write error. *)
Definition write_report (E : Env) (out : pystr) (df2 : DataFrame)
  : list message * result unit :=
  match to_csv_error E out df2 with
  | Some e =>
      if stdout_prints E (MsgWriteError out e)
      then ([MsgWriteError out e], Ok tt)
      else ([], Raise UnicodeEncodeError)
  | None =>
      if stdout_prints E (MsgWritten out) then ([MsgWritten out], Ok tt)
      else if stdout_prints E (MsgWriteError out UnicodeEncodeError)
           then ([MsgWriteError out UnicodeEncodeError], Ok tt)
           else ([], Raise UnicodeEncodeError)
  end.

(** The diagnostics of a whole run on the loaded table [df], in order: the
    masker's, then the noising loop's; and the generator calls it makes. *)
Definition run_msgs (E : Env) (eps : float) (df : DataFrame)
    (cols : list pystr) (n : nat) : list message :=
  snd (mask_run E df cols) ++
  snd (fst (noise_run E eps (fst (mask_run E df cols))
                      (columns (fst (mask_run E df cols))) n)).

Definition run_calls (E : Env) (eps : float) (df : DataFrame)
    (cols : list pystr) (n : nat) : nat :=
  snd (noise_run E eps (fst (mask_run E df cols))
                 (columns (fst (mask_run E df cols))) n).

(** *** Standard output *)

(** The column name or the path a line interpolates. *)
Definition label_of (m : message) : option pystr :=
  match m with
  | MsgNoiseError c _ | MsgHashError c _ => Some c
  | MsgFileNotFound p | MsgWritten p | MsgWriteError p _ => Some p
  | MsgParseError | MsgReadError _ => None
  end.

(** Standard output can print every line about one of these names. *)
Definition prints_about (E : Env) (names : list pystr) : Prop :=
  forall m c, label_of m = Some c -> In c names -> stdout_prints E m = true.

(** Standard output can print all these lines. *)
Definition printable (E : Env) (ms : list message) : bool :=
  forallb (stdout_prints E) ms.

(** The lines that get printed before the first one standard output
    cannot take. *)
Fixpoint printed (E : Env) (ms : list message) : list message :=
  match ms with
  | [] => []
  | m :: ms' => if stdout_prints E m then m :: printed E ms' else []
  end.

(** The writer has been called once more, with this table. *)
Definition wrote (st st' : State) (out : pystr) (df2 : DataFrame) : Prop :=
  to_csv_calls st' = to_csv_calls st ++ [(out, df2)].

(** The writer has not been called and no file has been written. *)
Definition idle (st st' : State) : Prop :=
  to_csv_calls st' = to_csv_calls st /\ files st' = files st.

(** How a run on the loaded table [df] can end, [df2] being the table it
    builds: it returns normally or a [print] raised; the writer is called at
    most once and then with [df2]; it is called whenever standard output
    can print the lines about the mask names and the columns, and the run
    returns normally when it can also print the lines about the output
    path; the file is recorded exactly when the writer succeeds. *)
Definition run_outcome (E : Env) (out : pystr) (cols : list pystr)
    (df : DataFrame) (st : State) (r : result unit) (st' : State)
    (df2 : DataFrame) : Prop :=
  (r = Ok tt \/ r = Raise UnicodeEncodeError) /\
  (idle st st' \/ wrote st st' out df2) /\
  (prints_about E (cols ++ columns df) -> wrote st st' out df2) /\
  (prints_about E (out :: cols ++ columns df) -> r = Ok tt) /\
  (wrote st st' out df2 -> to_csv_error E out df2 = None ->
   files st' = (out, df2) :: files st) /\
  (wrote st st' out df2 -> to_csv_error E out df2 <> None ->
   files st' = files st).

(** How [mask_data] can end, [df1] being the table it builds: it returns
    [df1] or a [print] raised, and it returns [df1] whenever standard output
    can print the lines about the mask names. *)
Definition mask_outcome (E : Env) (cols : list pystr)
    (r : result DataFrame) (df1 : DataFrame) : Prop :=
  (r = Ok df1 \/ r = Raise UnicodeEncodeError) /\
  (prints_about E cols -> r = Ok df1).

(** The names of a list that the table does not have. *)
Definition absent (df : DataFrame) (cols : list pystr) : list pystr :=
  filter (fun c => negb (existsb (PyStr.eqb c) (columns df))) cols.

(* ===================================================================== *)
(** ** A small run, used to exercise the statements *)

Module Demo.

Definition id_ : pystr := PyStr.lit "id".
Definition name : pystr := PyStr.lit "name".
Definition age : pystr := PyStr.lit "age".
Definition zip : pystr := PyStr.lit "zip".
Definition in_csv : pystr := PyStr.lit "in.csv".
Definition out_csv : pystr := PyStr.lit "out.csv".

(** [id,name,age / 1,Alice,30 / 2,Bob,41] *)
Definition table : DataFrame :=
  [ (id_, mkSeries Int64 [VInt 1; VInt 2]);
    (name, mkSeries ObjectDtype [VStr (PyStr.lit "Alice"); VStr (PyStr.lit "Bob")]);
    (age, mkSeries Int64 [VInt 30; VInt 41]) ].

(** A table whose second [name] holds a lone surrogate, which
    [str.encode()] refuses. *)
Definition dirty : DataFrame :=
  [ (name, mkSeries ObjectDtype [VStr (PyStr.lit "Alice"); VStr [0xD800]]) ].

(** A name no UTF-8 stream can print: a lone surrogate. *)
Definition odd : pystr := [0xDCFF].

(** A standard output in UTF-8: it takes a line unless the name or the
    path in it holds a lone surrogate. *)
Definition utf8_stdout (m : message) : bool :=
  match label_of m with
  | Some c => PyStr.encodable c
  | None => true
  end.

(** Only [in.csv] exists; every write succeeds; the [n]-th variate is
    [loc + scale * n / 8]; standard output is in UTF-8. *)
Definition env : Env :=
  mkEnv (fun _ => "nan"%string)
        (fun p => if PyStr.eqb p in_csv then Ok table
                  else Raise FileNotFoundError)
        (fun _ _ => None)
        (fun n loc scale =>
           (loc + scale * (float_of_Z (Z.of_nat n) / 8))%float)
        utf8_stdout.

(** A second run: another file, another generator, a writer that
    fails. *)
Definition other_csv : pystr := PyStr.lit "other.csv".

Definition table2 : DataFrame :=
  [ (name, mkSeries ObjectDtype [VStr (PyStr.lit "Carol"); VStr (PyStr.lit "Alice")]) ].

Definition env2 : Env :=
  mkEnv (fun _ => "nan"%string)
        (fun p => if PyStr.eqb p other_csv then Ok table2
                  else Raise FileNotFoundError)
        (fun _ _ => Some (OtherError "PermissionError"))
        (fun n loc scale => loc)
        utf8_stdout.

Definition args_negative : Namespace := mkArgs in_csv out_csv [name] (-2)%float.

End Demo.

(* ===================================================================== *)
(** ** Further notions, for the properties beyond the specification *)

From Stdlib Require Import Permutation.


(** The diagnostics of the two column loops. *)
Definition is_column_error (m : message) : bool :=
  match m with
  | MsgHashError _ _ | MsgNoiseError _ _ => true
  | _ => false
  end.

(** A table whose columns all have [n] rows. *)
Definition nrows (df : DataFrame) (n : nat) : Prop :=
  Forall (fun col => List.length (values (snd col)) = n) df.

(** The cells of a column, when its dtype is numeric. *)
Definition numeric_cells_of (df : DataFrame) (c : pystr) : nat :=
  match getitem df c with
  | Ok s => if is_numeric_dtype (dtype_of s) then List.length (values s) else 0%nat
  | Raise _ => 0%nat
  end.

(** The cells of all the numeric columns of a table. *)
Definition numeric_cells (df : DataFrame) : nat :=
  list_sum (map (numeric_cells_of df) (columns df)).

(** What the lambda of [mask_data] makes of a whole column. *)
Definition masked_series (E : Env) (s : Series) : result Series :=
  match values s with
  | [] => Ok (mkSeries (dtype_of s) [])
  | _ =>
      match mapR (hash_cell E) (values s) with
      | Ok vs => Ok (mkSeries (infer_dtype vs) vs)
      | Raise e => Raise e
      end
  end.

(** The exception [value + noise] raises on a cell, if it does: a string
    cannot be added to a float, and an integer beyond the range of floats
    cannot be converted. *)
Definition add_error (v : value) : option exn :=
  match v with
  | VStr _ => Some TypeError
  | VInt z => if Z.abs z <? float_overflow then None else Some OverflowError
  | _ => None
  end.

(** More small runs. *)
Module Demo2.

(** A reader that cannot parse anything. *)
Definition env_parse : Env :=
mkEnv (fun _ => "nan"%string) (fun _ => Raise ParserError)
      (fun _ _ => None) (fun _ loc _ => loc) Demo.utf8_stdout.

(** [id,name] and no row. *)
Definition header_only : DataFrame :=
[ (Demo.id_, mkSeries ObjectDtype []); (Demo.name, mkSeries ObjectDtype []) ].

Definition env_empty : Env :=
mkEnv (fun _ => "nan"%string) (fun _ => Ok header_only)
      (fun _ _ => None) (fun _ loc _ => loc) Demo.utf8_stdout.

(** A column with a string between two integers. *)
Definition mixed : DataFrame :=
[ (Demo.age, mkSeries ObjectDtype [VInt 1; VStr (PyStr.lit "x"); VInt 2]) ].

(** A column with an integer beyond the range of floats. *)
Definition huge : DataFrame :=
[ (Demo.age, mkSeries ObjectDtype [VInt 5; VInt (2 ^ 1024); VInt 2]) ].

End Demo2.

(* ===================================================================== *)
(** ** Strings and digests *)

Module PyStrFacts.
Import PyStr.

Lemma eqb_eq (s t : pystr) : eqb s t = true <-> s = t.
Proof.
  unfold eqb. destruct (list_eq_dec Z.eq_dec s t); split; congruence.
Qed.

Lemma eqb_refl (s : pystr) : eqb s s = true.
Proof. now apply eqb_eq. Qed.

Lemma eqb_neq (s t : pystr) : eqb s t = false <-> s <> t.
Proof.
  unfold eqb. destruct (list_eq_dec Z.eq_dec s t); split; congruence.
Qed.

Lemma encode_cp_ok (c : Z) :
  is_surrogate c = false -> exists bs, encode_cp c = Ok bs.
Proof.
  intros Hc. unfold encode_cp. rewrite Hc.
  destruct (c <? 128); [eauto|].
  destruct (c <? 2048); [eauto|].
  destruct (c <? 65536); eauto.
Qed.

Lemma encode_ok (s : pystr) :
  encodable s = true -> exists bs, encode s = Ok bs.
Proof.
  induction s as [|c s IH]; simpl; intros H; [eauto|].
  apply andb_true_iff in H as [Hc Hs].
  apply negb_true_iff in Hc.
  destruct (encode_cp_ok c Hc) as [bs ->].
  destruct (IH Hs) as [rest ->]. eauto.
Qed.

(** The converse: a string that encodes holds no surrogate. *)
Lemma encode_encodable (s : pystr) bs :
  encode s = Ok bs -> encodable s = true.
Proof.
  revert bs. induction s as [|c s IH]; simpl; intros bs H; [reflexivity|].
  destruct (encode_cp c) eqn:Hc; [|discriminate].
  destruct (encode s) eqn:Hs; [|discriminate].
  rewrite (IH _ eq_refl), andb_true_r.
  unfold encode_cp in Hc.
  destruct (is_surrogate c) eqn:Hsur; [|reflexivity].
  unfold is_surrogate in Hsur. apply andb_true_iff in Hsur as [Hlo _].
  destruct (c <? 128) eqn:H1; [lia|].
  destruct (c <? 2048) eqn:H2; [lia|discriminate].
Qed.

Lemma lit_encodable (s : string) : encodable (lit s) = true.
Proof.
  unfold lit, encodable. apply forallb_forall. intros c Hc.
  apply in_map_iff in Hc as [a [<- _]].
  pose proof (N_ascii_bounded a) as Hb.
  unfold is_surrogate.
  apply negb_true_iff, andb_false_iff. left. lia.
Qed.

End PyStrFacts.

Module SHA256Facts.
Import SHA256.

Lemma hex_digit_ok (d : Z) : 0 <= d < 16 -> is_hex_char (hex_digit d) = true.
Proof.
  intros Hd. unfold is_hex_char, hex_digit.
  destruct (d <? 10) eqn:H; apply orb_true_iff; [left|right];
    apply andb_true_iff; lia.
Qed.

Lemma hex_byte_ok (b : Z) :
  0 <= b < 256 -> forallb is_hex_char (hex_byte b) = true.
Proof.
  intros Hb. unfold hex_byte. cbn [forallb].
  rewrite !hex_digit_ok; [reflexivity| |].
  - apply Z.mod_pos_bound. lia.
  - split; [apply Z.div_pos; lia|apply Z.div_lt_upper_bound; lia].
Qed.

Lemma be_bytes_range (n : nat) (x : Z) :
  Forall (fun b => 0 <= b < 256) (be_bytes n x).
Proof.
  unfold be_bytes. apply Forall_forall. intros b Hb.
  apply in_map_iff in Hb as [i [<- _]]. apply Z.mod_pos_bound. lia.
Qed.

Lemma be_bytes_length (n : nat) (x : Z) : List.length (be_bytes n x) = n.
Proof. unfold be_bytes. now rewrite length_map, length_rev, length_seq. Qed.

Lemma digest_length (msg : list Z) : List.length (digest msg) = 32%nat.
Proof.
  unfold digest, regs_words. cbn [flat_map].
  rewrite !length_app, !be_bytes_length. reflexivity.
Qed.

Lemma digest_range (msg : list Z) :
  Forall (fun b => 0 <= b < 256) (digest msg).
Proof.
  unfold digest. apply Forall_flat_map, Forall_forall.
  intros w _. apply be_bytes_range.
Qed.

Lemma flat_map_hex_length (bs : list Z) :
  List.length (flat_map hex_byte bs) = (2 * List.length bs)%nat.
Proof. induction bs as [|b bs IH]; simpl; lia. Qed.

(** The hexadecimal digest has 64 characters, all of them in [0-9a-f]. *)
Lemma hexdigest_length (msg : list Z) :
  List.length (hexdigest msg) = 64%nat.
Proof.
  unfold hexdigest. now rewrite flat_map_hex_length, digest_length.
Qed.

Lemma hexdigest_hex (msg : list Z) :
  forallb is_hex_char (hexdigest msg) = true.
Proof.
  unfold hexdigest. pose proof (digest_range msg) as H.
  induction H as [|b bs Hb _ IH]; [reflexivity|].
  cbn [flat_map]. rewrite forallb_app, IH, hex_byte_ok by assumption.
  reflexivity.
Qed.

Lemma hex_encodable (s : pystr) :
  forallb is_hex_char s = true -> PyStr.encodable s = true.
Proof.
  unfold PyStr.encodable. intros H. apply forallb_forall. intros c Hc.
  eapply forallb_forall in H; [|exact Hc].
  unfold is_hex_char in H. unfold PyStr.is_surrogate.
  apply negb_true_iff, andb_false_iff. left.
  apply orb_true_iff in H as [H|H]; apply andb_true_iff in H; lia.
Qed.

End SHA256Facts.

(** The computed constants are those of FIPS 180-4. *)
Example sha256_constants :
  hd 0 SHA256.K = 0x428a2f98 /\ last SHA256.K 0 = 0xc67178f2 /\
  List.length SHA256.K = 64%nat /\
  SHA256.ra SHA256.H0 = 0x6a09e667 /\ SHA256.rh SHA256.H0 = 0x5be0cd19.
Proof. vm_compute. repeat split; reflexivity. Qed.

(** Known answers (FIPS 180-4 and NIST test vectors). *)
Example sha256_empty :
  SHA256.hexdigest [] =
  PyStr.lit "e3b0c44298fc1c149afbf4c8996fb92427ae41e4649b934ca495991b7852b855".
Proof. vm_compute. reflexivity. Qed.

Example sha256_abc :
  SHA256.hexdigest [97; 98; 99] =
  PyStr.lit "ba7816bf8f01cfea414140de5dae2223b00361a396177a9cb410ff61f20015ad".
Proof. vm_compute. reflexivity. Qed.

Example sha256_two_blocks :
  PyStr.encode
    (PyStr.lit "abcdbcdecdefdefgefghfghighijhijkijkljklmklmnlmnomnopnopq")
  = Ok (PyStr.lit "abcdbcdecdefdefgefghfghighijhijkijkljklmklmnlmnomnopnopq")
  /\ SHA256.hexdigest
       (PyStr.lit "abcdbcdecdefdefgefghfghighijhijkijkljklmklmnlmnomnopnopq") =
     PyStr.lit "248d6a61d20638b8e5c026930c3e6039a33ce45964ff2167f6ecedd419db06c1".
Proof. vm_compute. split; reflexivity. Qed.

(* ===================================================================== *)
(** ** Signs of binary64 quotients *)

Module FloatFacts.

Lemma refused_sign (x : float) :
  scale_refused x = match sf_sign (Prim2SF x) with Some true => true | _ => false end.
Proof.
  unfold scale_refused. rewrite classify_spec. unfold SF64classify, SFclassify.
  destruct (Prim2SF x) as [[|]|[|]| |[|] m e]; simpl; try reflexivity;
    match goal with |- context [if ?b then _ else _] => destruct b end;
    reflexivity.
Qed.

Lemma one_spec : Prim2SF (float_of_Z 1) = S754_finite false 4503599627370496 (-52).
Proof. vm_compute. reflexivity. Qed.

Lemma shr_1_nonneg mrs : 0 <= shr_m mrs -> 0 <= shr_m (shr_1 mrs).
Proof.
  destruct mrs as [m r s]. simpl. destruct m as [|p|p]; simpl; try lia.
  - destruct p; simpl; lia.
Qed.

Lemma iter_pos_inv {A} (f : A -> A) (P : A -> Prop) :
  (forall x, P x -> P (f x)) -> forall p x, P x -> P (iter_pos f p x).
Proof.
  intros Hf. induction p as [p IH|p IH|]; intros x Hx; simpl; auto.
Qed.

Lemma shr_fexp_nonneg prec emax m e l :
  0 <= m -> 0 <= shr_m (fst (shr_fexp prec emax m e l)).
Proof.
  intros Hm. unfold shr_fexp, shr.
  assert (H0 : 0 <= shr_m (shr_record_of_loc m l)).
  { destruct l as [|[| |]]; exact Hm. }
  destruct (_ - e) as [|p|p]; simpl; auto.
  apply (iter_pos_inv shr_1 (fun r => 0 <= shr_m r)); auto using shr_1_nonneg.
Qed.

Lemma round_nearest_even_nonneg m l : 0 <= m -> 0 <= round_nearest_even m l.
Proof.
  intros Hm. destruct l as [|[| |]]; simpl; try lia.
  destruct (Z.even m); lia.
Qed.

(** Rounding a non-negative mantissa keeps the sign it is given. *)
Lemma binary_round_aux_sign prec emax s m e l :
  0 <= m -> sf_sign (binary_round_aux prec emax s m e l) = Some s.
Proof.
  intros Hm. unfold binary_round_aux.
  pose proof (shr_fexp_nonneg prec emax m e l Hm) as H1.
  destruct (shr_fexp prec emax m e l) as [mrs' e']. simpl in H1.
  pose proof (shr_fexp_nonneg prec emax _ e' loc_Exact
                (round_nearest_even_nonneg _ (loc_of_shr_record mrs') H1)) as H2.
  destruct (shr_fexp prec emax _ e' loc_Exact) as [mrs'' e'']. simpl in H2.
  destruct (shr_m mrs'') as [|p|p]; [reflexivity| |lia].
  destruct (Z.leb _ _); reflexivity.
Qed.

Lemma div_core_nonneg prec emax m1 e1 m2 e2 :
  0 <= fst (fst (SFdiv_core_binary prec emax (Zpos m1) e1 (Zpos m2) e2)).
Proof.
  unfold SFdiv_core_binary.
  set (s := _ - _ - _). set (m' := match s with Z0 => _ | Zpos _ => _ | Zneg _ => _ end).
  assert (Hm' : 0 <= m').
  { unfold m'. destruct s; try lia. apply Z.shiftl_nonneg. lia. }
  pose proof (Z_div_mod m' (Zpos m2) eq_refl) as Hd.
  destruct (Z.div_eucl m' (Zpos m2)) as [q r]. simpl.
  destruct Hd as [Hq Hr]. nia.
Qed.

(** The sign of [1 / eps] is the sign of [eps], whenever [eps] is an
    ordinary number other than zero. *)
Lemma div_one_sign (eps : float) (s : bool) :
  sf_sign (Prim2SF eps) = Some s ->
  (eps =? 0)%float = false ->
  sf_sign (Prim2SF (float_of_Z 1 / eps)) = Some s.
Proof.
  rewrite div_spec, eqb_spec, one_spec.
  change (Prim2SF 0) with (S754_zero false).
  unfold SF64div, SFdiv.
  destruct (Prim2SF eps) as [s'|s'| |s' m e]; simpl; try discriminate.
  - intros [= ->]. reflexivity.
  - intros [= ->] _.
    pose proof (div_core_nonneg prec emax 4503599627370496 (-52) m e) as Hq.
    destruct (SFdiv_core_binary prec emax 4503599627370496 (-52) (Z.pos m) e)
      as [[mz ez] lz]. simpl in Hq.
    now apply binary_round_aux_sign.
Qed.

Lemma positive_sign (eps : float) :
  (0 <? eps)%float = true ->
  sf_sign (Prim2SF eps) = Some false /\ (eps =? 0)%float = false.
Proof.
  rewrite ltb_spec, eqb_spec. change (Prim2SF 0) with (S754_zero false).
  unfold SFltb, SFeqb, SFcompare.
  destruct (Prim2SF eps) as [s|s| |s m e]; simpl; try discriminate;
    destruct s; try discriminate; auto.
Qed.

Lemma negative_sign (eps : float) :
  (eps <? 0)%float = true ->
  sf_sign (Prim2SF eps) = Some true /\ (eps =? 0)%float = false.
Proof.
  rewrite ltb_spec, eqb_spec. change (Prim2SF 0) with (S754_zero false).
  unfold SFltb, SFeqb, SFcompare.
  destruct (Prim2SF eps) as [s|s| |s m e]; simpl; try discriminate;
    destruct s; try discriminate; auto.
Qed.

Lemma nonpositive_cases (eps : float) :
  (eps <=? 0)%float = true ->
  (eps =? 0)%float = true \/ (eps <? 0)%float = true.
Proof.
  rewrite leb_spec, ltb_spec, eqb_spec. change (Prim2SF 0) with (S754_zero false).
  unfold SFleb, SFltb, SFeqb.
  destruct (SFcompare (Prim2SF eps) (S754_zero false)) as [[| |]|]; auto.
Qed.

End FloatFacts.

(* ===================================================================== *)
(** ** Tables *)

Section Frames.

Lemma getitem_setitem_same (df : DataFrame) c s :
  getitem (setitem df c s) c = Ok s.
Proof.
  induction df as [|[name old] df IH]; simpl.
  - now rewrite PyStrFacts.eqb_refl.
  - destruct (PyStr.eqb name c) eqn:Hn; simpl; now rewrite Hn.
Qed.

Lemma getitem_setitem_other (df : DataFrame) c c' s :
  c' <> c -> getitem (setitem df c s) c' = getitem df c'.
Proof.
  intros Hne. induction df as [|[name old] df IH]; simpl.
  - apply not_eq_sym, PyStrFacts.eqb_neq in Hne. now rewrite Hne.
  - destruct (PyStr.eqb name c) eqn:Hn; simpl.
    + apply PyStrFacts.eqb_eq in Hn. subst name.
      apply not_eq_sym, PyStrFacts.eqb_neq in Hne. now rewrite Hne.
    + now rewrite IH.
Qed.

Lemma columns_setitem (df : DataFrame) c s s0 :
  getitem df c = Ok s0 -> columns (setitem df c s) = columns df.
Proof.
  induction df as [|[name old] df IH]; simpl; [discriminate|].
  destruct (PyStr.eqb name c) eqn:Hn; simpl; [reflexivity|].
  intros H. f_equal. now apply IH.
Qed.

Lemma setitem_same (df : DataFrame) c s :
  getitem df c = Ok s -> setitem df c s = df.
Proof.
  induction df as [|[name old] df IH]; simpl; [discriminate|].
  destruct (PyStr.eqb name c) eqn:Hn.
  - now intros [= ->].
  - intros H. now rewrite IH.
Qed.

Lemma getitem_in (df : DataFrame) c :
  In c (columns df) -> exists s, getitem df c = Ok s.
Proof.
  induction df as [|[name old] df IH]; simpl; [tauto|].
  intros [->|H].
  - rewrite PyStrFacts.eqb_refl. eauto.
  - destruct (PyStr.eqb name c); eauto.
Qed.

Lemma getitem_ok_in (df : DataFrame) c s :
  getitem df c = Ok s -> In (c, s) df.
Proof.
  induction df as [|[name old] df IH]; simpl; [discriminate|].
  destruct (PyStr.eqb name c) eqn:Hn.
  - apply PyStrFacts.eqb_eq in Hn. intros [= ->]. left. now subst.
  - auto.
Qed.

Lemma getitem_raise (df : DataFrame) c e :
  getitem df c = Raise e -> e = KeyError c /\ ~ In c (columns df).
Proof.
  induction df as [|[name old] df IH]; simpl.
  - intros [= <-]. tauto.
  - destruct (PyStr.eqb name c) eqn:Hn; [discriminate|].
    apply PyStrFacts.eqb_neq in Hn. intros H.
    destruct (IH H) as [-> Hnot]. split; [reflexivity|]. tauto.
Qed.

Variable R : value -> value -> Prop.

Lemma frame_rel_refl (df : DataFrame) :
  (forall x, R x x) -> frame_rel R df df.
Proof.
  intros Hrefl. induction df as [|col df IH]; constructor; [|exact IH].
  split; [reflexivity|]. induction (values (snd col)); constructor; auto.
Qed.

Lemma Forall2_trans {A} (P : A -> A -> Prop) (l1 l2 l3 : list A) :
  (forall x y z, P x y -> P y z -> P x z) ->
  Forall2 P l1 l2 -> Forall2 P l2 l3 -> Forall2 P l1 l3.
Proof.
  intros Htr H12. revert l3.
  induction H12 as [|x y l1 l2 Hxy _ IH]; intros l3 H23; inversion H23; subst;
    constructor; eauto.
Qed.

Lemma frame_rel_trans (d1 d2 d3 : DataFrame) :
  (forall x y z, R x y -> R y z -> R x z) ->
  frame_rel R d1 d2 -> frame_rel R d2 d3 -> frame_rel R d1 d3.
Proof.
  intros Htr. unfold frame_rel. apply Forall2_trans.
  intros a b c [H1 H2] [H3 H4]. split; [congruence|].
  eapply Forall2_trans; eassumption.
Qed.

Lemma frame_rel_setitem (df : DataFrame) c s s' :
  (forall x, R x x) ->
  getitem df c = Ok s -> Forall2 R (values s) (values s') ->
  frame_rel R df (setitem df c s').
Proof.
  intros Hrefl. induction df as [|[name old] df IH]; simpl; [discriminate|].
  destruct (PyStr.eqb name c) eqn:Hn.
  - intros [= ->] H. constructor; [split; [reflexivity|exact H]|].
    now apply frame_rel_refl.
  - intros H1 H2. constructor; [|now apply IH].
    split; [reflexivity|]. simpl.
    induction (values old); constructor; auto.
Qed.

Lemma frame_rel_columns (df df' : DataFrame) :
  frame_rel R df df' -> columns df' = columns df.
Proof.
  induction 1 as [|a b l l' [Hab _] _ IH]; simpl; [reflexivity|].
  now rewrite Hab, IH.
Qed.


End Frames.

(* ===================================================================== *)
(** ** The masker *)

Lemma state_eta (st : State) :
  mkState (stdout st) (rng_calls st) (to_csv_calls st) (files st) = st.
Proof. now destruct st. Qed.

Lemma Forall2_compose {A B C} (P : A -> B -> Prop) (Q : B -> C -> Prop)
    (S : A -> C -> Prop) l1 l2 l3 :
  (forall x y z, P x y -> Q y z -> S x z) ->
  Forall2 P l1 l2 -> Forall2 Q l2 l3 -> Forall2 S l1 l3.
Proof.
  intros HS H12. revert l3.
  induction H12; intros l3 H23; inversion H23; subst; constructor; eauto.
Qed.

Lemma forallb_setitem (P : Series -> bool) (df : DataFrame) c s :
  forallb (fun col => P (snd col)) df = true -> P s = true ->
  forallb (fun col => P (snd col)) (setitem df c s) = true.
Proof.
  intros Hdf Hs. induction df as [|[name old] df IH]; simpl in *.
  - now rewrite Hs.
  - apply andb_true_iff in Hdf as [H1 H2].
    destruct (PyStr.eqb name c); simpl; [now rewrite Hs|].
    now rewrite H1, IH.
Qed.

Lemma forallb_getitem (P : Series -> bool) (df : DataFrame) c s :
  forallb (fun col => P (snd col)) df = true -> getitem df c = Ok s ->
  P s = true.
Proof.
  intros Hdf Hs. apply getitem_ok_in in Hs.
  eapply forallb_forall in Hdf; [|exact Hs]. exact Hdf.
Qed.

Lemma printed_all (E : Env) (ms : list message) :
  printable E ms = true -> printed E ms = ms.
Proof.
  induction ms as [|m ms IH]; simpl; [reflexivity|].
  destruct (stdout_prints E m); simpl; [intros H; now rewrite IH|discriminate].
Qed.

Lemma printable_app (E : Env) (ms ms' : list message) :
  printable E (ms ++ ms') = printable E ms && printable E ms'.
Proof. apply forallb_app. Qed.

Lemma printed_app (E : Env) (ms ms' : list message) :
  printable E ms = true -> printed E (ms ++ ms') = ms ++ printed E ms'.
Proof.
  induction ms as [|m ms IH]; simpl; [reflexivity|].
  destruct (stdout_prints E m); simpl; [intros H; now rewrite IH|discriminate].
Qed.

Lemma printed_stops (E : Env) (ms ms' : list message) :
  printable E ms = false -> printed E (ms ++ ms') = printed E ms.
Proof.
  induction ms as [|m ms IH]; simpl; [discriminate|].
  destruct (stdout_prints E m); simpl; [intros H; now rewrite IH|reflexivity].
Qed.

Lemma fits_object (vs : list value) : forallb (fits ObjectDtype) vs = true.
Proof. induction vs; simpl; auto. Qed.

Section Masking.

Variable E : Env.

Lemma mapM_hash (l : list value) (st : State) :
  mapM (fun x => d <- lift (hash_data (py_str E x)) ;; ret (VStr d)) l st
  = (mapR (hash_cell E) l, st).
Proof.
  set (f := fun x : value => d <- lift (hash_data (py_str E x)) ;; ret (VStr d)).
  assert (Hf : forall x s, f x s = (hash_cell E x, s)).
  { intros x s. unfold f, bind, lift, ret, hash_cell.
    destruct (hash_data (py_str E x)); reflexivity. }
  revert st. induction l as [|x l IH]; intros st; [reflexivity|].
  cbn [mapM mapR]. unfold bind. rewrite Hf.
  destruct (hash_cell E x); [|reflexivity].
  rewrite IH. destruct (mapR (hash_cell E) l); reflexivity.
Qed.

Lemma Series_apply_hash (s : Series) (st : State) :
  Series_apply (fun x => d <- lift (hash_data (py_str E x)) ;; ret (VStr d))
               s st
  = (match values s with
     | [] => Ok (mkSeries (dtype_of s) [])
     | _ => match mapR (hash_cell E) (values s) with
            | Ok vs => Ok (mkSeries (infer_dtype vs) vs)
            | Raise e => Raise e
            end
     end, st).
Proof.
  unfold Series_apply. destruct (values s) as [|v vs]; [reflexivity|].
  unfold bind at 1. rewrite mapM_hash.
  destruct (mapR (hash_cell E) (v :: vs)); reflexivity.
Qed.

Lemma mask_column_eq (df : DataFrame) c (st : State) :
  mask_column E df c st =
  match mask_attempt E df c with
  | Ok df' => (Ok df', st)
  | Raise e =>
      if stdout_prints E (MsgHashError c e)
      then (Ok df, add_msg st (MsgHashError c e))
      else (Raise UnicodeEncodeError, st)
  end.
Proof.
  unfold mask_column, mask_attempt, try_except.
  unfold bind at 1. unfold lift at 1.
  destruct (getitem df c) as [s|e].
  - unfold bind at 1. rewrite Series_apply_hash.
    destruct (values s) as [|v vs]; [reflexivity|].
    destruct (mapR (hash_cell E) (v :: vs)) as [ds|e]; [reflexivity|].
    unfold bind, print. now destruct (stdout_prints E (MsgHashError c e)).
  - unfold bind, print. now destruct (stdout_prints E (MsgHashError c e)).
Qed.

(** [mask_data] prints the diagnostics of the pass up to the first one
    standard output refuses, and raises there. *)
Lemma mask_data_eq (cols : list pystr) (df : DataFrame) (st : State) :
  mask_data E df cols st =
  (if printable E (snd (mask_run E df cols))
   then Ok (fst (mask_run E df cols)) else Raise UnicodeEncodeError,
   mkState (stdout st ++ printed E (snd (mask_run E df cols))) (rng_calls st)
           (to_csv_calls st) (files st)).
Proof.
  revert df st. induction cols as [|c cols IH]; intros df st.
  - simpl. unfold ret. now rewrite app_nil_r, state_eta.
  - cbn [mask_data mask_run]. unfold bind. rewrite mask_column_eq.
    destruct (mask_attempt E df c) as [df'|e]; [now rewrite IH|].
    cbn [fst snd printable forallb printed].
    destruct (stdout_prints E (MsgHashError c e)).
    + rewrite IH. cbn [andb stdout rng_calls to_csv_calls files add_msg].
      unfold printable. now rewrite <- app_assoc.
    + cbn [andb]. now rewrite app_nil_r, state_eta.
Qed.

(** *** Digests *)

Lemma hash_data_ok (s : pystr) :
  PyStr.encodable s = true -> exists d, hash_data s = Ok d.
Proof.
  intros H. unfold hash_data.
  destruct (PyStrFacts.encode_ok s H) as [bs ->]. eauto.
Qed.

Lemma hash_data_hex (s d : pystr) : hash_data s = Ok d -> is_hex64 d = true.
Proof.
  unfold hash_data. destruct (PyStr.encode s); [|discriminate].
  intros [= <-]. unfold is_hex64.
  now rewrite SHA256Facts.hexdigest_length, SHA256Facts.hexdigest_hex.
Qed.

Lemma hex64_encodable (d : pystr) :
  is_hex64 d = true -> PyStr.encodable d = true.
Proof.
  unfold is_hex64. intros H. apply andb_true_iff in H as [_ H].
  now apply SHA256Facts.hex_encodable.
Qed.


Lemma py_str_encodable (v : value) :
  clean_value v = true -> PyStr.encodable (py_str E v) = true.
Proof.
  destruct v as [z|x|[|]|s]; simpl; intros H;
    auto using PyStrFacts.lit_encodable.
Qed.

Lemma mapR_hash_rel (vs ds : list value) :
  mapR (hash_cell E) vs = Ok ds -> Forall2 (hashed E) vs ds.
Proof.
  revert ds. induction vs as [|v vs IH]; simpl; intros ds.
  - intros [= <-]. constructor.
  - unfold hash_cell at 1.
    destruct (hash_data (py_str E v)) as [d|] eqn:Hd; [|discriminate].
    destruct (mapR (hash_cell E) vs) as [ys|]; [|discriminate].
    intros [= <-]. constructor; [exists d; auto|auto].
Qed.

Lemma mapR_hash_clean (vs : list value) :
  forallb clean_value vs = true -> exists ds, mapR (hash_cell E) vs = Ok ds.
Proof.
  induction vs as [|v vs IH]; simpl; intros H; [eauto|].
  apply andb_true_iff in H as [Hv Hvs].
  unfold hash_cell at 1.
  destruct (hash_data_ok _ (py_str_encodable v Hv)) as [d ->].
  destruct (IH Hvs) as [ds ->]. eauto.
Qed.

Lemma hashed_cells_wf (vs ds : list value) :
  Forall2 (hashed E) vs ds -> vs <> [] ->
  wf_series (mkSeries (infer_dtype ds) ds) = true.
Proof.
  intros H Hne.
  assert (Hclean : forallb clean_value ds = true /\ forallb is_str ds = true).
  { clear Hne. induction H as [|x y l l' [d [Hd ->]] _ [IH1 IH2]]; [auto|].
    simpl. rewrite IH1, IH2.
    now rewrite (hex64_encodable _ (hash_data_hex _ _ Hd)). }
  destruct Hclean as [Hc Hs].
  destruct H as [|x y l l' [d [Hd ->]] _]; [congruence|].
  unfold wf_series. cbn [values dtype_of].
  change (infer_dtype (VStr d :: l')) with ObjectDtype.
  now rewrite fits_object, Hc.
Qed.

(** *** One pass *)

Lemma mask_attempt_absent (df : DataFrame) c :
  ~ In c (columns df) -> mask_attempt E df c = Raise (KeyError c).
Proof.
  intros H. unfold mask_attempt.
  destruct (getitem df c) as [s|e] eqn:Hg.
  - apply getitem_ok_in in Hg. exfalso. apply H.
    unfold columns. change c with (fst (c, s)). now apply in_map.
  - now destruct (getitem_raise _ _ _ Hg) as [-> _].
Qed.

Lemma mask_attempt_ok (df df' : DataFrame) c :
  mask_attempt E df c = Ok df' ->
  exists s s', getitem df c = Ok s /\ df' = setitem df c s' /\
               Forall2 (hashed E) (values s) (values s') /\
               (values s = [] -> dtype_of s' = dtype_of s).
Proof.
  unfold mask_attempt. destruct (getitem df c) as [s|]; [|discriminate].
  destruct (values s) as [|v vs] eqn:Hv.
  - intros [= <-]. exists s, (mkSeries (dtype_of s) []).
    rewrite Hv. repeat split; constructor.
  - destruct (mapR (hash_cell E) (v :: vs)) as [ds|] eqn:Hm; [|discriminate].
    intros [= <-]. exists s, (mkSeries (infer_dtype ds) ds).
    rewrite Hv. repeat split; [|discriminate].
    now apply mapR_hash_rel.
Qed.

Lemma mask_attempt_wf_ok (df : DataFrame) c :
  wf_frame df = true -> In c (columns df) ->
  exists df', mask_attempt E df c = Ok df'.
Proof.
  intros Hwf Hin. unfold mask_attempt.
  destruct (getitem_in _ _ Hin) as [s Hs]. rewrite Hs.
  destruct (values s) as [|v vs] eqn:Hv; [eauto|].
  apply andb_true_iff in Hwf as [_ Hwf].
  pose proof (forallb_getitem wf_series _ _ _ Hwf Hs) as Hser.
  unfold wf_series in Hser. rewrite Hv in Hser.
  apply andb_true_iff in Hser as [Hser _].
  apply andb_true_iff in Hser as [_ Hclean].
  destruct (mapR_hash_clean _ Hclean) as [ds ->]. eauto.
Qed.

Lemma mask_attempt_wf (df df' : DataFrame) c :
  wf_frame df = true -> mask_attempt E df c = Ok df' -> wf_frame df' = true.
Proof.
  intros Hwf Hm. unfold mask_attempt in Hm.
  destruct (getitem df c) as [s|] eqn:Hs; [|discriminate].
  unfold wf_frame in *. apply andb_true_iff in Hwf as [Hu Hser].
  pose proof (forallb_getitem wf_series _ _ _ Hser Hs) as Hws.
  destruct (values s) as [|v vs] eqn:Hv.
  - injection Hm as <-. rewrite (columns_setitem _ _ _ _ Hs), Hu. simpl.
    apply forallb_setitem; [exact Hser|].
    unfold wf_series in *. rewrite Hv in Hws. exact Hws.
  - destruct (mapR (hash_cell E) (v :: vs)) as [ds|] eqn:Hds; [|discriminate].
    injection Hm as <-. rewrite (columns_setitem _ _ _ _ Hs), Hu. simpl.
    apply forallb_setitem; [exact Hser|].
    eapply hashed_cells_wf; [apply mapR_hash_rel; eassumption|discriminate].
Qed.


(** *** The whole list *)

Lemma mask_attempt_other (df df' : DataFrame) c c' :
  mask_attempt E df c = Ok df' -> c' <> c -> getitem df' c' = getitem df c'.
Proof.
  intros Hm Hne. destruct (mask_attempt_ok _ _ _ Hm) as (s & s' & _ & -> & _).
  now apply getitem_setitem_other.
Qed.

Lemma mask_attempt_raise_cong (df df' : DataFrame) c e :
  getitem df' c = getitem df c ->
  mask_attempt E df c = Raise e -> mask_attempt E df' c = Raise e.
Proof.
  unfold mask_attempt. intros ->.
  destruct (getitem df c) as [s|]; [|auto].
  destruct (values s); [discriminate|].
  destruct (mapR (hash_cell E) (v :: l)); [discriminate|auto].
Qed.

Lemma mask_run_wf (cols : list pystr) (df : DataFrame) :
  wf_frame df = true -> wf_frame (fst (mask_run E df cols)) = true.
Proof.
  revert df. induction cols as [|a cols IH]; intros df Hwf; [exact Hwf|].
  cbn [mask_run]. destruct (mask_attempt E df a) as [df'|e] eqn:Hm.
  - apply IH. eapply mask_attempt_wf; eassumption.
  - simpl. now apply IH.
Qed.

Lemma masked_n_step (m : nat) (x y z : value) :
  hashed E x y -> masked_n E m y z -> masked_n E (S m) x z.
Proof.
  intros [d0 [Hd0 ->]] Hm. destruct m as [|m]; simpl in *.
  - subst z. exists d0. now rewrite Hd0.
  - destruct Hm as [d [Hd ->]]. exists d. now rewrite Hd0.
Qed.

Lemma mask_run_column (cols : list pystr) (df : DataFrame) c s :
  wf_frame df = true -> getitem df c = Ok s ->
  exists s1, getitem (fst (mask_run E df cols)) c = Ok s1 /\
             Forall2 (masked_n E (times_listed cols c)) (values s) (values s1).
Proof.
  revert df s. induction cols as [|a cols IH]; intros df s Hwf Hs.
  - exists s. split; [exact Hs|]. simpl.
    induction (values s); constructor; auto. reflexivity.
  - cbn [mask_run]. unfold times_listed.
    destruct (mask_attempt E df a) as [df'|e] eqn:Hm.
    + pose proof (mask_attempt_wf _ _ _ Hwf Hm) as Hwf'.
      destruct (list_eq_dec Z.eq_dec a c) as [->|Hne].
      * rewrite count_occ_cons_eq by reflexivity.
        destruct (mask_attempt_ok _ _ _ Hm) as (s0 & s' & Hs0 & -> & Hh & _).
        assert (s0 = s) by congruence. subst s0.
        destruct (IH _ s' Hwf' (getitem_setitem_same _ _ _)) as (s1 & H1 & H2).
        exists s1. split; [exact H1|].
        eapply Forall2_compose; [|exact Hh|exact H2].
        intros x y z. apply masked_n_step.
      * rewrite count_occ_cons_neq by exact Hne.
        apply IH; [exact Hwf'|].
        rewrite (mask_attempt_other _ _ _ c Hm); auto.
    + cbn [fst]. destruct (list_eq_dec Z.eq_dec a c) as [->|Hne].
      * exfalso. apply getitem_ok_in in Hs.
        assert (Hin : In c (columns df)).
        { unfold columns. change c with (fst (c, s)). now apply in_map. }
        destruct (mask_attempt_wf_ok _ _ Hwf Hin) as [df' Hdf']. congruence.
      * rewrite count_occ_cons_neq by exact Hne. now apply IH.
Qed.

Lemma evolves_trans (x y z : value) :
  evolves E x y -> evolves E y z -> evolves E x z.
Proof.
  intros Hxy Hyz. induction Hyz; eauto using evolves.
Qed.

Lemma hashed_evolves (x y : value) : hashed E x y -> evolves E x y.
Proof. intros [d [Hd ->]]. eapply ev_hash; [apply ev_same|exact Hd]. Qed.

Lemma mask_attempt_rel (df df' : DataFrame) c :
  mask_attempt E df c = Ok df' -> frame_rel (evolves E) df df'.
Proof.
  intros Hm. destruct (mask_attempt_ok _ _ _ Hm) as (s & s' & Hs & -> & Hh & _).
  eapply frame_rel_setitem; [apply ev_same|exact Hs|].
  eapply Forall2_impl; [|exact Hh]. apply hashed_evolves.
Qed.

Lemma mask_run_rel (cols : list pystr) (df : DataFrame) :
  frame_rel (evolves E) df (fst (mask_run E df cols)).
Proof.
  revert df. induction cols as [|a cols IH]; intros df.
  - apply frame_rel_refl, ev_same.
  - cbn [mask_run]. destruct (mask_attempt E df a) as [df'|e] eqn:Hm.
    + eapply frame_rel_trans; [apply evolves_trans| |apply IH].
      eapply mask_attempt_rel; eassumption.
    + apply IH.
Qed.

End Masking.

(* ===================================================================== *)
(** ** The noiser *)

Section Noising.

Variable E : Env.
Variable eps : float.

Lemma add_noise_eq (v : value) (st : State) :
  add_noise E v eps 1 st =
  (fst (noise_cell E eps v (rng_calls st)),
   set_rng st (snd (noise_cell E eps v (rng_calls st)))).
Proof.
  unfold add_noise, noise_cell, bind, lift, np_random_laplace, set_rng.
  destruct (py_truediv 1 eps) as [scale|e]; [|simpl; now rewrite state_eta].
  destruct (scale_refused scale); simpl; [now rewrite state_eta|].
  reflexivity.
Qed.

Lemma mapM_noise (vs : list value) (st : State) :
  mapM (fun x => add_noise E x eps 1) vs st =
  (fst (noise_cells E eps vs (rng_calls st)),
   set_rng st (snd (noise_cells E eps vs (rng_calls st)))).
Proof.
  revert st. induction vs as [|v vs IH]; intros st.
  - simpl. unfold ret, set_rng. now rewrite state_eta.
  - cbn [mapM noise_cells]. unfold bind. rewrite add_noise_eq.
    destruct (noise_cell E eps v (rng_calls st)) as [[y|e] n']; simpl;
      [|reflexivity].
    rewrite IH. simpl.
    destruct (noise_cells E eps vs n') as [[ys|e] n'']; reflexivity.
Qed.

Lemma create_noisy_data_eq (df : DataFrame) c (st : State) :
  create_noisy_data E df c eps st =
  match noise_attempt E eps df c (rng_calls st) with
  | (Ok df', n') => (Ok df', set_rng st n')
  | (Raise e, n') =>
      if stdout_prints E (MsgNoiseError c e)
      then (Ok df, add_msg (set_rng st n') (MsgNoiseError c e))
      else (Raise UnicodeEncodeError, set_rng st n')
  end.
Proof.
  unfold create_noisy_data, noise_attempt, try_except.
  unfold bind at 1. unfold lift at 1.
  destruct (getitem df c) as [s|e].
  - unfold bind at 1. unfold Series_apply.
    destruct (values s) as [|v vs];
      [unfold ret, set_rng; now rewrite state_eta|].
    unfold bind at 1. rewrite mapM_noise.
    destruct (noise_cells E eps (v :: vs) (rng_calls st)) as [[ys|e] n'];
      [reflexivity|].
    unfold bind, print. cbn [fst snd].
    now destruct (stdout_prints E (MsgNoiseError c e)).
  - unfold bind, print, set_rng. rewrite state_eta.
    now destruct (stdout_prints E (MsgNoiseError c e)).
Qed.

End Noising.

Section NoiseFacts.

Variable E : Env.
Variable eps : float.

Lemma noised_evolves (x y : value) : noised x y -> evolves E x y.
Proof. intros [noise H]. eapply ev_noise; [apply ev_same|exact H]. Qed.

Lemma noise_cell_ok (v y : value) (n n' : nat) :
  noise_cell E eps v n = (Ok y, n') -> noised v y.
Proof.
  unfold noise_cell. destruct (py_truediv 1 eps) as [scale|]; [|discriminate].
  destruct (scale_refused scale); [discriminate|].
  intros [= H _]. now exists (laplace_variate E n 0%float scale).
Qed.

Lemma noise_cells_rel (vs ys : list value) (n n' : nat) :
  noise_cells E eps vs n = (Ok ys, n') -> Forall2 noised vs ys.
Proof.
  revert ys n. induction vs as [|v vs IH]; simpl; intros ys n.
  - intros [= <- _]. constructor.
  - destruct (noise_cell E eps v n) as [[y|e] n1] eqn:Hc; [|discriminate].
    destruct (noise_cells E eps vs n1) as [[ys'|e] n2] eqn:Hcs; [|discriminate].
    intros [= <- <-]. constructor; eauto using noise_cell_ok.
Qed.

Lemma noise_cell_mono (v : value) (n : nat) :
  (n <= snd (noise_cell E eps v n))%nat.
Proof.
  unfold noise_cell. destruct (py_truediv 1 eps) as [scale|]; simpl; [|lia].
  destruct (scale_refused scale); simpl; lia.
Qed.

Lemma noise_cells_mono (vs : list value) (n : nat) :
  (n <= snd (noise_cells E eps vs n))%nat.
Proof.
  revert n. induction vs as [|v vs IH]; intros n; simpl; [lia|].
  pose proof (noise_cell_mono v n) as H1.
  destruct (noise_cell E eps v n) as [[y|e] n1]; simpl in *; [|exact H1].
  pose proof (IH n1) as H2.
  destruct (noise_cells E eps vs n1) as [[ys|e] n2]; simpl in *; lia.
Qed.

Lemma noise_attempt_mono (df : DataFrame) c (n : nat) :
  (n <= snd (noise_attempt E eps df c n))%nat.
Proof.
  unfold noise_attempt. destruct (getitem df c) as [s|]; [|simpl; lia].
  destruct (values s) as [|v vs]; [simpl; lia|].
  pose proof (noise_cells_mono (v :: vs) n) as H.
  destruct (noise_cells E eps (v :: vs) n) as [[ys|e] n1]; exact H.
Qed.

Lemma noise_attempt_ok (df df' : DataFrame) c (n n' : nat) :
  noise_attempt E eps df c n = (Ok df', n') ->
  exists s s', getitem df c = Ok s /\ df' = setitem df c s' /\
               Forall2 noised (values s) (values s').
Proof.
  unfold noise_attempt. destruct (getitem df c) as [s|]; [|discriminate].
  destruct (values s) as [|v vs] eqn:Hv.
  - intros [= <- _]. exists s, (mkSeries (dtype_of s) []).
    rewrite Hv. repeat split. constructor.
  - destruct (noise_cells E eps (v :: vs) n) as [[ys|e] n1] eqn:Hn;
      [|discriminate].
    intros [= <- _]. exists s, (mkSeries (infer_dtype ys) ys).
    rewrite Hv. repeat split. eapply noise_cells_rel; eassumption.
Qed.

Lemma noise_attempt_rel (df df' : DataFrame) c (n n' : nat) :
  noise_attempt E eps df c n = (Ok df', n') -> frame_rel (evolves E) df df'.
Proof.
  intros H. destruct (noise_attempt_ok _ _ _ _ _ H) as (s & s' & Hs & -> & Hn).
  eapply frame_rel_setitem; [apply ev_same|exact Hs|].
  eapply Forall2_impl; [|exact Hn]. apply noised_evolves.
Qed.

(** The loop never raises on the columns of its own table, and it keeps
    the shape of the table. *)
Lemma noise_run_rel (cols : list pystr) (df : DataFrame) (n : nat) :
  incl cols (columns df) ->
  exists df2, fst (fst (noise_run E eps df cols n)) = Ok df2 /\
              frame_rel (evolves E) df df2.
Proof.
  revert df n. induction cols as [|c cols IH]; intros df n Hincl.
  - exists df. split; [reflexivity|]. apply frame_rel_refl, ev_same.
  - cbn [noise_run].
    assert (Hc : In c (columns df)) by (apply Hincl; now left).
    assert (Hrest : incl cols (columns df)) by (intros x Hx; apply Hincl; now right).
    destruct (getitem_in _ _ Hc) as [s ->].
    destruct (is_numeric_dtype (dtype_of s)); [|now apply IH].
    destruct (noise_attempt E eps df c n) as [[df'|e] n'] eqn:Ha.
    + pose proof (noise_attempt_rel _ _ _ _ _ Ha) as Hrel.
      destruct (IH df' n') as (df2 & H2 & Hrel2).
      { now rewrite (frame_rel_columns _ _ _ Hrel). }
      exists df2. split; [exact H2|].
      eapply frame_rel_trans; [apply evolves_trans|exact Hrel|exact Hrel2].
    + cbn [fst]. now apply IH.
Qed.

(** A column the loop skips, or never sees, is left as it is. *)
Lemma noise_run_keeps (cols : list pystr) (df df2 : DataFrame) (n : nat) c :
  (In c cols ->
   exists s, getitem df c = Ok s /\ is_numeric_dtype (dtype_of s) = false) ->
  fst (fst (noise_run E eps df cols n)) = Ok df2 ->
  getitem df2 c = getitem df c.
Proof.
  revert df n. induction cols as [|a cols IH]; intros df n Hc.
  - simpl. now intros [= <-].
  - cbn [noise_run].
    destruct (getitem df a) as [s|e] eqn:Ha; [|discriminate].
    destruct (is_numeric_dtype (dtype_of s)) eqn:Hnum.
    + assert (Hne : c <> a).
      { intros ->. destruct Hc as (s0 & Hs0 & Hn0); [now left|]. congruence. }
      destruct (noise_attempt E eps df a n) as [[df'|e] n'] eqn:Hat.
      * destruct (noise_attempt_ok _ _ _ _ _ Hat) as (s1 & s' & _ & -> & _).
        intros H. transitivity (getitem (setitem df a s') c).
        -- apply (IH _ n'); [|exact H].
           intros Hin. rewrite getitem_setitem_other by exact Hne.
           apply Hc. now right.
        -- now apply getitem_setitem_other.
      * cbn [fst]. apply IH. intros Hin. apply Hc. now right.
    + apply IH. intros Hin. apply Hc. now right.
Qed.

(** *** A usable epsilon *)

Lemma noised_from_rel (scale : float) (k : nat) (xs ys : list value) :
  noised_from E scale k xs ys -> Forall2 noised xs ys.
Proof.
  induction 1; constructor; [eexists; eassumption|assumption].
Qed.


Lemma py_truediv_one :
  py_truediv 1 eps =
  if PrimFloat.eqb eps 0%float then Raise ZeroDivisionError
  else Ok (float_of_Z 1 / eps)%float.
Proof. reflexivity. Qed.

Lemma py_add_number (v : value) (noise : float) :
  addable v = true ->
  exists f, number_of v = Some f /\ py_add v noise = Ok (VFloat (f + noise)%float).
Proof.
  destruct v as [z|x|b|s]; simpl; intros H.
  - unfold py_float_of_int. rewrite H. eauto.
  - eauto.
  - destruct b; eauto.
  - discriminate.
Qed.

Lemma noise_cells_valid (scale : float) (vs : list value) (n : nat) :
  py_truediv 1 eps = Ok scale -> scale_refused scale = false ->
  forallb addable vs = true ->
  exists ys, noise_cells E eps vs n = (Ok ys, (n + List.length vs)%nat) /\
             noised_from E scale n vs ys.
Proof.
  intros Hs Hr. revert n. induction vs as [|v vs IH]; intros n Hnum.
  - exists []. simpl. rewrite Nat.add_0_r. split; [reflexivity|constructor].
  - simpl in Hnum. apply andb_true_iff in Hnum as [Hv Hvs].
    cbn [noise_cells]. unfold noise_cell. rewrite Hs, Hr.
    destruct (py_add_number v (laplace_variate E n 0%float scale) Hv)
      as (f & _ & Hy).
    rewrite Hy.
    destruct (IH (S n) Hvs) as (ys & H1 & H2). rewrite H1.
    exists (VFloat (f + laplace_variate E n 0%float scale)%float :: ys). split.
    + simpl. f_equal. lia.
    + now constructor.
Qed.

Lemma int64_addable (v : value) : is_int64 v = true -> addable v = true.
Proof.
  destruct v as [z| | |]; simpl; try discriminate.
  intros H. apply andb_true_iff in H as [H1 H2].
  apply Z.leb_le in H1. apply Z.ltb_lt in H2. apply Z.ltb_lt.
  unfold float_overflow. lia.
Qed.

(** The cells of a well-typed numeric column can all be added to. *)
Lemma numeric_fits_addable (d : dtype) (vs : list value) :
  is_numeric_dtype d = true -> forallb (fits d) vs = true ->
  forallb addable vs = true.
Proof.
  intros Hd H. apply forallb_forall. intros v Hv.
  eapply forallb_forall in H; [|exact Hv].
  destruct d; simpl in *; try discriminate.
  - now apply int64_addable.
  - destruct v; simpl in *; congruence.
  - destruct v; simpl in *; congruence.
Qed.

Lemma noise_run_mono (cols : list pystr) (df : DataFrame) (n : nat) :
  (n <= snd (noise_run E eps df cols n))%nat.
Proof.
  revert df n. induction cols as [|a cols IH]; intros df n; [simpl; lia|].
  cbn [noise_run]. destruct (getitem df a) as [s|]; [|simpl; lia].
  destruct (is_numeric_dtype (dtype_of s)); [|apply IH].
  pose proof (noise_attempt_mono df a n) as H.
  destruct (noise_attempt E eps df a n) as [[df'|e] n']; simpl in H.
  - pose proof (IH df' n'). lia.
  - cbn [snd]. pose proof (IH df n'). lia.
Qed.

(** With a usable epsilon, a numeric column listed once gets one fresh
    variate per cell, from consecutive calls made during the loop. *)
Lemma noise_run_noised (scale : float) (cols : list pystr) (df : DataFrame)
    (n : nat) c s :
  py_truediv 1 eps = Ok scale -> scale_refused scale = false ->
  NoDup cols -> In c cols -> incl cols (columns df) ->
  getitem df c = Ok s -> is_numeric_dtype (dtype_of s) = true ->
  forallb (fits (dtype_of s)) (values s) = true ->
  exists df2 s2 k,
    fst (fst (noise_run E eps df cols n)) = Ok df2 /\
    getitem df2 c = Ok s2 /\ (n <= k)%nat /\
    (k + List.length (values s) <= snd (noise_run E eps df cols n))%nat /\
    noised_from E scale k (values s) (values s2).
Proof.
  intros Hs Hr. revert df n.
  induction cols as [|a cols IH]; intros df n Hnd Hin Hincl Hc Hnum Hfit;
    [contradiction|].
  assert (Ha : In a (columns df)) by (apply Hincl; now left).
  assert (Hrest : incl cols (columns df)) by (intros x Hx; apply Hincl; now right).
  inversion Hnd as [|? ? Hnotin Hnd']; subst.
  destruct (list_eq_dec Z.eq_dec a c) as [->|Hne].
  - (* the column itself *)
    cbn [noise_run]. rewrite Hc, Hnum. unfold noise_attempt. rewrite Hc.
    destruct (values s) as [|v vs] eqn:Hv.
    + destruct (noise_run_rel cols (setitem df c (mkSeries (dtype_of s) [])) n)
        as (df2 & H2 & _).
      { now rewrite (columns_setitem _ _ _ _ Hc). }
      exists df2, (mkSeries (dtype_of s) []), n. split; [exact H2|].
      split; [|split; [lia|split; [|constructor]]].
      * rewrite (noise_run_keeps _ _ _ _ c (fun H => False_ind _ (Hnotin H)) H2).
        apply getitem_setitem_same.
      * pose proof (noise_run_mono cols
                      (setitem df c (mkSeries (dtype_of s) [])) n).
        simpl. lia.
    + destruct (noise_cells_valid scale (v :: vs) n Hs Hr) as (ys & Hys & Hfrom).
      { rewrite <- Hv in *. eapply numeric_fits_addable; eassumption. }
      rewrite Hys.
      destruct (noise_run_rel cols (setitem df c (mkSeries (infer_dtype ys) ys))
                              (n + List.length (v :: vs))) as (df2 & H2 & _).
      { now rewrite (columns_setitem _ _ _ _ Hc). }
      exists df2, (mkSeries (infer_dtype ys) ys), n. split; [exact H2|].
      split; [|split; [lia|split; [|exact Hfrom]]].
      * rewrite (noise_run_keeps _ _ _ _ c (fun H => False_ind _ (Hnotin H)) H2).
        apply getitem_setitem_same.
      * apply noise_run_mono.
  - (* another column first *)
    destruct Hin as [Heq|Hin]; [congruence|].
    cbn [noise_run]. destruct (getitem_in _ _ Ha) as [sa Hsa]. rewrite Hsa.
    destruct (is_numeric_dtype (dtype_of sa)).
    + destruct (noise_attempt E eps df a n) as [[df'|e] n'] eqn:Hat.
      * pose proof (noise_attempt_mono df a n) as Hle. rewrite Hat in Hle.
        simpl in Hle.
        destruct (noise_attempt_ok _ _ _ _ _ Hat) as (s1 & s' & _ & -> & _).
        destruct (IH (setitem df a s') n' Hnd' Hin)
          as (df2 & s2 & k & H1 & H2 & H3 & H4 & H5).
        { now rewrite (columns_setitem _ _ _ _ Hsa). }
        { rewrite getitem_setitem_other by congruence. exact Hc. }
        { exact Hnum. }
        { exact Hfit. }
        exists df2, s2, k. repeat split; auto. lia.
      * pose proof (noise_attempt_mono df a n) as Hle. rewrite Hat in Hle.
        simpl in Hle. cbn [fst snd].
        destruct (IH df n' Hnd' Hin Hrest Hc Hnum Hfit)
          as (df2 & s2 & k & H1 & H2 & H3 & H4 & H5).
        exists df2, s2, k. repeat split; auto. lia.
    + destruct (IH df n Hnd' Hin Hrest Hc Hnum Hfit)
        as (df2 & s2 & k & H1 & H2 & H3 & H4 & H5).
      exists df2, s2, k. repeat split; auto.
Qed.

End NoiseFacts.

Section NoiseLoop.

Variable E : Env.
Variable eps : float.

(** The loop prints its diagnostics up to the first one standard output
    refuses and raises there; up to there it is the run [noise_run]
    describes, so it has made no more generator calls than that run. *)
Lemma noise_columns_eq (cols : list pystr) (df : DataFrame) (st : State) :
  exists n',
    noise_columns E df cols eps st =
    (if printable E (snd (fst (noise_run E eps df cols (rng_calls st))))
     then fst (fst (noise_run E eps df cols (rng_calls st)))
     else Raise UnicodeEncodeError,
     mkState (stdout st
              ++ printed E (snd (fst (noise_run E eps df cols (rng_calls st)))))
             n' (to_csv_calls st) (files st)) /\
    (rng_calls st <= n')%nat /\
    (n' <= snd (noise_run E eps df cols (rng_calls st)))%nat /\
    (printable E (snd (fst (noise_run E eps df cols (rng_calls st)))) = true ->
     n' = snd (noise_run E eps df cols (rng_calls st))).
Proof.
  revert df st. induction cols as [|c cols IH]; intros df st.
  - exists (rng_calls st). simpl. unfold ret.
    rewrite app_nil_r, state_eta. repeat split; auto.
  - cbn [noise_columns noise_run]. unfold bind at 1.
    unfold is_numeric_column, bind at 1, lift at 1.
    destruct (getitem df c) as [s|e].
    2:{ exists (rng_calls st). simpl. rewrite app_nil_r, state_eta.
        repeat split; auto. }
    unfold ret at 1. unfold bind at 1.
    destruct (is_numeric_dtype (dtype_of s)).
    + rewrite create_noisy_data_eq.
      pose proof (noise_attempt_mono E eps df c (rng_calls st)) as Hmono.
      destruct (noise_attempt E eps df c (rng_calls st)) as [[df'|e] n1];
        cbn [snd] in Hmono.
      * destruct (IH df' (set_rng st n1)) as (n' & Heq & H1 & H2 & H3).
        cbn [set_rng rng_calls stdout to_csv_calls files] in *.
        exists n'. rewrite Heq. repeat split; auto. lia.
      * cbn [fst snd printable forallb printed].
        destruct (stdout_prints E (MsgNoiseError c e)).
        -- destruct (IH df (add_msg (set_rng st n1) (MsgNoiseError c e)))
             as (n' & Heq & H1 & H2 & H3).
           cbn [add_msg set_rng rng_calls stdout to_csv_calls files] in *.
           exists n'. rewrite Heq. cbn [andb]. unfold printable in *.
           rewrite <- app_assoc. repeat split; auto. lia.
        -- exists n1. cbn [andb]. unfold set_rng. rewrite app_nil_r.
           repeat split; auto; [|discriminate].
           apply noise_run_mono.
    + unfold ret at 1. destruct (IH df st) as (n' & Heq & H1 & H2 & H3).
      exists n'. rewrite Heq. repeat split; auto.
Qed.

End NoiseLoop.

(* ===================================================================== *)
(** ** The pipeline *)

Section Pipeline.

Variable E : Env.

Lemma noise_cell_error (eps : float) (e : exn) (v : value) (n : nat) :
  noise_error eps = Some e -> noise_cell E eps v n = (Raise e, n).
Proof.
  unfold noise_error, noise_cell.
  destruct (py_truediv 1 eps) as [scale|e0]; [|now intros [= ->]].
  destruct (scale_refused scale); [now intros [= ->]|discriminate].
Qed.

Lemma series_eta (s : Series) :
  values s = [] -> mkSeries (dtype_of s) [] = s.
Proof. destruct s; simpl; now intros ->. Qed.

(** With an unusable epsilon every attempt fails before the generator is
    called, and the table stays as it is. *)
Lemma noise_run_unusable (eps : float) (e : exn) (cols : list pystr)
    (df : DataFrame) (n : nat) :
  noise_error eps = Some e -> incl cols (columns df) ->
  noise_run E eps df cols n =
  (Ok df, map (fun c => MsgNoiseError c e) (filter (noise_target df) cols), n).
Proof.
  intros He. induction cols as [|c cols IH]; intros Hincl; [reflexivity|].
  assert (Hc : In c (columns df)) by (apply Hincl; now left).
  assert (Hrest : incl cols (columns df)) by (intros x Hx; apply Hincl; now right).
  cbn [noise_run filter]. unfold noise_target at 1, noise_attempt.
  destruct (getitem_in _ _ Hc) as [s Hs]. rewrite Hs.
  destruct (is_numeric_dtype (dtype_of s)); [|now apply IH].
  destruct (values s) as [|v vs] eqn:Hv.
  - rewrite (series_eta _ Hv), (setitem_same _ _ _ Hs).
    simpl. now apply IH.
  - cbn [noise_cells]. rewrite (noise_cell_error _ _ _ _ He).
    rewrite (IH Hrest). reflexivity.
Qed.

Lemma mask_run_other (cols : list pystr) (df : DataFrame) c :
  ~ In c cols -> getitem (fst (mask_run E df cols)) c = getitem df c.
Proof.
  revert df. induction cols as [|a cols IH]; intros df Hc; [reflexivity|].
  cbn [mask_run]. simpl in Hc.
  destruct (mask_attempt E df a) as [df'|e] eqn:Hm.
  - rewrite IH by tauto. eapply mask_attempt_other; [eassumption|].
    intros ->. tauto.
  - cbn [fst]. apply IH. tauto.
Qed.



Lemma unique_NoDup (l : list pystr) : unique l = true -> NoDup l.
Proof.
  induction l as [|x l IH]; simpl; intros H; constructor.
  - apply andb_true_iff in H as [H _]. apply negb_true_iff in H.
    intros Hin. assert (existsb (PyStr.eqb x) l = true); [|congruence].
    apply existsb_exists. exists x. split; [exact Hin|apply PyStrFacts.eqb_refl].
  - apply IH. now apply andb_true_iff in H as [_ H].
Qed.

(** *** What the diagnostics are about *)

Lemma mask_run_labels (cols : list pystr) (df : DataFrame) (m : message) :
  In m (snd (mask_run E df cols)) ->
  exists c e, m = MsgHashError c e /\ In c cols.
Proof.
  revert df. induction cols as [|a cols IH]; intros df; [contradiction|].
  cbn [mask_run]. destruct (mask_attempt E df a) as [df'|e].
  - intros Hm. destruct (IH _ Hm) as (c & e & -> & Hc).
    exists c, e. split; [reflexivity|now right].
  - cbn [snd]. intros [<-|Hm].
    + exists a, e. split; [reflexivity|now left].
    + destruct (IH _ Hm) as (c & e' & -> & Hc).
      exists c, e'. split; [reflexivity|now right].
Qed.

Lemma noise_run_labels (eps : float) (cols : list pystr) (df : DataFrame)
    (n : nat) (m : message) :
  In m (snd (fst (noise_run E eps df cols n))) ->
  exists c e, m = MsgNoiseError c e /\ In c cols.
Proof.
  revert df n. induction cols as [|a cols IH]; intros df n; [contradiction|].
  cbn [noise_run]. destruct (getitem df a) as [s|e]; [|contradiction].
  destruct (is_numeric_dtype (dtype_of s)).
  - destruct (noise_attempt E eps df a n) as [[df'|e] n'].
    + intros Hm. destruct (IH _ _ Hm) as (c & e & -> & Hc).
      exists c, e. split; [reflexivity|now right].
    + cbn [fst snd]. intros [<-|Hm].
      * exists a, e. split; [reflexivity|now left].
      * destruct (IH _ _ Hm) as (c & e' & -> & Hc).
        exists c, e'. split; [reflexivity|now right].
  - intros Hm. destruct (IH _ _ Hm) as (c & e & -> & Hc).
    exists c, e. split; [reflexivity|now right].
Qed.

Lemma prints_about_incl (l l' : list pystr) :
  incl l l' -> prints_about E l' -> prints_about E l.
Proof. intros Hi H m c Hm Hc. eapply H; eauto. Qed.

Lemma mask_run_printable (cols : list pystr) (df : DataFrame) :
  prints_about E cols -> printable E (snd (mask_run E df cols)) = true.
Proof.
  intros H. apply forallb_forall. intros m Hm.
  destruct (mask_run_labels _ _ _ Hm) as (c & e & -> & Hc).
  now apply (H _ c).
Qed.

Lemma noise_run_printable (eps : float) (cols : list pystr) (df : DataFrame)
    (n : nat) :
  prints_about E cols ->
  printable E (snd (fst (noise_run E eps df cols n))) = true.
Proof.
  intros H. apply forallb_forall. intros m Hm.
  destruct (noise_run_labels _ _ _ _ _ Hm) as (c & e & -> & Hc).
  now apply (H _ c).
Qed.

(** *** The writer *)

(** The [try] around the writer: the writer is called once; the line that
    follows is printed when standard output takes it, and when it takes
    every line about the output path the block returns normally. *)
Lemma write_phase (out : pystr) (df2 : DataFrame) (st : State) :
  exists r st',
    try_except (to_csv E df2 out ;;; print E (MsgWritten out))
               (fun e => print E (MsgWriteError out e)) st = (r, st') /\
    (r = Ok tt \/ r = Raise UnicodeEncodeError) /\
    to_csv_calls st' = to_csv_calls st ++ [(out, df2)] /\
    rng_calls st' = rng_calls st /\
    files st' = match to_csv_error E out df2 with
                | None => (out, df2) :: files st
                | Some _ => files st
                end /\
    (exists tail, stdout st' = stdout st ++ tail /\
                  (List.length tail <= 1)%nat /\
                  (forall m, In m tail -> label_of m = Some out) /\
                  (r = Ok tt -> List.length tail = 1%nat)) /\
    (stdout_prints E (last_line E out df2) = true ->
     r = Ok tt /\ stdout st' = stdout st ++ [last_line E out df2]) /\
    (prints_about E [out] -> r = Ok tt).
Proof.
  unfold try_except, bind, to_csv, print, last_line.
  destruct (to_csv_error E out df2) as [e|];
    cbn [stdout rng_calls to_csv_calls files].
  - destruct (stdout_prints E (MsgWriteError out e)) eqn:Hp;
      (eexists; eexists; split; [reflexivity|];
       cbn [stdout rng_calls to_csv_calls files]).
    + repeat split; auto.
      exists [MsgWriteError out e]. repeat split; auto.
      intros m [<-|[]]. reflexivity.
    + split; [now right|]. do 3 (split; [reflexivity|]). split; [|split].
      * exists []. rewrite app_nil_r. repeat split; auto.
        -- intros m [].
        -- discriminate.
      * discriminate.
      * intros H. rewrite (H (MsgWriteError out e) out) in Hp;
          [discriminate|reflexivity|now left].
  - destruct (stdout_prints E (MsgWritten out)) eqn:Hp;
      cbn [stdout rng_calls to_csv_calls files].
    + eexists; eexists; split; [reflexivity|];
        cbn [stdout rng_calls to_csv_calls files].
      repeat split; auto.
      exists [MsgWritten out]. repeat split; auto.
      intros m [<-|[]]. reflexivity.
    + destruct (stdout_prints E (MsgWriteError out UnicodeEncodeError)) eqn:Hq;
        (eexists; eexists; split; [reflexivity|];
         cbn [stdout rng_calls to_csv_calls files]).
      * split; [now left|]. do 3 (split; [reflexivity|]). split; [|split].
        -- exists [MsgWriteError out UnicodeEncodeError]. repeat split; auto.
           intros m [<-|[]]. reflexivity.
        -- discriminate.
        -- reflexivity.
      * split; [now right|]. do 3 (split; [reflexivity|]). split; [|split].
        -- exists []. rewrite app_nil_r. repeat split; auto.
           ++ intros m [].
           ++ discriminate.
        -- discriminate.
        -- intros H. rewrite (H (MsgWritten out) out) in Hp;
             [discriminate|reflexivity|now left].
Qed.

Lemma write_phase_exact (out : pystr) (df2 : DataFrame) (st : State) :
  try_except (to_csv E df2 out ;;; print E (MsgWritten out))
             (fun e => print E (MsgWriteError out e)) st
  = (snd (write_report E out df2),
     mkState (stdout st ++ fst (write_report E out df2)) (rng_calls st)
             (to_csv_calls st ++ [(out, df2)])
             (match to_csv_error E out df2 with
              | None => (out, df2) :: files st
              | Some _ => files st
              end)).
Proof.
  unfold try_except, bind, to_csv, print, write_report.
  destruct (to_csv_error E out df2) as [e|];
    cbn [stdout rng_calls to_csv_calls files].
  - destruct (stdout_prints E (MsgWriteError out e));
      cbn [fst snd stdout rng_calls to_csv_calls files];
      [reflexivity|now rewrite app_nil_r].
  - destruct (stdout_prints E (MsgWritten out));
      cbn [fst snd stdout rng_calls to_csv_calls files]; [reflexivity|].
    destruct (stdout_prints E (MsgWriteError out UnicodeEncodeError));
      cbn [fst snd stdout rng_calls to_csv_calls files];
      [reflexivity|now rewrite app_nil_r].
Qed.

(** *** The run on a table that loaded *)

Lemma run_loaded (inp out : pystr) (cols : list pystr)
    (eps : float) (st : State) (df : DataFrame) :
  read_csv E inp = Ok df ->
  exists df2 r st',
    fst (fst (noise_run E eps (fst (mask_run E df cols))
                        (columns (fst (mask_run E df cols))) (rng_calls st)))
      = Ok df2 /\
    frame_rel (evolves E) (fst (mask_run E df cols)) df2 /\
    anonymize_csv E inp out cols eps st = (r, st') /\
    (r = Ok tt \/ r = Raise UnicodeEncodeError) /\
    (printable E (run_msgs E eps df cols (rng_calls st)) = false ->
     r = Raise UnicodeEncodeError /\ idle st st' /\
     stdout st' = stdout st ++ printed E (run_msgs E eps df cols (rng_calls st)) /\
     (rng_calls st <= rng_calls st')%nat /\
     (rng_calls st' <= run_calls E eps df cols (rng_calls st))%nat /\
     (printable E (snd (mask_run E df cols)) = false ->
      rng_calls st' = rng_calls st)) /\
    (printable E (run_msgs E eps df cols (rng_calls st)) = true ->
     wrote st st' out df2 /\
     rng_calls st' = run_calls E eps df cols (rng_calls st) /\
     files st' = match to_csv_error E out df2 with
                 | None => (out, df2) :: files st
                 | Some _ => files st
                 end /\
     (exists tail,
         stdout st' = stdout st ++ run_msgs E eps df cols (rng_calls st) ++ tail /\
         (List.length tail <= 1)%nat /\
         (forall m, In m tail -> label_of m = Some out) /\
         (r = Ok tt -> List.length tail = 1%nat)) /\
     (stdout_prints E (last_line E out df2) = true ->
      r = Ok tt /\
      st' = finish E out df2 (run_msgs E eps df cols (rng_calls st))
                   (run_calls E eps df cols (rng_calls st)) st) /\
     (prints_about E [out] -> r = Ok tt)).
Proof.
  intros Hread. unfold run_msgs, run_calls.
  set (df1 := fst (mask_run E df cols)).
  set (mm := snd (mask_run E df cols)).
  destruct (noise_run_rel E eps (columns df1) df1 (rng_calls st)
                          (incl_refl _)) as (df2 & H2 & Hrel).
  pose proof (noise_run_mono E eps (columns df1) df1 (rng_calls st)) as Hmono.
  exists df2.
  unfold anonymize_csv, load. unfold bind at 1. unfold try_except at 1.
  unfold bind at 1. unfold lift at 1. rewrite Hread.
  unfold ret at 1. unfold bind at 1. rewrite mask_data_eq.
  fold df1 mm. rewrite printable_app.
  destruct (printable E mm) eqn:Hpm.
  2:{ rewrite (printed_stops E mm _ Hpm). eexists. eexists. split; [exact H2|]. split; [exact Hrel|].
      split; [reflexivity|]. split; [now right|].
      cbn [andb]. split; [|discriminate]. intros _.
      cbn [stdout rng_calls to_csv_calls files].
      repeat split; auto. }
  set (st1 := mkState (stdout st ++ printed E mm) (rng_calls st)
                      (to_csv_calls st) (files st)).
  destruct (noise_columns_eq E eps (columns df1) df1 st1)
    as (n' & Heq & Hlo & Hhi & Hex).
  unfold bind at 1. rewrite Heq. cbn [st1 rng_calls stdout to_csv_calls files] in *.
  rewrite (printed_app E mm _ Hpm), (printed_all E mm Hpm).
  set (nm := snd (fst (noise_run E eps df1 (columns df1) (rng_calls st)))) in *.
  cbn [andb].
  destruct (printable E nm) eqn:Hpn.
  2:{ eexists. eexists. split; [exact H2|]. split; [exact Hrel|].
      split; [reflexivity|]. split; [now right|].
      split; [|discriminate]. intros _.
      cbn [stdout rng_calls to_csv_calls files].
      rewrite <- app_assoc. repeat split; auto. discriminate. }
  rewrite H2, (Hex eq_refl).
  set (n2 := snd (noise_run E eps df1 (columns df1) (rng_calls st))) in *.
  destruct (write_phase out df2
              (mkState ((stdout st ++ mm) ++ printed E nm) n2
                       (to_csv_calls st) (files st)))
    as (r & st' & Hw & Hr & Hcalls & Hrng & Hfiles & Htail & Hlast & Hout).
  cbn [stdout rng_calls to_csv_calls files] in *.
  rewrite (printed_all E nm Hpn) in *.
  exists r, st'. split; [reflexivity|]. split; [exact Hrel|].
  split; [exact Hw|]. split; [exact Hr|]. split; [discriminate|]. intros _.
  split; [exact Hcalls|]. split; [exact Hrng|]. split; [exact Hfiles|].
  split; [|split; [|exact Hout]].
  - destruct Htail as (tail & Ht & Hlen & Hlab & Hone).
    exists tail. rewrite Ht, <- !app_assoc. repeat split; auto.
  - intros Hp. destruct (Hlast Hp) as [-> Hstd]. split; [reflexivity|].
    destruct st' as [o n c f]. cbn [stdout rng_calls to_csv_calls files] in *.
    unfold finish, last_line in *.
    destruct (to_csv_error E out df2); subst; now rewrite <- !app_assoc.
Qed.

(** The run that reaches the writer, in closed form. *)
Lemma run_loaded_report (inp out : pystr) (cols : list pystr)
    (eps : float) (st : State) (df df2 : DataFrame) :
  read_csv E inp = Ok df ->
  fst (fst (noise_run E eps (fst (mask_run E df cols))
                      (columns (fst (mask_run E df cols))) (rng_calls st)))
    = Ok df2 ->
  printable E (run_msgs E eps df cols (rng_calls st)) = true ->
  anonymize_csv E inp out cols eps st
  = (snd (write_report E out df2),
     mkState (stdout st ++ run_msgs E eps df cols (rng_calls st)
              ++ fst (write_report E out df2))
             (run_calls E eps df cols (rng_calls st))
             (to_csv_calls st ++ [(out, df2)])
             (match to_csv_error E out df2 with
              | None => (out, df2) :: files st
              | Some _ => files st
              end)).
Proof.
  intros Hread H2. unfold run_msgs, run_calls.
  set (df1 := fst (mask_run E df cols)) in *.
  set (mm := snd (mask_run E df cols)).
  rewrite printable_app. intros Hp. apply andb_true_iff in Hp as [Hpm Hpn].
  unfold anonymize_csv, load. unfold bind at 1. unfold try_except at 1.
  unfold bind at 1. unfold lift at 1. rewrite Hread.
  unfold ret at 1. unfold bind at 1. rewrite mask_data_eq.
  fold df1 mm. rewrite Hpm, (printed_all E mm Hpm).
  set (st1 := mkState (stdout st ++ mm) (rng_calls st)
                      (to_csv_calls st) (files st)).
  destruct (noise_columns_eq E eps (columns df1) df1 st1)
    as (n' & Heq & _ & _ & Hex).
  unfold bind at 1. rewrite Heq.
  cbn [st1 rng_calls stdout to_csv_calls files] in *.
  rewrite Hpn, H2, (Hex Hpn), (printed_all E _ Hpn).
  rewrite write_phase_exact. cbn [stdout rng_calls to_csv_calls files].
  now rewrite <- !app_assoc.
Qed.

Lemma run_printable (eps : float) (cols : list pystr) (df : DataFrame)
    (n : nat) :
  prints_about E (cols ++ columns df) ->
  printable E (run_msgs E eps df cols n) = true.
Proof.
  intros H. unfold run_msgs. rewrite printable_app.
  apply andb_true_iff. split.
  - apply mask_run_printable.
    eapply prints_about_incl; [|exact H]. now apply incl_appl.
  - apply noise_run_printable.
    rewrite (frame_rel_columns _ _ _ (mask_run_rel E cols df)).
    eapply prints_about_incl; [|exact H]. now apply incl_appr.
Qed.

(** The run ends as [run_outcome] says; the writer is reached exactly
    when the column diagnostics can all be printed, and then the generator
    has been called as often as [noise_run] says. *)
Lemma run_facts (inp out : pystr) (cols : list pystr)
    (eps : float) (st : State) (df : DataFrame) :
  read_csv E inp = Ok df ->
  exists df2 r st',
    fst (fst (noise_run E eps (fst (mask_run E df cols))
                        (columns (fst (mask_run E df cols))) (rng_calls st)))
      = Ok df2 /\
    frame_rel (evolves E) (fst (mask_run E df cols)) df2 /\
    anonymize_csv E inp out cols eps st = (r, st') /\
    run_outcome E out cols df st r st' df2 /\
    (rng_calls st <= rng_calls st')%nat /\
    (rng_calls st' <= run_calls E eps df cols (rng_calls st))%nat /\
    (wrote st st' out df2 <->
     printable E (run_msgs E eps df cols (rng_calls st)) = true) /\
    (wrote st st' out df2 ->
     rng_calls st' = run_calls E eps df cols (rng_calls st) /\
     exists tail,
       stdout st' = stdout st ++ run_msgs E eps df cols (rng_calls st) ++ tail /\
       (List.length tail <= 1)%nat /\
       (forall m, In m tail -> label_of m = Some out) /\
       (r = Ok tt -> List.length tail = 1%nat)) /\
    (~ wrote st st' out df2 ->
     r = Raise UnicodeEncodeError /\ idle st st' /\
     stdout st' = stdout st ++ printed E (run_msgs E eps df cols (rng_calls st))).
Proof.
  intros Hread.
  destruct (run_loaded inp out cols eps st df Hread)
    as (df2 & r & st' & H2 & Hrel & Hrun & Hr & Hbad & Hgood).
  exists df2, r, st'. split; [exact H2|]. split; [exact Hrel|].
  split; [exact Hrun|].
  pose proof (run_printable eps cols df (rng_calls st)) as Hpr.
  assert (Hidle : idle st st' -> ~ wrote st st' out df2).
  { unfold idle, wrote. intros [Hc _] H. rewrite Hc in H.
    apply (f_equal (@List.length _)) in H. rewrite length_app in H.
    simpl in H. lia. }
  destruct (printable E (run_msgs E eps df cols (rng_calls st))) eqn:Hp.
  - destruct (Hgood eq_refl) as (Hw & Hrng & Hf & Htail & _ & Hout).
    assert (Hmono : (rng_calls st <= run_calls E eps df cols (rng_calls st))%nat)
      by apply noise_run_mono.
    split; [|split; [lia|split; [lia|split; [tauto|split; [auto|tauto]]]]].
    unfold run_outcome. split; [exact Hr|]. split; [now right|].
    split; [auto|]. split.
    + intros H. apply Hout.
      eapply prints_about_incl; [|exact H]. intros x [<-|[]]. now left.
    + split; intros _ Hn.
      * now rewrite Hn in Hf.
      * destruct (to_csv_error E out df2); [exact Hf|congruence].
  - destruct (Hbad eq_refl) as (-> & Hi & Hstd & Hlo & Hhi & _).
    pose proof (Hidle Hi) as Hno.
    split; [|split; [exact Hlo|split; [exact Hhi|split; [|split]]]].
    + unfold run_outcome. split; [now right|]. split; [now left|].
      split; [intros H; specialize (Hpr H); congruence|].
      split.
      * intros H. assert (Hc : prints_about E (cols ++ columns df)).
        { eapply prints_about_incl; [|exact H]. now apply incl_tl. }
        specialize (Hpr Hc). congruence.
      * split; intros Hw; contradiction.
    + split; [intros Hw; contradiction|discriminate].
    + intros Hw. contradiction.
    + intros _. auto.
Qed.

End Pipeline.
(* ===================================================================== *)
(** ** Facts shared by the properties *)

Lemma idle_not_wrote (st st' : State) (out : pystr) (df2 : DataFrame) :
  idle st st' -> ~ wrote st st' out df2.
Proof.
  unfold idle, wrote. intros [Hc _] H. rewrite Hc in H.
  apply (f_equal (@List.length _)) in H. rewrite length_app in H.
  simpl in H. lia.
Qed.


Lemma rehash_sha256 (n : nat) (s d : pystr) :
  rehash n s = Ok d <-> sha256_times n s = Some d.
Proof.
  revert s. induction n as [|n IH]; intros s; simpl.
  - split; intros [= <-]; reflexivity.
  - unfold hash_data. destruct (PyStr.encode s) as [bs|e]; [apply IH|].
    split; discriminate.
Qed.

(** A positive epsilon gives a scale the generator accepts. *)
Lemma usable_positive (eps : float) :
  (0 <? eps)%float = true ->
  py_truediv 1 eps = Ok (float_of_Z 1 / eps)%float /\
  scale_refused (float_of_Z 1 / eps)%float = false.
Proof.
  intros Hpos. destruct (FloatFacts.positive_sign eps Hpos) as [Hsign Hnz].
  split.
  - rewrite py_truediv_one. now rewrite Hnz.
  - rewrite FloatFacts.refused_sign.
    now rewrite (FloatFacts.div_one_sign eps false Hsign Hnz).
Qed.

(** What [value + noise] returns, when it returns. *)
Lemma py_add_ok (x y : value) (noise : float) :
  py_add x noise = Ok y ->
  exists f, number_of x = Some f /\ y = VFloat (f + noise)%float.
Proof.
  destruct x as [z|f|b|s]; simpl.
  - unfold py_float_of_int. destruct (Z.abs z <? float_overflow);
      [intros [= <-]; eauto|discriminate].
  - intros [= <-]. eauto.
  - destruct b; intros [= <-]; eauto.
  - discriminate.
Qed.

Lemma Forall2_nth_error {A B} (R : A -> B -> Prop) (xs : list A) (ys : list B) :
  Forall2 R xs ys ->
  forall i x, nth_error xs i = Some x ->
  exists y, nth_error ys i = Some y /\ R x y.
Proof.
  induction 1 as [|a b xs ys Hab _ IH]; intros i x Hi.
  - destruct i; discriminate.
  - destruct i as [|i]; simpl in *; [injection Hi as <-; eauto|eauto].
Qed.

Lemma listed_once_at_least (cols : list pystr) (c : pystr) :
  In c cols -> (1 <= times_listed cols c)%nat.
Proof.
  intros Hin. unfold times_listed.
  apply (count_occ_In (list_eq_dec Z.eq_dec)) in Hin. lia.
Qed.

Lemma wf_frame_fits (df : DataFrame) (c : pystr) (s : Series) :
  wf_frame df = true -> getitem df c = Ok s ->
  forallb (fits (dtype_of s)) (values s) = true.
Proof.
  intros Hwf Hs. apply andb_true_iff in Hwf as [_ Hser].
  pose proof (forallb_getitem wf_series _ _ _ Hser Hs) as Hws.
  unfold wf_series in Hws.
  apply andb_true_iff in Hws as [Hws _]. now apply andb_true_iff in Hws as [Hws _].
Qed.

Lemma getitem_columns (df : DataFrame) (c : pystr) (s : Series) :
  getitem df c = Ok s -> In c (columns df).
Proof.
  intros Hs. apply getitem_ok_in in Hs. unfold columns.
  change c with (fst (c, s)). now apply in_map.
Qed.

(** After masking, a listed column is not numeric. *)
Lemma masked_column_not_numeric (E : Env) (cols : list pystr) (df : DataFrame)
    (c : pystr) :
  wf_frame df = true -> In c cols ->
  In c (columns (fst (mask_run E df cols))) ->
  exists s1, getitem (fst (mask_run E df cols)) c = Ok s1 /\
             is_numeric_dtype (dtype_of s1) = false.
Proof.
  intros Hwf Hin Hc1.
  pose proof (mask_run_wf E cols df Hwf) as Hwf1.
  assert (Hc0 : In c (columns df)).
  { rewrite <- (frame_rel_columns _ _ _ (mask_run_rel E cols df)). exact Hc1. }
  destruct (getitem_in _ _ Hc0) as [s Hs].
  destruct (mask_run_column E cols df c s Hwf Hs) as (s1 & Hs1 & Hm).
  exists s1. split; [exact Hs1|].
  apply andb_true_iff in Hwf1 as [_ Hser].
  pose proof (forallb_getitem wf_series _ _ _ Hser Hs1) as Hws.
  unfold wf_series in Hws.
  apply andb_true_iff in Hws as [Hws Hempty].
  apply andb_true_iff in Hws as [Hfit _].
  pose proof (listed_once_at_least cols c Hin) as Hpos.
  destruct (times_listed cols c) as [|n]; [lia|].
  destruct Hm as [|x y xs ys (d & _ & ->) _].
  - now apply negb_true_iff in Hempty.
  - simpl in Hfit. apply andb_true_iff in Hfit as [Hfit _].
    now destruct (dtype_of s1).
Qed.


Lemma in_columns_existsb (df : DataFrame) (c : pystr) :
  existsb (PyStr.eqb c) (columns df) = true <-> In c (columns df).
Proof.
  rewrite existsb_exists. split.
  - intros (x & Hx & Heq). apply PyStrFacts.eqb_eq in Heq. now subst.
  - intros H. exists c. split; [exact H|apply PyStrFacts.eqb_refl].
Qed.

Lemma absent_in (df : DataFrame) (cols : list pystr) (c : pystr) :
  In c (absent df cols) <-> In c cols /\ ~ In c (columns df).
Proof.
  unfold absent. rewrite filter_In, negb_true_iff.
  rewrite <- in_columns_existsb. split; intros [H1 H2]; split; auto.
  - congruence.
  - destruct (existsb (PyStr.eqb c) (columns df)); [now elim H2|reflexivity].
Qed.

(** On a table as the reader builds it, hashing never fails: the only
    diagnostics of [mask_data] are the [KeyError]s of the absent names. *)
Lemma mask_run_msgs_wf (E : Env) (cols : list pystr) (df : DataFrame) :
  wf_frame df = true ->
  snd (mask_run E df cols)
  = map (fun c => MsgHashError c (KeyError c)) (absent df cols).
Proof.
  revert df. induction cols as [|a cols IH]; intros df Hwf; [reflexivity|].
  cbn [mask_run]. unfold absent. cbn [filter]. fold (absent df cols).
  destruct (existsb (PyStr.eqb a) (columns df)) eqn:Hin; cbn [negb].
  - apply in_columns_existsb in Hin.
    destruct (mask_attempt_wf_ok E df a Hwf Hin) as [df' Hm]. rewrite Hm.
    rewrite (IH df' (mask_attempt_wf E _ _ _ Hwf Hm)). unfold absent.
    now rewrite (frame_rel_columns _ _ _ (mask_attempt_rel E _ _ _ Hm)).
  - assert (Hnot : ~ In a (columns df)).
    { intros H. apply in_columns_existsb in H. congruence. }
    rewrite (mask_attempt_absent E df a Hnot). cbn [snd map].
    now rewrite IH.
Qed.


(** With a usable epsilon and columns that fit their dtypes, the noising
    loop prints nothing and calls the generator once per cell of every
    numeric column it visits. *)
Lemma noise_run_clean (E : Env) (eps scale : float) (cols : list pystr)
    (df : DataFrame) (n : nat) :
  py_truediv 1 eps = Ok scale -> scale_refused scale = false ->
  NoDup cols -> incl cols (columns df) ->
  (forall c s, In c cols -> getitem df c = Ok s ->
               forallb (fits (dtype_of s)) (values s) = true) ->
  exists df2,
    noise_run E eps df cols n
    = (Ok df2, [], (n + list_sum (map (numeric_cells_of df) cols))%nat).
Proof.
  intros Hs Hr. revert df n.
  induction cols as [|a cols IH]; intros df n Hnd Hincl Hfit.
  - exists df. simpl. now rewrite Nat.add_0_r.
  - assert (Ha : In a (columns df)) by (apply Hincl; now left).
    assert (Hrest : incl cols (columns df))
      by (intros x Hx; apply Hincl; now right).
    inversion Hnd as [|? ? Hnotin Hnd']; subst.
    destruct (getitem_in _ _ Ha) as [s Hsa].
    cbn [noise_run map list_sum]. unfold numeric_cells_of at 1. rewrite Hsa.
    destruct (is_numeric_dtype (dtype_of s)) eqn:Hnum.
    + unfold noise_attempt. rewrite Hsa.
      destruct (values s) as [|v vs] eqn:Hv.
      * rewrite (series_eta _ Hv), (setitem_same _ _ _ Hsa).
        destruct (IH df n Hnd' Hrest) as [df2 H2].
        { intros c s0 Hc. apply Hfit. now right. }
        exists df2. rewrite H2. reflexivity.
      * destruct (noise_cells_valid E eps scale (v :: vs) n Hs Hr)
          as (ys & Hys & _).
        { rewrite <- Hv. eapply numeric_fits_addable; [exact Hnum|].
          apply (Hfit a s); [now left|exact Hsa]. }
        rewrite Hys.
        set (df' := setitem df a (mkSeries (infer_dtype ys) ys)).
        assert (Hsame : forall c, In c cols -> getitem df' c = getitem df c).
        { intros c Hc. apply getitem_setitem_other. intros ->. contradiction. }
        destruct (IH df' (n + List.length (v :: vs))%nat Hnd') as [df2 H2].
        { unfold df'. now rewrite (columns_setitem _ _ _ _ Hsa). }
        { intros c s0 Hc. rewrite (Hsame c Hc). apply Hfit. now right. }
        exists df2. rewrite H2. f_equal.
        rewrite (map_ext_in (numeric_cells_of df') (numeric_cells_of df)).
        -- simpl. lia.
        -- intros c Hc. unfold numeric_cells_of. now rewrite (Hsame c Hc).
    + destruct (IH df n Hnd' Hrest) as [df2 H2].
      { intros c s0 Hc. apply Hfit. now right. }
      exists df2. rewrite H2. reflexivity.
Qed.

(** On a well-formed table with a positive epsilon the run's diagnostics
    are the [KeyError]s of the absent names, and it draws one variate per
    cell of the columns that are numeric after masking. *)
Lemma clean_run (E : Env) (cols : list pystr) (eps : float) (df : DataFrame)
    (n : nat) :
  wf_frame df = true -> (0 <? eps)%float = true ->
  exists df2,
    noise_run E eps (fst (mask_run E df cols))
              (columns (fst (mask_run E df cols))) n
    = (Ok df2, [], (n + numeric_cells (fst (mask_run E df cols)))%nat) /\
    run_msgs E eps df cols n
    = map (fun c => MsgHashError c (KeyError c)) (absent df cols) /\
    run_calls E eps df cols n
    = (n + numeric_cells (fst (mask_run E df cols)))%nat.
Proof.
  intros Hwf Hpos. destruct (usable_positive eps Hpos) as [Hdiv Href].
  pose proof (mask_run_wf E cols df Hwf) as Hwf1.
  unfold run_msgs, run_calls.
  set (df1 := fst (mask_run E df cols)) in *.
  destruct (noise_run_clean E eps _ (columns df1) df1 n Hdiv Href)
    as [df2 Hclean].
  { apply unique_NoDup. now apply andb_true_iff in Hwf1 as [Hu _]. }
  { apply incl_refl. }
  { intros c s _ Hs. eapply wf_frame_fits; eassumption. }
  exists df2. fold (numeric_cells df1) in Hclean. rewrite Hclean. cbn [fst snd].
  rewrite app_nil_r. split; [reflexivity|]. split; [|reflexivity].
  now apply mask_run_msgs_wf.
Qed.


Lemma finish_facts (E : Env) (out : pystr) (df2 : DataFrame)
    (ms : list message) (n : nat) (st : State) :
  to_csv_calls (finish E out df2 ms n st) = to_csv_calls st ++ [(out, df2)] /\
  rng_calls (finish E out df2 ms n st) = n /\
  (to_csv_error E out df2 = None ->
   files (finish E out df2 ms n st) = (out, df2) :: files st).
Proof.
  unfold finish. destruct (to_csv_error E out df2) as [e|]; simpl;
    repeat split; congruence.
Qed.

(* ===================================================================== *)
(** ** The properties of the specification *)




(** C3. A column named in the mask list is never noised: after masking,
    the numeric detection answers [False] for it, and the column of the
    table the noising loop returns, the one handed to the writer, is the
    column as [mask_data] left it. *)
Theorem masked_columns_not_noised
    (E : Env) (inp out : pystr) (cols : list pystr) (eps : float)
    (st : State) (df : DataFrame) (c : pystr) :
  read_csv E inp = Ok df -> wf_frame df = true -> In c cols ->
  exists rm df1 st1 df2 r st',
    mask_data E df cols st = (rm, st1) /\
    mask_outcome E cols rm df1 /\
    anonymize_csv E inp out cols eps st = (r, st') /\
    run_outcome E out cols df st r st' df2 /\
    (In c (columns df1) -> is_numeric_column df1 c st1 = (Ok false, st1)) /\
    getitem df2 c = getitem df1 c.
Proof.
  intros Hread Hwf Hin.
  destruct (run_facts E inp out cols eps st df Hread)
    as (df2 & r & st' & H2 & Hrel & Hrun & Hout & _).
  pose proof (masked_column_not_numeric E cols df c Hwf Hin) as Hskip.
  set (df1 := fst (mask_run E df cols)) in *.
  eexists. exists df1. eexists. exists df2, r, st'.
  split; [apply mask_data_eq|]. split.
  { unfold mask_outcome. fold df1.
    destruct (printable E (snd (mask_run E df cols))) eqn:Hp.
    - split; [now left|reflexivity].
    - split; [now right|]. intros H.
      now rewrite (mask_run_printable E cols df H) in Hp. }
  split; [exact Hrun|]. split; [exact Hout|]. split.
  - intros Hc1. destruct (Hskip Hc1) as (s1 & Hs1 & Hnum).
    unfold is_numeric_column, bind, lift, ret. now rewrite Hs1, Hnum.
  - eapply noise_run_keeps; [|exact H2]. exact Hskip.
Qed.







(** The cell the noising loop returns, and the writer receives, for a cell
    of a listed column. *)
Lemma masked_cell_written
    (E : Env) (inp out : pystr) (cols : list pystr) (eps : float)
    (st : State) (df : DataFrame) (c : pystr) (i : nat) (x : value) :
  read_csv E inp = Ok df -> wf_frame df = true -> In c cols ->
  cell df c i = Some x ->
  exists r st' t d,
    anonymize_csv E inp out cols eps st = (r, st') /\
    run_outcome E out cols df st r st' t /\
    cell t c i = Some (VStr d) /\
    rehash (times_listed cols c) (py_str E x) = Ok d.
Proof.
  intros Hread Hwf Hin Hcell.
  destruct (run_facts E inp out cols eps st df Hread)
    as (df2 & r & st' & H2 & Hrel & Hrun & Hout & _).
  pose proof (masked_column_not_numeric E cols df c Hwf Hin) as Hskip.
  unfold cell in Hcell. destruct (getitem df c) as [s|] eqn:Hs; [|discriminate].
  destruct (mask_run_column E cols df c s Hwf Hs) as (s1 & Hs1 & Hm).
  destruct (Forall2_nth_error _ _ _ Hm i x Hcell) as (y & Hy & Hxy).
  pose proof (listed_once_at_least cols c Hin) as Hpos.
  destruct (times_listed cols c) as [|n] eqn:Hn; [lia|].
  destruct Hxy as (d & Hd & ->).
  exists r, st', df2, d. split; [exact Hrun|]. split; [exact Hout|].
  split; [|exact Hd].
  unfold cell. rewrite (noise_run_keeps E eps _ _ _ _ c Hskip H2), Hs1.
  exact Hy.
Qed.

(** C8. Masking is deterministic and unsalted: in any two runs (whatever
    their files, epsilon, generator, standard output and earlier output),
    with the same mask list, two cells of a listed column that have the
    same text are handed to the writer as the same digest, the one
    [hash_data] computes from that text alone: the SHA-256 digest of its
    UTF-8 bytes, taken once per listing. *)
Theorem masking_is_deterministic
    (E1 E2 : Env) (inp1 inp2 out1 out2 : pystr) (cols : list pystr)
    (eps1 eps2 : float) (st1 st2 : State) (df1 df2 : DataFrame)
    (c : pystr) (i j : nat) (x1 x2 : value) :
  read_csv E1 inp1 = Ok df1 -> read_csv E2 inp2 = Ok df2 ->
  wf_frame df1 = true -> wf_frame df2 = true -> In c cols ->
  cell df1 c i = Some x1 -> cell df2 c j = Some x2 ->
  py_str E1 x1 = py_str E2 x2 ->
  exists r1 st1' r2 st2' t1 t2 d,
    anonymize_csv E1 inp1 out1 cols eps1 st1 = (r1, st1') /\
    anonymize_csv E2 inp2 out2 cols eps2 st2 = (r2, st2') /\
    run_outcome E1 out1 cols df1 st1 r1 st1' t1 /\
    run_outcome E2 out2 cols df2 st2 r2 st2' t2 /\
    cell t1 c i = Some (VStr d) /\ cell t2 c j = Some (VStr d) /\
    rehash (times_listed cols c) (py_str E1 x1) = Ok d /\
    sha256_times (times_listed cols c) (py_str E1 x1) = Some d.
Proof.
  intros Hr1 Hr2 Hw1 Hw2 Hin Hc1 Hc2 Htext.
  destruct (masked_cell_written E1 inp1 out1 cols eps1 st1 df1 c i x1
              Hr1 Hw1 Hin Hc1) as (r1 & st1' & t1 & d1 & Ha1 & Hb1 & Hd1 & He1).
  destruct (masked_cell_written E2 inp2 out2 cols eps2 st2 df2 c j x2
              Hr2 Hw2 Hin Hc2) as (r2 & st2' & t2 & d2 & Ha2 & Hb2 & Hd2 & He2).
  rewrite <- Htext in He2. assert (d2 = d1) by congruence. subst d2.
  exists r1, st1', r2, st2', t1, t2, d1.
  do 6 (split; [assumption|]). split; [exact He1|].
  now apply rehash_sha256.
Qed.

(** C9, as the specification states it, fails at epsilon zero: the run
    does go past argument parsing unchecked, but noising then computes no
    scale at all, infinite or otherwise; [sensitivity / epsilon] raises. *)
Lemma zero_epsilon_yields_no_scale :
  (0 <=? 0)%float = true /\
  py_truediv 1 0%float = Raise ZeroDivisionError /\
  ~ (exists scale, py_truediv 1 0%float = Ok scale) /\
  add_noise Demo.env (VInt 30) 0%float 1 initial_state
    = (Raise ZeroDivisionError, initial_state).
Proof.
  split; [reflexivity|]. split; [reflexivity|]. split; [|reflexivity].
  intros [scale H]. vm_compute in H. discriminate.
Qed.

(** C9, amended.  Epsilon is not validated: [main] hands any float to
    [anonymize_csv].  With a zero epsilon the division [1 / epsilon] raises
    at noising time, with a negative one the scale [1 / epsilon] is negative
    and the generator refuses it.  Either way the generator is never called,
    the table the run hands to the writer is the masked table without any
    noise, and in a run that reaches the writer the failure has been
    reported for each numeric column that has rows. *)
Theorem nonpositive_epsilon_adds_no_noise
    (E : Env) (args : Namespace) (st : State) (df : DataFrame) :
  read_csv E (input_file args) = Ok df ->
  (epsilon args <=? 0)%float = true ->
  exists e rm df1 st1 r st',
    (((epsilon args =? 0)%float = true /\ e = ZeroDivisionError /\
      py_truediv 1 (epsilon args) = Raise ZeroDivisionError)
     \/
     ((epsilon args <? 0)%float = true /\ e = ValueError "scale < 0" /\
      py_truediv 1 (epsilon args) = Ok (float_of_Z 1 / epsilon args)%float /\
      scale_refused (float_of_Z 1 / epsilon args)%float = true)) /\
    mask_data E df (mask args) st = (rm, st1) /\
    mask_outcome E (mask args) rm df1 /\
    main E args st = (r, st') /\
    run_outcome E (output_file args) (mask args) df st r st' df1 /\
    rng_calls st' = rng_calls st /\
    (wrote st st' (output_file args) df1 ->
     forall c, In c (columns df1) -> noise_target df1 c = true ->
               In (MsgNoiseError c e) (stdout st')).
Proof.
  intros Hread Hle.
  assert (Herr : exists e,
             noise_error (epsilon args) = Some e /\
             (((epsilon args =? 0)%float = true /\ e = ZeroDivisionError /\
               py_truediv 1 (epsilon args) = Raise ZeroDivisionError)
              \/
              ((epsilon args <? 0)%float = true /\ e = ValueError "scale < 0" /\
               py_truediv 1 (epsilon args)
                 = Ok (float_of_Z 1 / epsilon args)%float /\
               scale_refused (float_of_Z 1 / epsilon args)%float = true))).
  { destruct (FloatFacts.nonpositive_cases _ Hle) as [Hz|Hneg].
    - exists ZeroDivisionError. unfold noise_error.
      rewrite py_truediv_one, Hz. split; [reflexivity|]. left. auto.
    - destruct (FloatFacts.negative_sign _ Hneg) as [Hsign Hnz].
      assert (Href : scale_refused (float_of_Z 1 / epsilon args)%float = true).
      { rewrite FloatFacts.refused_sign.
        now rewrite (FloatFacts.div_one_sign _ true Hsign Hnz). }
      exists (ValueError "scale < 0"). unfold noise_error.
      rewrite py_truediv_one, Hnz, Href. split; [reflexivity|]. right. auto. }
  destruct Herr as (e & Herr & Hcases).
  destruct (run_facts E (input_file args) (output_file args)
              (mask args) (epsilon args) st df Hread)
    as (df2 & r & st' & H2 & _ & Hrun & Hout & Hlo & Hhi & _ & Hwrote & _).
  unfold run_msgs, run_calls in *.
  set (df1 := fst (mask_run E df (mask args))) in *.
  rewrite (noise_run_unusable E (epsilon args) e (columns df1) df1 (rng_calls st)
             Herr (incl_refl _)) in *.
  cbn [fst snd] in *. injection H2 as <-.
  exists e. eexists. exists df1. eexists. exists r, st'.
  split; [exact Hcases|]. split; [apply mask_data_eq|]. split.
  { unfold mask_outcome. fold df1.
    destruct (printable E (snd (mask_run E df (mask args)))) eqn:Hp.
    - split; [now left|reflexivity].
    - split; [now right|]. intros H.
      now rewrite (mask_run_printable E (mask args) df H) in Hp. }
  split; [exact Hrun|]. split; [exact Hout|]. split; [lia|].
  intros Hw c Hc Ht. destruct (Hwrote Hw) as (_ & tail & -> & _).
  apply in_or_app; right; apply in_or_app; left;
    apply in_or_app; right; apply in_map_iff; exists c; split;
    [reflexivity|apply filter_In; auto].
Qed.

(** C10. A failure on a column is atomic.  One pass of [mask_data] over a
    column either fails, and then the table is exactly as it was, or prints
    nothing and replaces the whole column, every cell hashed: when it
    fails, it prints the diagnostic and returns the table it was given, or,
    when standard output cannot print the diagnostic, the [try] block has
    raised before its assignment and the [print] raises in turn, the state
    untouched.  [create_noisy_data] likewise. *)
Theorem column_failure_is_atomic
    (E : Env) (df : DataFrame) (c : pystr) (eps : float) (st : State) :
  (exists rm st',
      mask_data E df [c] st = (rm, st') /\
      ((exists e, rm = Ok df /\ st' = add_msg st (MsgHashError c e) /\
                  mask_attempt E df c = Raise e) \/
       (st' = st /\
        exists s s', getitem df c = Ok s /\ rm = Ok (setitem df c s') /\
                     Forall2 (hashed E) (values s) (values s')) \/
       (exists e, rm = Raise UnicodeEncodeError /\ st' = st /\
                  mask_attempt E df c = Raise e /\
                  stdout_prints E (MsgHashError c e) = false))) /\
  (exists rm st',
      create_noisy_data E df c eps st = (rm, st') /\
      ((exists e, rm = Ok df /\
                  stdout st' = stdout st ++ [MsgNoiseError c e] /\
                  fst (noise_attempt E eps df c (rng_calls st)) = Raise e) \/
       (stdout st' = stdout st /\
        exists s s', getitem df c = Ok s /\ rm = Ok (setitem df c s') /\
                     Forall2 noised (values s) (values s')) \/
       (exists e, rm = Raise UnicodeEncodeError /\ stdout st' = stdout st /\
                  fst (noise_attempt E eps df c (rng_calls st)) = Raise e /\
                  stdout_prints E (MsgNoiseError c e) = false))).
Proof.
  split.
  - rewrite mask_data_eq. cbn [mask_run].
    destruct (mask_attempt E df c) as [df'|e] eqn:Hm.
    + eexists. eexists. split; [reflexivity|]. right. left.
      cbn [fst snd printed]. rewrite app_nil_r, state_eta. split; [reflexivity|].
      destruct (mask_attempt_ok E _ _ _ Hm) as (s & s' & Hs & Hdf & Hh & _).
      exists s, s'. cbn [printable forallb]. subst df'. auto.
    + cbn [fst snd printable forallb printed].
      destruct (stdout_prints E (MsgHashError c e)) eqn:Hp; cbn [andb].
      * eexists. eexists. split; [reflexivity|]. left. exists e.
        repeat split.
      * eexists. eexists. split; [reflexivity|]. right. right. exists e.
        rewrite app_nil_r, state_eta. repeat split. exact Hp.
  - rewrite create_noisy_data_eq.
    destruct (noise_attempt E eps df c (rng_calls st)) as [[df'|e] n'] eqn:Ha.
    + eexists. eexists. split; [reflexivity|]. right. left.
      split; [reflexivity|].
      destruct (noise_attempt_ok E eps _ _ _ _ _ Ha) as (s & s' & Hs & Hdf & Hn).
      exists s, s'. subst df'. auto.
    + destruct (stdout_prints E (MsgNoiseError c e)) eqn:Hp.
      * eexists. eexists. split; [reflexivity|]. left. exists e.
        repeat split.
      * eexists. eexists. split; [reflexivity|]. right. right. exists e.
        repeat split. exact Hp.
Qed.

(** A cell in the middle of a column fails: the cells before it are not
    replaced either. *)
Example dirty_column_left_whole :
  mask_data Demo.env Demo.dirty [Demo.name] initial_state
  = (Ok Demo.dirty,
     add_msg initial_state (MsgHashError Demo.name UnicodeEncodeError)).
Proof. vm_compute. reflexivity. Qed.
(* ===================================================================== *)
(** ** The statements on the small run *)



(** [name] is masked and then skipped by the noising loop. *)
Lemma masked_columns_not_noised_demo :
  exists rm df1 st1 df2 r st',
    mask_data Demo.env Demo.table [Demo.name; Demo.zip] initial_state
      = (rm, st1) /\
    mask_outcome Demo.env [Demo.name; Demo.zip] rm df1 /\
    anonymize_csv Demo.env Demo.in_csv Demo.out_csv [Demo.name; Demo.zip]
                  1%float initial_state = (r, st') /\
    run_outcome Demo.env Demo.out_csv [Demo.name; Demo.zip] Demo.table
                initial_state r st' df2 /\
    (In Demo.name (columns df1) ->
     is_numeric_column df1 Demo.name st1 = (Ok false, st1)) /\
    getitem df2 Demo.name = getitem df1 Demo.name.
Proof.
  apply (masked_columns_not_noised Demo.env Demo.in_csv Demo.out_csv
           [Demo.name; Demo.zip] 1%float initial_state Demo.table Demo.name).
  - reflexivity.
  - vm_compute. reflexivity.
  - simpl. auto.
Defined.




(** [Alice] in row 0 of one run and in row 1 of another. *)
Lemma masking_is_deterministic_demo :
  exists r1 st1' r2 st2' t1 t2 d,
    anonymize_csv Demo.env Demo.in_csv Demo.out_csv [Demo.name] 1%float
                  initial_state = (r1, st1') /\
    anonymize_csv Demo.env2 Demo.other_csv Demo.out_csv [Demo.name] 4%float
                  (set_rng initial_state 7) = (r2, st2') /\
    run_outcome Demo.env Demo.out_csv [Demo.name] Demo.table initial_state
                r1 st1' t1 /\
    run_outcome Demo.env2 Demo.out_csv [Demo.name] Demo.table2
                (set_rng initial_state 7) r2 st2' t2 /\
    cell t1 Demo.name 0 = Some (VStr d) /\
    cell t2 Demo.name 1 = Some (VStr d) /\
    rehash (times_listed [Demo.name] Demo.name)
           (py_str Demo.env (VStr (PyStr.lit "Alice"))) = Ok d /\
    sha256_times (times_listed [Demo.name] Demo.name)
                 (py_str Demo.env (VStr (PyStr.lit "Alice"))) = Some d.
Proof.
  apply (masking_is_deterministic Demo.env Demo.env2 Demo.in_csv Demo.other_csv
           Demo.out_csv Demo.out_csv [Demo.name] 1%float 4%float
           initial_state (set_rng initial_state 7) Demo.table Demo.table2
           Demo.name 0 1 (VStr (PyStr.lit "Alice")) (VStr (PyStr.lit "Alice"))).
  - reflexivity.
  - reflexivity.
  - vm_compute. reflexivity.
  - vm_compute. reflexivity.
  - simpl. auto.
  - reflexivity.
  - reflexivity.
  - reflexivity.
Defined.

(** Epsilon -2. *)
Lemma nonpositive_epsilon_adds_no_noise_demo :
  exists e rm df1 st1 r st',
    (((epsilon Demo.args_negative =? 0)%float = true /\ e = ZeroDivisionError /\
      py_truediv 1 (epsilon Demo.args_negative) = Raise ZeroDivisionError)
     \/
     ((epsilon Demo.args_negative <? 0)%float = true /\
      e = ValueError "scale < 0" /\
      py_truediv 1 (epsilon Demo.args_negative)
        = Ok (float_of_Z 1 / epsilon Demo.args_negative)%float /\
      scale_refused (float_of_Z 1 / epsilon Demo.args_negative)%float = true)) /\
    mask_data Demo.env Demo.table (mask Demo.args_negative) initial_state
      = (rm, st1) /\
    mask_outcome Demo.env (mask Demo.args_negative) rm df1 /\
    main Demo.env Demo.args_negative initial_state = (r, st') /\
    run_outcome Demo.env (output_file Demo.args_negative)
                (mask Demo.args_negative) Demo.table initial_state r st' df1 /\
    rng_calls st' = rng_calls initial_state /\
    (wrote initial_state st' (output_file Demo.args_negative) df1 ->
     forall c, In c (columns df1) -> noise_target df1 c = true ->
               In (MsgNoiseError c e) (stdout st')).
Proof.
  apply (nonpositive_epsilon_adds_no_noise Demo.env Demo.args_negative
           initial_state Demo.table).
  - reflexivity.
  - reflexivity.
Defined.

(** The runs themselves, evaluated. *)
Example demo_run_stdout :
  stdout (snd (anonymize_csv Demo.env Demo.in_csv Demo.out_csv
                             [Demo.name; Demo.zip] 1%float initial_state))
  = [MsgHashError Demo.zip (KeyError Demo.zip); MsgWritten Demo.out_csv].
Proof. vm_compute. reflexivity. Qed.

(** The table the run writes: [name] as SHA-256 digests, [id] and [age]
    plus the variates of calls 0 to 3. *)
Example demo_run_file :
  anonymize_csv Demo.env Demo.in_csv Demo.out_csv [Demo.name] 1%float
                initial_state
  = (Ok tt,
     let out :=
       [ (Demo.id_, mkSeries Float64 [VFloat 1%float; VFloat 2.125%float]);
         (Demo.name,
          mkSeries ObjectDtype
            [VStr (PyStr.lit
               "3bc51062973c458d5a6f2d8d64a023246354ad7e064b1e4e009ec8a0699a3043");
             VStr (PyStr.lit
               "cd9fb1e148ccd8442e5aa74904cc73bf6fb54d1d54d333bd596aa9bb4bb4e961")]);
         (Demo.age, mkSeries Float64 [VFloat 30.25%float; VFloat 41.375%float]) ]
     in
     mkState [MsgWritten Demo.out_csv] 4 [(Demo.out_csv, out)]
             [(Demo.out_csv, out)]).
Proof. vm_compute. reflexivity. Qed.

(** Masking a numeric column hashes the decimal text of its cells. *)
Example demo_mask_age :
  mask_data Demo.env Demo.table [Demo.age] initial_state
  = (Ok [ (Demo.id_, mkSeries Int64 [VInt 1; VInt 2]);
          (Demo.name,
           mkSeries ObjectDtype
                    [VStr (PyStr.lit "Alice"); VStr (PyStr.lit "Bob")]);
          (Demo.age,
           mkSeries ObjectDtype
             [VStr (PyStr.lit
                "624b60c58c9d8bfb6ff1886c2fd605d2adeb6ea4da576068201b6c6958ce93f4");
              VStr (PyStr.lit
                "3d914f9348c9cc0ff8a79716700b9fcd4d2f3e711608004eb8f138bcba7f14d9")]) ],
     initial_state).
Proof. vm_compute. reflexivity. Qed.

(** A column listed twice is hashed twice. *)
Example demo_mask_twice :
  sha256_times 2 (PyStr.lit "Alice")
  = Some (PyStr.lit
      "150653f51df5e2aa0bda45b6f68ab4fd2c9c5620042baf6124bf5af302780115") /\
  cell (match fst (mask_data Demo.env Demo.table [Demo.name; Demo.name]
                             initial_state) with
        | Ok t => t
        | Raise _ => []
        end) Demo.name 0
  = Some (VStr (PyStr.lit
      "150653f51df5e2aa0bda45b6f68ab4fd2c9c5620042baf6124bf5af302780115")).
Proof. split; vm_compute; reflexivity. Qed.

Example demo_run_zero_epsilon :
  stdout (snd (main Demo.env
                    (mkArgs Demo.in_csv Demo.out_csv [Demo.name] 0%float)
                    initial_state))
  = [MsgNoiseError Demo.id_ ZeroDivisionError;
     MsgNoiseError Demo.age ZeroDivisionError;
     MsgWritten Demo.out_csv].
Proof. vm_compute. reflexivity. Qed.

(** The success line cannot be printed: the [except] clause catches the
    [UnicodeEncodeError] of that [print], and its own [print] raises; the
    file has been written by then. *)
Example demo_run_unprintable_output :
  anonymize_csv Demo.env Demo.in_csv Demo.odd [] 1%float initial_state
  = (Raise UnicodeEncodeError,
     let out :=
       [ (Demo.id_, mkSeries Float64 [VFloat 1%float; VFloat 2.125%float]);
         (Demo.name,
          mkSeries ObjectDtype
                   [VStr (PyStr.lit "Alice"); VStr (PyStr.lit "Bob")]);
         (Demo.age, mkSeries Float64 [VFloat 30.25%float; VFloat 41.375%float]) ]
     in
     mkState [] 4 [(Demo.odd, out)] [(Demo.odd, out)]).
Proof. vm_compute. reflexivity. Qed.
(* ===================================================================== *)
(** ** Beyond the specification: reader and writer *)





(* ===================================================================== *)
(** ** Beyond the specification: the masker *)

Lemma mask_attempt_series (E : Env) (df : DataFrame) (c : pystr) :
  mask_attempt E df c =
  match getitem df c with
  | Raise e => Raise e
  | Ok s =>
      match masked_series E s with
      | Ok s' => Ok (setitem df c s')
      | Raise e => Raise e
      end
  end.
Proof.
  unfold mask_attempt, masked_series.
  destruct (getitem df c) as [s|]; [|reflexivity].
  destruct (values s); [reflexivity|].
  destruct (mapR (hash_cell E) (v :: l)); reflexivity.
Qed.

Lemma setitem_comm (df : DataFrame) (x y : pystr) (sx sy tx ty : Series) :
  x <> y -> getitem df x = Ok tx -> getitem df y = Ok ty ->
  setitem (setitem df x sx) y sy = setitem (setitem df y sy) x sx.
Proof.
  intros Hne. induction df as [|[name old] df IH]; simpl; [discriminate|].
  destruct (PyStr.eqb name x) eqn:Hx; destruct (PyStr.eqb name y) eqn:Hy.
  - apply PyStrFacts.eqb_eq in Hx, Hy. congruence.
  - intros _ _. simpl. now rewrite Hx, Hy.
  - intros _ _. simpl. now rewrite Hx, Hy.
  - intros H1 H2. simpl. rewrite Hx, Hy. f_equal. now apply IH.
Qed.

Lemma mask_run_swap (E : Env) (x y : pystr) (l : list pystr) (df : DataFrame) :
  fst (mask_run E df (y :: x :: l)) = fst (mask_run E df (x :: y :: l)).
Proof.
  destruct (list_eq_dec Z.eq_dec x y) as [->|Hne]; [reflexivity|].
  cbn [mask_run].
  destruct (mask_attempt E df x) as [dfx|ex] eqn:Hx;
    destruct (mask_attempt E df y) as [dfy|ey] eqn:Hy; cbn [fst].
  - (* both succeed: the two assignments commute *)
    pose proof (mask_attempt_other E _ _ _ y Hx (not_eq_sym Hne)) as Hgy.
    pose proof (mask_attempt_other E _ _ _ x Hy Hne) as Hgx.
    rewrite mask_attempt_series in Hx, Hy.
    rewrite (mask_attempt_series E dfx y), (mask_attempt_series E dfy x).
    rewrite Hgy, Hgx.
    destruct (getitem df x) as [tx|] eqn:Htx; [|discriminate].
    destruct (getitem df y) as [ty|] eqn:Hty; [|discriminate].
    destruct (masked_series E tx) as [sx|]; [|discriminate].
    destruct (masked_series E ty) as [sy|]; [|discriminate].
    injection Hx as <-. injection Hy as <-.
    now rewrite (setitem_comm df x y sx sy tx ty Hne Htx Hty).
  - assert (Hy' : mask_attempt E dfx y = Raise ey).
    { eapply mask_attempt_raise_cong; [|exact Hy].
      eapply mask_attempt_other; [exact Hx|congruence]. }
    now rewrite Hy'.
  - assert (Hx' : mask_attempt E dfy x = Raise ex).
    { eapply mask_attempt_raise_cong; [|exact Hx].
      eapply mask_attempt_other; [exact Hy|congruence]. }
    now rewrite Hx'.
  - reflexivity.
Qed.

Lemma mask_run_head (E : Env) (x : pystr) (l l' : list pystr) :
  (forall df, fst (mask_run E df l) = fst (mask_run E df l')) ->
  forall df, fst (mask_run E df (x :: l)) = fst (mask_run E df (x :: l')).
Proof.
  intros H df. cbn [mask_run].
  destruct (mask_attempt E df x); cbn [fst]; apply H.
Qed.

Lemma mask_run_perm (E : Env) (l l' : list pystr) :
  Permutation l l' ->
  forall df, fst (mask_run E df l) = fst (mask_run E df l').
Proof.
  induction 1 as [|x l l' _ IH|x y l|l l' l'' _ IH1 _ IH2]; intros df.
  - reflexivity.
  - now apply mask_run_head.
  - apply mask_run_swap.
  - now rewrite IH1.
Qed.

Lemma mask_run_perm_msgs (E : Env) (l l' : list pystr) :
  Permutation l l' ->
  forall df, Permutation (snd (mask_run E df l)) (snd (mask_run E df l')).
Proof.
  induction 1 as [|x l l' _ IH|x y l|l l' l'' _ IH1 _ IH2]; intros df.
  - apply Permutation_refl.
  - cbn [mask_run]. destruct (mask_attempt E df x); cbn [snd]; [apply IH|].
    apply perm_skip, IH.
  - destruct (list_eq_dec Z.eq_dec x y) as [->|Hne]; [apply Permutation_refl|].
    cbn [mask_run].
    destruct (mask_attempt E df x) as [dfx|ex] eqn:Hx;
      destruct (mask_attempt E df y) as [dfy|ey] eqn:Hy; cbn [fst snd].
    + pose proof (mask_run_swap E x y l df) as Hsw. cbn [mask_run] in Hsw.
      rewrite Hx, Hy in Hsw.
      pose proof (mask_attempt_other E _ _ _ y Hx (not_eq_sym Hne)) as Hgy.
      pose proof (mask_attempt_other E _ _ _ x Hy Hne) as Hgx.
      rewrite mask_attempt_series in Hx, Hy.
      rewrite (mask_attempt_series E dfx y), (mask_attempt_series E dfy x).
      rewrite Hgy, Hgx.
      destruct (getitem df x) as [tx|] eqn:Htx; [|discriminate].
      destruct (getitem df y) as [ty|] eqn:Hty; [|discriminate].
      destruct (masked_series E tx) as [sx|]; [|discriminate].
      destruct (masked_series E ty) as [sy|]; [|discriminate].
      injection Hx as <-. injection Hy as <-.
      rewrite (setitem_comm df x y sx sy tx ty Hne Htx Hty).
      apply Permutation_refl.
    + assert (Hy' : mask_attempt E dfx y = Raise ey).
      { eapply mask_attempt_raise_cong; [|exact Hy].
        eapply mask_attempt_other; [exact Hx|congruence]. }
      rewrite Hy'. apply Permutation_refl.
    + assert (Hx' : mask_attempt E dfy x = Raise ex).
      { eapply mask_attempt_raise_cong; [|exact Hx].
        eapply mask_attempt_other; [exact Hy|congruence]. }
      rewrite Hx'. apply Permutation_refl.
    + apply perm_swap.
  - eapply Permutation_trans; [apply IH1|apply IH2].
Qed.

Lemma printable_perm (E : Env) (ms ms' : list message) :
  Permutation ms ms' -> printable E ms = printable E ms'.
Proof.
  unfold printable.
  induction 1 as [|m l l' _ IH|a b l|l l' l'' _ IH1 _ IH2]; simpl.
  - reflexivity.
  - now rewrite IH.
  - destruct (stdout_prints E a), (stdout_prints E b); reflexivity.
  - congruence.
Qed.

(** X3. The order in which the columns are listed for masking does not
    matter for the result: two runs whose mask lists are permutations of
    each other build the same table, both reach the writer or neither does
    (only the order of the hashing diagnostics differs), and when they
    reach it they hand it that table, leave the same files, make the same
    number of generator calls and end the same way. *)
Theorem mask_order_is_irrelevant
    (E : Env) (inp out : pystr) (cols cols' : list pystr) (eps : float)
    (st : State) (df : DataFrame) :
  read_csv E inp = Ok df -> Permutation cols cols' ->
  exists r1 st1 r2 st2 df2,
    anonymize_csv E inp out cols eps st = (r1, st1) /\
    anonymize_csv E inp out cols' eps st = (r2, st2) /\
    run_outcome E out cols df st r1 st1 df2 /\
    run_outcome E out cols' df st r2 st2 df2 /\
    (wrote st st1 out df2 <-> wrote st st2 out df2) /\
    (wrote st st1 out df2 ->
     r2 = r1 /\ files st2 = files st1 /\ rng_calls st2 = rng_calls st1 /\
     to_csv_calls st2 = to_csv_calls st1).
Proof.
  intros Hread Hperm.
  destruct (run_facts E inp out cols eps st df Hread)
    as (df2 & r1 & st1 & H2 & _ & Hrun1 & Hout1 & _ & _ & Hiff1 & _).
  destruct (run_facts E inp out cols' eps st df Hread)
    as (df2' & r2 & st2 & H2' & _ & Hrun2 & Hout2 & _ & _ & Hiff2 & _).
  rewrite <- (mask_run_perm E cols cols' Hperm df) in H2'.
  assert (df2' = df2) by congruence. subst df2'.
  assert (Hsame : printable E (run_msgs E eps df cols' (rng_calls st))
                  = printable E (run_msgs E eps df cols (rng_calls st))).
  { unfold run_msgs. rewrite !printable_app.
    rewrite <- (mask_run_perm E cols cols' Hperm df).
    now rewrite (printable_perm E _ _ (mask_run_perm_msgs E cols cols' Hperm df)). }
  exists r1, st1, r2, st2, df2.
  split; [exact Hrun1|]. split; [exact Hrun2|]. split; [exact Hout1|].
  split; [exact Hout2|]. split.
  { rewrite Hiff1, Hiff2, Hsame. reflexivity. }
  intros Hw. apply Hiff1 in Hw.
  pose proof (run_loaded_report E inp out cols eps st df df2 Hread H2 Hw) as He1.
  rewrite <- Hsame in Hw.
  assert (H2'' : fst (fst (noise_run E eps (fst (mask_run E df cols'))
                             (columns (fst (mask_run E df cols')))
                             (rng_calls st))) = Ok df2)
    by now rewrite <- (mask_run_perm E cols cols' Hperm df).
  pose proof (run_loaded_report E inp out cols' eps st df df2 Hread H2'' Hw)
    as He2.
  rewrite Hrun1 in He1. rewrite Hrun2 in He2.
  injection He1 as -> ->. injection He2 as -> ->.
  cbn [files rng_calls to_csv_calls]. unfold run_calls.
  rewrite <- (mask_run_perm E cols cols' Hperm df). repeat split.
Qed.

(** X4. [mask_data] touches nothing but the cells of the listed columns:
    the table it builds, which it returns unless a [print] raises, has the
    columns of the table it was given (a missing name does not create one)
    and every unlisted column exactly as it was; it neither calls the
    generator nor the writer, and the lines it prints are hashing
    diagnostics about listed names. *)
Theorem mask_data_footprint
    (E : Env) (df : DataFrame) (cols : list pystr) (st : State) :
  exists rm df1 st1 ms,
    mask_data E df cols st = (rm, st1) /\
    mask_outcome E cols rm df1 /\
    columns df1 = columns df /\
    (forall c, ~ In c cols -> getitem df1 c = getitem df c) /\
    rng_calls st1 = rng_calls st /\
    to_csv_calls st1 = to_csv_calls st /\
    files st1 = files st /\
    stdout st1 = stdout st ++ ms /\
    (forall m, In m ms -> exists c e, m = MsgHashError c e /\ In c cols) /\
    (rm = Ok df1 -> ms = snd (mask_run E df cols)).
Proof.
  eexists. exists (fst (mask_run E df cols)). eexists.
  exists (printed E (snd (mask_run E df cols))).
  split; [apply mask_data_eq|]. split.
  { unfold mask_outcome.
    destruct (printable E (snd (mask_run E df cols))) eqn:Hp.
    - split; [now left|reflexivity].
    - split; [now right|]. intros H.
      now rewrite (mask_run_printable E cols df H) in Hp. }
  split; [apply (frame_rel_columns _ _ _ (mask_run_rel E cols df))|].
  split; [intros c Hc; now apply mask_run_other|].
  do 4 (split; [reflexivity|]). split.
  - intros m Hm. apply (mask_run_labels E cols df).
    revert Hm. generalize (snd (mask_run E df cols)).
    induction l as [|a l IH]; simpl; [tauto|].
    destruct (stdout_prints E a); simpl; [|tauto].
    intros [->|H]; auto.
  - destruct (printable E (snd (mask_run E df cols))) eqn:Hp; [|discriminate].
    intros _. now apply printed_all.
Qed.

Lemma bind_assoc {A B C} (m : M A) (f : A -> M B) (g : B -> M C) (st : State) :
  bind (bind m f) g st = bind m (fun x => bind (f x) g) st.
Proof. unfold bind. destruct (m st) as [[a|e] st']; reflexivity. Qed.

Lemma bind_cong {A B} (m : M A) (f g : A -> M B) (st : State) :
  (forall a s, f a s = g a s) -> bind m f st = bind m g st.
Proof. intros H. unfold bind. destruct (m st) as [[a|e] st']; auto. Qed.

(** X5. Masking a concatenated list is masking the first list and then
    the second, on the table and the state the first pass left. *)
Theorem mask_data_app
    (E : Env) (df : DataFrame) (cols1 cols2 : list pystr) (st : State) :
  mask_data E df (cols1 ++ cols2) st =
  bind (mask_data E df cols1) (fun df1 => mask_data E df1 cols2) st.
Proof.
  revert df st. induction cols1 as [|a cols1 IH]; intros df st; [reflexivity|].
  cbn [app mask_data]. rewrite bind_assoc. apply bind_cong.
  intros df' s. apply IH.
Qed.

(** X6. A column that is neither listed for masking nor of a numeric dtype
    is, in the table the run hands to the writer, exactly as it was read:
    same cells, same dtype. *)
Theorem other_columns_pass_through
    (E : Env) (inp out : pystr) (cols : list pystr) (eps : float)
    (st : State) (df : DataFrame) (c : pystr) (s : Series) :
  read_csv E inp = Ok df -> ~ In c cols -> getitem df c = Ok s ->
  is_numeric_dtype (dtype_of s) = false ->
  exists r st' df2,
    anonymize_csv E inp out cols eps st = (r, st') /\
    run_outcome E out cols df st r st' df2 /\
    getitem df2 c = Ok s.
Proof.
  intros Hread Hnot Hs Hnum.
  destruct (run_facts E inp out cols eps st df Hread)
    as (df2 & r & st' & H2 & _ & Hrun & Hout & _).
  exists r, st', df2. split; [exact Hrun|]. split; [exact Hout|].
  assert (Hs1 : getitem (fst (mask_run E df cols)) c = Ok s)
    by now rewrite mask_run_other.
  rewrite <- Hs1. eapply noise_run_keeps; [|exact H2].
  intros _. exists s. auto.
Qed.

(* ===================================================================== *)
(** ** Beyond the specification: the noiser and the whole run *)

Lemma py_add_float (x y : value) (noise : float) :
  py_add x noise = Ok y -> is_float y = true.
Proof. intros H. now destruct (py_add_ok _ _ _ H) as (f & _ & ->). Qed.

Lemma noise_cells_float (E : Env) (eps : float) (vs ys : list value) (n n' : nat) :
  noise_cells E eps vs n = (Ok ys, n') -> forallb is_float ys = true.
Proof.
  intros H. apply noise_cells_rel in H.
  induction H as [|x y xs ys' [noise Hxy] _ IH]; [reflexivity|].
  simpl. now rewrite (py_add_float _ _ _ Hxy), IH.
Qed.

Lemma floats_wf (ys : list value) :
  ys <> [] -> forallb is_float ys = true ->
  infer_dtype ys = Float64 /\ wf_series (mkSeries Float64 ys) = true.
Proof.
  intros Hne Hf. split; [unfold infer_dtype; now rewrite Hf|].
  unfold wf_series. cbn [dtype_of values].
  assert (Hfit : forallb (fits Float64) ys = true) by exact Hf.
  assert (Hclean : forallb clean_value ys = true).
  { apply forallb_forall. intros v Hv.
    eapply forallb_forall in Hf; [|exact Hv]. now destruct v. }
  rewrite Hfit, Hclean. now destruct ys.
Qed.

(** What a successful attempt of [create_noisy_data] assigns. *)
Lemma noise_attempt_series (E : Env) (eps : float) (df df' : DataFrame)
    (c : pystr) (n n' : nat) :
  noise_attempt E eps df c n = (Ok df', n') ->
  exists s s', getitem df c = Ok s /\ df' = setitem df c s' /\
               List.length (values s') = List.length (values s) /\
               ((values s = [] /\ s' = s) \/
                (values s <> [] /\ dtype_of s' = Float64 /\
                 forallb is_float (values s') = true)).
Proof.
  unfold noise_attempt. destruct (getitem df c) as [s|]; [|discriminate].
  destruct (values s) as [|v vs] eqn:Hv.
  - intros [= <- _]. exists s, (mkSeries (dtype_of s) []).
    split; [reflexivity|]. split; [reflexivity|].
    split; [cbn [values]; now rewrite Hv|].
    left. split; [exact Hv|]. now apply series_eta.
  - destruct (noise_cells E eps (v :: vs) n) as [[ys|e] n1] eqn:Hn;
      [|discriminate].
    intros [= <- _]. exists s, (mkSeries (infer_dtype ys) ys).
    pose proof (noise_cells_float _ _ _ _ _ _ Hn) as Hf.
    pose proof (Forall2_length (noise_cells_rel _ _ _ _ _ _ Hn)) as Hlen.
    split; [reflexivity|]. split; [reflexivity|].
    split; [cbn [values]; now rewrite Hv, <- Hlen|].
    right. split; [rewrite Hv; discriminate|]. cbn [dtype_of values].
    split; [|exact Hf]. apply floats_wf; [|exact Hf].
    intros ->. discriminate Hlen.
Qed.

Lemma noise_attempt_wf (E : Env) (eps : float) (df df' : DataFrame)
    (c : pystr) (n n' : nat) :
  wf_frame df = true -> noise_attempt E eps df c n = (Ok df', n') ->
  wf_frame df' = true.
Proof.
  intros Hwf Ha.
  destruct (noise_attempt_series _ _ _ _ _ _ _ Ha)
    as (s & s' & Hs & -> & Hlen & Hcase).
  destruct Hcase as [[_ ->]|(Hne & Hd & Hf)].
  - now rewrite (setitem_same _ _ _ Hs).
  - unfold wf_frame in *. apply andb_true_iff in Hwf as [Hu Hser].
    rewrite (columns_setitem _ _ _ _ Hs), Hu. simpl.
    apply forallb_setitem; [exact Hser|].
    destruct s' as [d ys]. simpl in *. subst d.
    apply floats_wf; [|exact Hf]. intros ->.
    destruct (values s); [congruence|discriminate Hlen].
Qed.

Lemma noise_run_wf (E : Env) (eps : float) (cols : list pystr) (df df2 : DataFrame)
    (n : nat) :
  wf_frame df = true -> fst (fst (noise_run E eps df cols n)) = Ok df2 ->
  wf_frame df2 = true.
Proof.
  revert df n. induction cols as [|a cols IH]; intros df n Hwf.
  - simpl. now intros [= <-].
  - cbn [noise_run]. destruct (getitem df a) as [s|]; [|discriminate].
    destruct (is_numeric_dtype (dtype_of s)); [|now apply IH].
    destruct (noise_attempt E eps df a n) as [[df'|e] n'] eqn:Ha.
    + apply IH. eapply noise_attempt_wf; eassumption.
    + cbn [fst]. now apply IH.
Qed.

Lemma frame_rel_nrows (R : value -> value -> Prop) (df df' : DataFrame) (n : nat) :
  frame_rel R df df' -> nrows df n -> nrows df' n.
Proof.
  unfold nrows. induction 1 as [|a b l l' [_ Hv] _ IH]; intros Hn;
    [constructor|].
  inversion Hn; subst. constructor; [|auto].
  now rewrite <- (Forall2_length Hv).
Qed.

(** X7. The table the run hands to the writer is again a table of the
    kind the reader builds: when the loaded table has unique column names,
    cells that fit their column's dtype and valid text, so has the output,
    for every mask list and every epsilon; and when all columns of the
    input have [n] rows, all columns of the output have [n] rows. *)
Theorem output_table_is_well_formed
    (E : Env) (inp out : pystr) (cols : list pystr) (eps : float)
    (st : State) (df : DataFrame) :
  read_csv E inp = Ok df -> wf_frame df = true ->
  exists r st' df2,
    anonymize_csv E inp out cols eps st = (r, st') /\
    run_outcome E out cols df st r st' df2 /\
    wf_frame df2 = true /\
    forall n, nrows df n -> nrows df2 n.
Proof.
  intros Hread Hwf.
  destruct (run_facts E inp out cols eps st df Hread)
    as (df2 & r & st' & H2 & Hrel & Hrun & Hout & _).
  exists r, st', df2. split; [exact Hrun|]. split; [exact Hout|].
  split.
  - eapply noise_run_wf; [|exact H2]. now apply mask_run_wf.
  - intros n Hn. eapply frame_rel_nrows; [exact Hrel|].
    eapply frame_rel_nrows; [apply mask_run_rel|exact Hn].
Qed.

(** X8. On a well-formed table and with a positive epsilon, nothing fails
    but the lookup of mask names the table does not have: the run's column
    diagnostics are one hashing diagnostic with a [KeyError] per absent
    name, in the order of the list, and no noising diagnostic.  When
    standard output can print the lines about those names and the output
    path, the run prints them and then the line about the writer, and
    returns normally; a run that stops before the writer has printed the
    diagnostics up to the first one standard output cannot take. *)
Theorem clean_run_diagnostics
    (E : Env) (inp out : pystr) (cols : list pystr) (eps : float)
    (st : State) (df : DataFrame) :
  read_csv E inp = Ok df -> wf_frame df = true -> (0 <? eps)%float = true ->
  exists r st' df2,
    anonymize_csv E inp out cols eps st = (r, st') /\
    run_outcome E out cols df st r st' df2 /\
    (prints_about E (absent df cols) -> wrote st st' out df2) /\
    (~ wrote st st' out df2 ->
     r = Raise UnicodeEncodeError /\
     stdout st' = stdout st
                  ++ printed E (map (fun c => MsgHashError c (KeyError c))
                                    (absent df cols))) /\
    (wrote st st' out df2 ->
     exists tail,
       stdout st' = stdout st
                    ++ map (fun c => MsgHashError c (KeyError c)) (absent df cols)
                    ++ tail /\
       (List.length tail <= 1)%nat /\
       (forall m, In m tail -> is_column_error m = false)) /\
    (prints_about E (out :: absent df cols) ->
     r = Ok tt /\
     exists m,
       stdout st' = stdout st
                    ++ map (fun c => MsgHashError c (KeyError c)) (absent df cols)
                    ++ [m] /\
       is_column_error m = false).
Proof.
  intros Hread Hwf Hpos.
  destruct (run_facts E inp out cols eps st df Hread)
    as (df2 & r & st' & H2 & _ & Hrun & Hout & _ & _ & Hiff & _ & Hnot).
  destruct (clean_run E cols eps df (rng_calls st) Hwf Hpos)
    as (df2' & _ & Hmsgs & _).
  rewrite Hmsgs in *.
  assert (Hpr : prints_about E (absent df cols) ->
                printable E (map (fun c => MsgHashError c (KeyError c))
                                 (absent df cols)) = true).
  { intros H. apply forallb_forall. intros m Hm.
    apply in_map_iff in Hm as (c & <- & Hc). now apply (H _ c). }
  exists r, st', df2. split; [exact Hrun|]. split; [exact Hout|].
  split; [intros H; apply Hiff; auto|].
  split; [intros Hw; destruct (Hnot Hw) as (Hr & _ & Hstd); auto|].
  assert (Hrep : wrote st st' out df2 ->
                 r = snd (write_report E out df2) /\
                 stdout st' = stdout st
                    ++ map (fun c => MsgHashError c (KeyError c)) (absent df cols)
                    ++ fst (write_report E out df2)).
  { intros Hw. apply Hiff in Hw.
    assert (Hw' : printable E (run_msgs E eps df cols (rng_calls st)) = true)
      by now rewrite Hmsgs.
    pose proof (run_loaded_report E inp out cols eps st df df2 Hread H2 Hw')
      as Hex.
    rewrite Hrun, Hmsgs in Hex. injection Hex as -> ->. split; reflexivity. }
  split.
  - intros Hw. destruct (Hrep Hw) as [_ Hstd].
    exists (fst (write_report E out df2)). split; [exact Hstd|].
    unfold write_report.
    destruct (to_csv_error E out df2) as [e|].
    + destruct (stdout_prints E (MsgWriteError out e)); cbn [fst List.length];
        (split; [lia|]); intros m Hm; simpl in Hm;
        [destruct Hm as [<-|[]]; reflexivity|contradiction].
    + destruct (stdout_prints E (MsgWritten out)); cbn [fst List.length];
        [split; [lia|]; intros m [<-|[]]; reflexivity|].
      destruct (stdout_prints E (MsgWriteError out UnicodeEncodeError));
        cbn [fst List.length]; (split; [lia|]); intros m Hm; simpl in Hm;
        [destruct Hm as [<-|[]]; reflexivity|contradiction].
  - intros Hp.
    assert (Hw : wrote st st' out df2).
    { apply Hiff, Hpr. eapply prints_about_incl; [|exact Hp]. now apply incl_tl. }
    destruct (Hrep Hw) as [-> ->].
    assert (Hlast : stdout_prints E (last_line E out df2) = true).
    { apply (Hp _ out); [|now left].
      unfold last_line. now destruct (to_csv_error E out df2). }
    unfold write_report, last_line in *.
    destruct (to_csv_error E out df2) as [e|]; rewrite Hlast; cbn [fst snd];
      (split; [reflexivity|]); eexists; split; reflexivity.
Qed.

(** X9. On a well-formed table and with a positive epsilon, the generator
    is called exactly once per cell of the columns that are numeric after
    masking, and not once more; when a [print] of [mask_data] raises, it is
    not called at all. *)
Theorem one_draw_per_noised_cell
    (E : Env) (inp out : pystr) (cols : list pystr) (eps : float)
    (st : State) (df : DataFrame) :
  read_csv E inp = Ok df -> wf_frame df = true -> (0 <? eps)%float = true ->
  exists rm df1 st1 r st',
    mask_data E df cols st = (rm, st1) /\
    mask_outcome E cols rm df1 /\
    anonymize_csv E inp out cols eps st = (r, st') /\
    (rm = Ok df1 ->
     rng_calls st' = (rng_calls st + numeric_cells df1)%nat) /\
    (rm = Raise UnicodeEncodeError -> rng_calls st' = rng_calls st).
Proof.
  intros Hread Hwf Hpos.
  destruct (run_loaded E inp out cols eps st df Hread)
    as (df2 & r & st' & _ & _ & Hrun & _ & Hbad & Hgood).
  destruct (clean_run E cols eps df (rng_calls st) Hwf Hpos)
    as (df2' & Hclean & _ & Hcalls).
  assert (Hmsgs : printable E (run_msgs E eps df cols (rng_calls st))
                  = printable E (snd (mask_run E df cols))).
  { unfold run_msgs. rewrite Hclean. cbn [fst snd]. now rewrite app_nil_r. }
  eexists. exists (fst (mask_run E df cols)). eexists. exists r, st'.
  split; [apply mask_data_eq|]. split.
  { unfold mask_outcome.
    destruct (printable E (snd (mask_run E df cols))) eqn:Hp.
    - split; [now left|reflexivity].
    - split; [now right|]. intros H.
      now rewrite (mask_run_printable E cols df H) in Hp. }
  split; [exact Hrun|].
  destruct (printable E (snd (mask_run E df cols))) eqn:Hp.
  - split; [|discriminate]. intros _.
    rewrite Hmsgs in Hgood. destruct (Hgood eq_refl) as (_ & -> & _).
    exact Hcalls.
  - split; [discriminate|]. intros _.
    rewrite Hmsgs in Hbad. destruct (Hbad eq_refl) as (_ & _ & _ & _ & _ & Hk).
    now apply Hk.
Qed.

(** Whatever the epsilon, a column of the table the loop returns is the
    column it started with or a column of floats. *)
Lemma noise_run_column_kind (E : Env) (eps : float) (cols : list pystr)
    (df df2 : DataFrame) (n : nat) (c : pystr) :
  fst (fst (noise_run E eps df cols n)) = Ok df2 ->
  getitem df2 c = getitem df c \/
  exists s2, getitem df2 c = Ok s2 /\ dtype_of s2 = Float64 /\
             forallb is_float (values s2) = true.
Proof.
  revert df n. induction cols as [|a cols IH]; intros df n.
  - simpl. intros [= <-]. now left.
  - cbn [noise_run]. destruct (getitem df a) as [s|] eqn:Hsa; [|discriminate].
    destruct (is_numeric_dtype (dtype_of s)); [|apply IH].
    destruct (noise_attempt E eps df a n) as [[df'|e] n'] eqn:Ha;
      [|cbn [fst]; apply IH].
    intros H2. destruct (IH df' n' H2) as [Hsame|Hfloat]; [|now right].
    rewrite Hsame.
    destruct (noise_attempt_series _ _ _ _ _ _ _ Ha)
      as (s0 & s' & Hs0 & -> & _ & Hcase).
    destruct (list_eq_dec Z.eq_dec c a) as [->|Hne].
    + rewrite getitem_setitem_same.
      destruct Hcase as [[_ ->]|(_ & Hd & Hf)]; [left; congruence|].
      right. exists s'. auto.
    + left. now apply getitem_setitem_other.
Qed.

Lemma noised_floats (xs ys : list value) :
  Forall2 noised xs ys -> forallb is_float ys = true.
Proof.
  induction 1 as [|x y xs ys [noise Hxy] _ IH]; [reflexivity|].
  simpl. now rewrite (py_add_float _ _ _ Hxy), IH.
Qed.

(** X10. With a positive epsilon, an unmasked numeric column that has
    rows is, in the table the run hands to the writer, a [float64] column
    of floats, whatever its dtype was: integer and boolean columns
    (identifiers included) become floats. *)
Theorem noised_column_becomes_float
    (E : Env) (inp out : pystr) (cols : list pystr) (eps : float)
    (st : State) (df : DataFrame) (c : pystr) (s : Series) :
  read_csv E inp = Ok df -> wf_frame df = true ->
  (0 <? eps)%float = true ->
  ~ In c cols -> getitem df c = Ok s ->
  is_numeric_dtype (dtype_of s) = true ->
  exists r st' df2 s2,
    anonymize_csv E inp out cols eps st = (r, st') /\
    run_outcome E out cols df st r st' df2 /\
    getitem df2 c = Ok s2 /\
    dtype_of s2 = Float64 /\
    forallb is_float (values s2) = true.
Proof.
  intros Hread Hwf Hpos Hnot Hs Hnum.
  destruct (usable_positive eps Hpos) as [Hdiv Href].
  destruct (run_facts E inp out cols eps st df Hread)
    as (df2 & r & st' & H2 & _ & Hrun & Hout & _).
  pose proof (mask_run_wf E cols df Hwf) as Hwf1.
  set (df1 := fst (mask_run E df cols)) in *.
  assert (Hs1 : getitem df1 c = Ok s) by (unfold df1; now rewrite mask_run_other).
  pose proof (wf_frame_fits df c s Hwf Hs) as Hfit.
  pose proof (getitem_columns _ _ _ Hs1) as Hin1.
  destruct (noise_run_noised E eps _ (columns df1) df1 (rng_calls st) c s
              Hdiv Href) as (df2' & s2 & k & H2' & Hc2 & _ & _ & Hfrom);
    auto using incl_refl.
  { apply unique_NoDup. now apply andb_true_iff in Hwf1 as [Hu _]. }
  assert (df2' = df2) by congruence. subst df2'.
  exists r, st', df2, s2. split; [exact Hrun|]. split; [exact Hout|].
  split; [exact Hc2|].
  assert (Hfl : forallb is_float (values s2) = true).
  { eapply noised_floats, noised_from_rel. exact Hfrom. }
  split; [|exact Hfl].
  destruct (noise_run_column_kind E eps _ _ _ _ c H2) as [Hsame|(s2' & Hs2' & Hd & _)].
  - (* the column came back as it was: it held floats already *)
    assert (s2 = s) by congruence. subst s2.
    apply andb_true_iff in Hwf as [_ Hser].
    pose proof (forallb_getitem wf_series _ _ _ Hser Hs) as Hws.
    unfold wf_series in Hws. apply andb_true_iff in Hws as [_ Hne].
    destruct (values s) as [|v vs]; [rewrite Hnum in Hne; discriminate|].
    simpl in Hfit, Hfl. apply andb_true_iff in Hfit as [Hfit _].
    apply andb_true_iff in Hfl as [Hfl _].
    destruct (dtype_of s), v; simpl in *; congruence.
  - congruence.
Qed.

(** X11. [hash_data] fails on exactly the strings [str.encode()] refuses,
    those that hold a lone surrogate, and then with [UnicodeEncodeError] and
    nothing else; on every other string it returns 64 hexadecimal
    characters. *)
Theorem hash_data_fails_only_on_surrogates (s : pystr) :
  (PyStr.encodable s = false <-> hash_data s = Raise UnicodeEncodeError) /\
  (forall e, hash_data s = Raise e -> e = UnicodeEncodeError) /\
  (PyStr.encodable s = true <->
   exists d, hash_data s = Ok d /\ is_hex64 d = true).
Proof.
  assert (Hraise : forall e, PyStr.encode s = Raise e -> e = UnicodeEncodeError).
  { induction s as [|c s IH]; simpl; intros e; [discriminate|].
    unfold PyStr.encode_cp.
    destruct (c <? 128); [|destruct (c <? 2048);
      [|destruct (PyStr.is_surrogate c); [now intros [= <-]|
        destruct (c <? 65536)]]];
      (destruct (PyStr.encode s); [discriminate|intros [= <-]; now apply IH]). }
  assert (Hok : PyStr.encodable s = true <->
                exists d, hash_data s = Ok d /\ is_hex64 d = true).
  { split.
    - intros H. destruct (hash_data_ok s H) as [d Hd].
      exists d. split; [exact Hd|]. eapply hash_data_hex; exact Hd.
    - intros (d & Hd & _). unfold hash_data in Hd.
      destruct (PyStr.encode s) as [bs|] eqn:He; [|discriminate].
      eapply PyStrFacts.encode_encodable; exact He. }
  assert (Hall : forall e, hash_data s = Raise e -> e = UnicodeEncodeError).
  { intros e. unfold hash_data.
    destruct (PyStr.encode s) as [bs|e0] eqn:He; [discriminate|].
    intros [= <-]. now apply Hraise. }
  split; [|split; [exact Hall|exact Hok]].
  split.
  - intros Hno. destruct (hash_data s) as [d|e] eqn:Hd.
    + assert (PyStr.encodable s = true); [|congruence].
      apply Hok. exists d. split; [reflexivity|].
      eapply hash_data_hex; exact Hd.
    + now rewrite (Hall e eq_refl).
  - intros Hr. destruct (PyStr.encodable s) eqn:Henc; [|reflexivity].
    destruct Hok as [Hok _]. destruct (Hok eq_refl) as (d & Hd & _).
    congruence.
Qed.

Lemma all_empty_getitem (df : DataFrame) (c : pystr) (s : Series) :
  nrows df 0 -> getitem df c = Ok s -> values s = [] /\ setitem df c (mkSeries (dtype_of s) []) = df.
Proof.
  intros Hall Hs. assert (Hv : values s = []).
  { apply getitem_ok_in in Hs. unfold nrows in Hall.
    rewrite Forall_forall in Hall. specialize (Hall _ Hs). simpl in Hall.
    now destruct (values s). }
  split; [exact Hv|]. now rewrite (series_eta _ Hv), (setitem_same _ _ _ Hs).
Qed.

(** X12. A table without rows (a file with a header only) goes through
    unchanged: whatever the mask list and the epsilon, zero or negative
    included, the table the run hands to the writer is the loaded table
    itself and the generator is never called. *)
Theorem empty_table_is_written_unchanged
    (E : Env) (inp out : pystr) (cols : list pystr) (eps : float)
    (st : State) (df : DataFrame) :
  read_csv E inp = Ok df -> nrows df 0 ->
  exists r st',
    anonymize_csv E inp out cols eps st = (r, st') /\
    run_outcome E out cols df st r st' df /\
    rng_calls st' = rng_calls st.
Proof.
  intros Hread Hall.
  assert (Hmask : forall l, fst (mask_run E df l) = df).
  { induction l as [|a l IH]; [reflexivity|].
    cbn [mask_run]. unfold mask_attempt.
    destruct (getitem df a) as [s|e] eqn:Hs; [|exact IH].
    destruct (all_empty_getitem df a s Hall Hs) as [Hv Hset].
    now rewrite Hv, Hset. }
  assert (Hnoise : forall l n, incl l (columns df) ->
                               noise_run E eps df l n = (Ok df, [], n)).
  { induction l as [|a l IH]; intros n Hincl; [reflexivity|].
    assert (Ha : In a (columns df)) by (apply Hincl; now left).
    assert (Hrest : incl l (columns df)) by (intros x Hx; apply Hincl; now right).
    cbn [noise_run]. destruct (getitem_in _ _ Ha) as [s Hs]. rewrite Hs.
    destruct (is_numeric_dtype (dtype_of s)); [|now apply IH].
    unfold noise_attempt. rewrite Hs.
    destruct (all_empty_getitem df a s Hall Hs) as [Hv Hset].
    rewrite Hv, Hset. now apply IH. }
  destruct (run_facts E inp out cols eps st df Hread)
    as (df2 & r & st' & H2 & _ & Hrun & Hout & Hlo & Hhi & _).
  unfold run_calls in Hhi.
  rewrite Hmask, (Hnoise _ _ (incl_refl _)) in *. cbn [fst snd] in *.
  injection H2 as <-.
  exists r, st'. split; [exact Hrun|]. split; [exact Hout|]. lia.
Qed.


Lemma add_error_raise (v : value) (e : exn) (noise : float) :
  add_error v = Some e -> py_add v noise = Raise e.
Proof.
  destruct v as [z|f|b|s]; simpl; try discriminate.
  - unfold py_float_of_int. destruct (Z.abs z <? float_overflow);
      [discriminate|now intros [= <-]].
  - now intros [= <-].
Qed.

(** X14. A failure in the middle of a column does not give the variates
    back: when [create_noisy_data] meets, after [k] cells it could add to, a
    cell it cannot (a string, or an integer too large for a float) and
    epsilon is positive, the generator has been called [k + 1] times, the
    last call for the cell that fails; the [TypeError] or [OverflowError] is
    caught, and the diagnostic is printed and the table returned as it was,
    unless standard output cannot print the diagnostic. *)
Theorem failed_noising_keeps_the_draws
    (E : Env) (df : DataFrame) (c : pystr) (eps : float) (st : State)
    (s : Series) (pre post : list value) (bad : value) (e : exn) :
  (0 <? eps)%float = true ->
  getitem df c = Ok s ->
  values s = pre ++ bad :: post ->
  forallb addable pre = true ->
  add_error bad = Some e ->
  create_noisy_data E df c eps st
  = if stdout_prints E (MsgNoiseError c e)
    then (Ok df,
          add_msg (set_rng st (rng_calls st + List.length pre + 1))
                  (MsgNoiseError c e))
    else (Raise UnicodeEncodeError,
          set_rng st (rng_calls st + List.length pre + 1)).
Proof.
  intros Hpos Hs Hv Hpre Hbad.
  destruct (usable_positive eps Hpos) as [Hdiv Href].
  assert (Hcells : forall l n,
             forallb addable l = true ->
             noise_cells E eps (l ++ bad :: post) n
             = (Raise e, (n + List.length l + 1)%nat)).
  { induction l as [|v l IH]; intros n Hl.
    - cbn [app noise_cells]. unfold noise_cell. rewrite Hdiv, Href.
      rewrite (add_error_raise _ _ _ Hbad). f_equal. simpl. lia.
    - simpl in Hl. apply andb_true_iff in Hl as [Hv0 Hl].
      cbn [app noise_cells]. unfold noise_cell at 1. rewrite Hdiv, Href.
      destruct (py_add_number v (laplace_variate E n 0%float
                                   (float_of_Z 1 / eps)%float) Hv0)
        as (f & _ & ->).
      rewrite (IH (S n) Hl). f_equal. simpl. lia. }
  rewrite create_noisy_data_eq. unfold noise_attempt. rewrite Hs, Hv.
  rewrite (Hcells pre (rng_calls st) Hpre).
  destruct (pre ++ bad :: post) eqn:Happ; [|reflexivity].
  destruct pre; discriminate.
Qed.
(* ===================================================================== *)
(** ** The further statements on small runs *)


Example demo_parse_error :
  anonymize_csv Demo2.env_parse Demo.in_csv Demo.out_csv [Demo.name] 1%float
                initial_state
  = (Ok tt, mkState [MsgParseError] 0 [] []).
Proof. vm_compute. reflexivity. Qed.


(** A writer that fails. *)
Example demo_write_error :
  stdout (snd (anonymize_csv Demo.env2 Demo.other_csv Demo.out_csv
                             [Demo.name] 1%float initial_state))
  = [MsgWriteError Demo.out_csv (OtherError "PermissionError")] /\
  files (snd (anonymize_csv Demo.env2 Demo.other_csv Demo.out_csv
                            [Demo.name] 1%float initial_state)) = [].
Proof. split; vm_compute; reflexivity. Qed.

Lemma mask_order_is_irrelevant_demo :
  exists r1 st1 r2 st2 df2,
    anonymize_csv Demo.env Demo.in_csv Demo.out_csv
                  [Demo.name; Demo.zip; Demo.age] 1%float initial_state
      = (r1, st1) /\
    anonymize_csv Demo.env Demo.in_csv Demo.out_csv
                  [Demo.zip; Demo.name; Demo.age] 1%float initial_state
      = (r2, st2) /\
    run_outcome Demo.env Demo.out_csv [Demo.name; Demo.zip; Demo.age]
                Demo.table initial_state r1 st1 df2 /\
    run_outcome Demo.env Demo.out_csv [Demo.zip; Demo.name; Demo.age]
                Demo.table initial_state r2 st2 df2 /\
    (wrote initial_state st1 Demo.out_csv df2
     <-> wrote initial_state st2 Demo.out_csv df2) /\
    (wrote initial_state st1 Demo.out_csv df2 ->
     r2 = r1 /\ files st2 = files st1 /\ rng_calls st2 = rng_calls st1 /\
     to_csv_calls st2 = to_csv_calls st1).
Proof.
  apply (mask_order_is_irrelevant Demo.env Demo.in_csv Demo.out_csv
           [Demo.name; Demo.zip; Demo.age] [Demo.zip; Demo.name; Demo.age]
           1%float initial_state Demo.table).
  - reflexivity.
  - apply perm_swap.
Defined.

Lemma other_columns_pass_through_demo :
  exists r st' df2,
    anonymize_csv Demo.env Demo.in_csv Demo.out_csv [Demo.zip] 1%float
                  initial_state = (r, st') /\
    run_outcome Demo.env Demo.out_csv [Demo.zip] Demo.table initial_state
                r st' df2 /\
    getitem df2 Demo.name
    = Ok (mkSeries ObjectDtype [VStr (PyStr.lit "Alice"); VStr (PyStr.lit "Bob")]).
Proof.
  apply (other_columns_pass_through Demo.env Demo.in_csv Demo.out_csv
           [Demo.zip] 1%float initial_state Demo.table Demo.name).
  - reflexivity.
  - intros [H|[]]. vm_compute in H. discriminate H.
  - reflexivity.
  - reflexivity.
Defined.

Lemma output_table_is_well_formed_demo :
  (exists r st' df2,
    anonymize_csv Demo.env Demo.in_csv Demo.out_csv [Demo.name] 1%float
                  initial_state = (r, st') /\
    run_outcome Demo.env Demo.out_csv [Demo.name] Demo.table initial_state
                r st' df2 /\
    wf_frame df2 = true /\
    forall n, nrows Demo.table n -> nrows df2 n)
  /\ nrows Demo.table 2.
Proof.
  split.
  - apply (output_table_is_well_formed Demo.env Demo.in_csv Demo.out_csv
             [Demo.name] 1%float initial_state Demo.table).
    + reflexivity.
    + vm_compute. reflexivity.
  - repeat constructor.
Defined.

Lemma clean_run_diagnostics_demo :
  exists r st' df2,
    anonymize_csv Demo.env Demo.in_csv Demo.out_csv [Demo.zip; Demo.name]
                  1%float initial_state = (r, st') /\
    run_outcome Demo.env Demo.out_csv [Demo.zip; Demo.name] Demo.table
                initial_state r st' df2 /\
    (prints_about Demo.env (absent Demo.table [Demo.zip; Demo.name]) ->
     wrote initial_state st' Demo.out_csv df2) /\
    (~ wrote initial_state st' Demo.out_csv df2 ->
     r = Raise UnicodeEncodeError /\
     stdout st' = stdout initial_state
                  ++ printed Demo.env
                       (map (fun c => MsgHashError c (KeyError c))
                            (absent Demo.table [Demo.zip; Demo.name]))) /\
    (wrote initial_state st' Demo.out_csv df2 ->
     exists tail,
       stdout st' = stdout initial_state
                    ++ map (fun c => MsgHashError c (KeyError c))
                           (absent Demo.table [Demo.zip; Demo.name])
                    ++ tail /\
       (List.length tail <= 1)%nat /\
       (forall m, In m tail -> is_column_error m = false)) /\
    (prints_about Demo.env
       (Demo.out_csv :: absent Demo.table [Demo.zip; Demo.name]) ->
     r = Ok tt /\
     exists m,
       stdout st' = stdout initial_state
                    ++ map (fun c => MsgHashError c (KeyError c))
                           (absent Demo.table [Demo.zip; Demo.name])
                    ++ [m] /\
       is_column_error m = false).
Proof.
  apply (clean_run_diagnostics Demo.env Demo.in_csv Demo.out_csv
           [Demo.zip; Demo.name] 1%float initial_state Demo.table).
  - reflexivity.
  - vm_compute. reflexivity.
  - reflexivity.
Defined.

Lemma one_draw_per_noised_cell_demo :
  exists rm df1 st1 r st',
    mask_data Demo.env Demo.table [Demo.name] initial_state = (rm, st1) /\
    mask_outcome Demo.env [Demo.name] rm df1 /\
    anonymize_csv Demo.env Demo.in_csv Demo.out_csv [Demo.name] 1%float
                  initial_state = (r, st') /\
    (rm = Ok df1 ->
     rng_calls st' = (rng_calls initial_state + numeric_cells df1)%nat) /\
    (rm = Raise UnicodeEncodeError -> rng_calls st' = rng_calls initial_state).
Proof.
  apply (one_draw_per_noised_cell Demo.env Demo.in_csv Demo.out_csv
           [Demo.name] 1%float initial_state Demo.table).
  - reflexivity.
  - vm_compute. reflexivity.
  - reflexivity.
Defined.

Lemma noised_column_becomes_float_demo :
  exists r st' df2 s2,
    anonymize_csv Demo.env Demo.in_csv Demo.out_csv [Demo.name] 1%float
                  initial_state = (r, st') /\
    run_outcome Demo.env Demo.out_csv [Demo.name] Demo.table initial_state
                r st' df2 /\
    getitem df2 Demo.id_ = Ok s2 /\
    dtype_of s2 = Float64 /\
    forallb is_float (values s2) = true.
Proof.
  apply (noised_column_becomes_float Demo.env Demo.in_csv Demo.out_csv
           [Demo.name] 1%float initial_state Demo.table Demo.id_
           (mkSeries Int64 [VInt 1; VInt 2])).
  - reflexivity.
  - vm_compute. reflexivity.
  - reflexivity.
  - intros [H|[]]. vm_compute in H. discriminate H.
  - reflexivity.
  - reflexivity.
Defined.

Lemma empty_table_is_written_unchanged_demo :
  exists r st',
    anonymize_csv Demo2.env_empty Demo.in_csv Demo.out_csv [Demo.name]
                  0%float initial_state = (r, st') /\
    run_outcome Demo2.env_empty Demo.out_csv [Demo.name] Demo2.header_only
                initial_state r st' Demo2.header_only /\
    rng_calls st' = rng_calls initial_state.
Proof.
  apply (empty_table_is_written_unchanged Demo2.env_empty Demo.in_csv
           Demo.out_csv [Demo.name] 0%float initial_state Demo2.header_only).
  - reflexivity.
  - repeat constructor.
Defined.

Example demo_header_only :
  anonymize_csv Demo2.env_empty Demo.in_csv Demo.out_csv [Demo.name]
                0%float initial_state
  = (Ok tt,
     mkState [MsgWritten Demo.out_csv] 0
             [(Demo.out_csv, Demo2.header_only)]
             [(Demo.out_csv, Demo2.header_only)]).
Proof. vm_compute. reflexivity. Qed.


Example demo_missing_label :
  create_noisy_data Demo.env Demo.table Demo.zip 1%float initial_state
  = (Ok Demo.table,
     mkState [MsgNoiseError Demo.zip (KeyError Demo.zip)] 0 [] []).
Proof. vm_compute. reflexivity. Qed.

(** An integer beyond the range of floats after one cell that can be
    added to: two draws, then [OverflowError]. *)
Lemma failed_noising_keeps_the_draws_demo :
  create_noisy_data Demo.env Demo2.huge Demo.age 1%float initial_state
  = if stdout_prints Demo.env (MsgNoiseError Demo.age OverflowError)
    then (Ok Demo2.huge,
          add_msg (set_rng initial_state
                           (rng_calls initial_state + List.length [VInt 5] + 1))
                  (MsgNoiseError Demo.age OverflowError))
    else (Raise UnicodeEncodeError,
          set_rng initial_state
                  (rng_calls initial_state + List.length [VInt 5] + 1)).
Proof.
  apply (failed_noising_keeps_the_draws Demo.env Demo2.huge Demo.age 1%float
           initial_state
           (mkSeries ObjectDtype [VInt 5; VInt (2 ^ 1024); VInt 2])
           [VInt 5] [VInt 2] (VInt (2 ^ 1024)) OverflowError).
  - reflexivity.
  - reflexivity.
  - reflexivity.
  - reflexivity.
  - reflexivity.
Defined.

Example demo_overflow :
  create_noisy_data Demo.env Demo2.huge Demo.age 1%float initial_state
  = (Ok Demo2.huge, mkState [MsgNoiseError Demo.age OverflowError] 2 [] []) /\
  create_noisy_data Demo.env
    [(Demo.age, mkSeries ObjectDtype [VInt (2 ^ 1024)])] Demo.age 1%float
    initial_state
  = (Ok [(Demo.age, mkSeries ObjectDtype [VInt (2 ^ 1024)])],
     mkState [MsgNoiseError Demo.age OverflowError] 1 [] []).
Proof. split; vm_compute; reflexivity. Qed.

(** A string between two integers: two draws, then [TypeError]. *)
Example demo_mixed :
  create_noisy_data Demo.env Demo2.mixed Demo.age 1%float initial_state
  = (Ok Demo2.mixed, mkState [MsgNoiseError Demo.age TypeError] 2 [] []).
Proof. vm_compute. reflexivity. Qed.
